(** * ClipDeck: session adapter and device aggregator

    A shallow embedding of the two processes of the ClipDeck repository:

    - [Session]: the control surface of [ClipDeck_CS/clipdeck_cs.py]
      (class [ClipDeck]): window offsets, config handshake, scrolling,
      clip triggering and the 32-cell snapshot.
    - [Hardware]: the device side of [clipdeck.py] ([DeckManager] and the
      OSC handlers, the key poller, the timers and the offline monitor).

    Conventions of the embedding.
    - Python [int] is [Z].  A Python [float] that holds a clip position,
      a clip length or a progress value is a binary64 number
      ([spec_float] of the Standard Library at precision 53, rounded to
      nearest even, with its infinities, its NaN and its two zeros); see
      [Float].  A point in time ([time.time()], a flash or timer deadline)
      is an exact rational [Q]: the handlers only add and compare such
      values, and the rounding of these sums is outside the model.  The
      integers [-1] and [-2] that the drawing code passes as
      progress are written as the floats of the same value, which is how
      Python compares them.
    - A [dict] is a [gmap], a [set] is a [gset].
    - A [try: ... except: pass] block is a computation in [option] whose
      [None] is absorbed by the handler; mutations made before the raise
      are kept, as in the source.
    - Calls into external collaborators (the UDP client, the session ring,
      the Live clip slots, the Stream Deck image update) are recorded in an
      output log in call order; they are assumed not to raise.
    - [time.time()] is an input of each handler. *)

From Stdlib Require Import ZArith QArith Qround Bool List String Ascii Lia.
From Stdlib Require Import Floats.SpecFloat.
From stdpp Require Import base gmap strings list pretty.
Import ListNotations.

Local Open Scope Z_scope.

(** ** Python helpers *)

Module Py.

(** [s.endswith(suffix)] *)
Definition endswith (s suffix : string) : bool :=
  let n := String.length s in
  let m := String.length suffix in
  if (m <=? n)%nat
  then String.eqb (String.substring (n - m) m s) suffix
  else false.

(** [s.replace(old, new)] for a non-empty [old]: left to right, without
    overlap.  [skip] counts the characters of a match still to be dropped. *)
Fixpoint replace_aux (old new : string) (skip : nat) (s : string) : string :=
  match s with
  | EmptyString => EmptyString
  | String c rest =>
      match skip with
      | S k => replace_aux old new k rest
      | O =>
          if String.prefix old s
          then
            String.append new
              (replace_aux old new (String.length old - 1) rest)
          else String c (replace_aux old new 0 rest)
      end
  end.

Definition replace (s old new : string) : string := replace_aux old new 0 s.

(** [l[i]] on a Python sequence: negative indices count from the end, an
    index out of range raises [IndexError] ([None]). *)
Definition index {A} (l : list A) (i : Z) : option A :=
  let n := Z.of_nat (List.length l) in
  if 0 <=? i then l !! Z.to_nat i
  else if 0 <=? n + i then l !! Z.to_nat (n + i)
  else None.

(** [range(n)] as a list of [Z]. *)
Definition range (n : nat) : list Z := List.map Z.of_nat (List.seq 0 n).

(** The comparison [a < b] of two points in time. *)
Definition Qltb (a b : Q) : bool := negb (Qle_bool b a).

End Py.

(** ** Python floats *)

(** The operations of Python's [float] on binary64 numbers.  [x == y],
    [x <= y] and [x < y] are [SFeqb], [SFleb] and [SFltb]: a NaN compares
    false with everything, the two zeros compare equal. *)
Module Float.

Definition prec : Z := 53.
Definition emax : Z := 1024.

(** The float of an integer literal, such as [16.0] or [-1]; Python
    compares an [int] with a [float] by value. *)
Definition of_Z (z : Z) : spec_float := binary_normalize prec emax z 0 false.

(** [x * y] *)
Definition mul (x y : spec_float) : spec_float := SFmul prec emax x y.

(** [x / y] for a divisor other than zero; Python raises
    [ZeroDivisionError] on a zero divisor before it divides. *)
Definition div (x y : spec_float) : spec_float := SFdiv prec emax x y.

(** [int(x)]: truncation towards zero; [None] stands for the
    [OverflowError] of an infinity and the [ValueError] of a NaN. *)
Definition to_int (x : spec_float) : option Z :=
  match x with
  | S754_zero _ => Some 0
  | S754_finite s m e =>
      let n := if 0 <=? e then Z.pos m * 2 ^ e else Z.pos m / 2 ^ (- e) in
      Some (if s then - n else n)
  | S754_infinity _ | S754_nan => None
  end.

(** Whether a float is a number, that is, neither an infinity nor a
    NaN. *)
Definition is_number (x : spec_float) : bool :=
  match x with
  | S754_zero _ | S754_finite _ _ _ => true
  | S754_infinity _ | S754_nan => false
  end.

(** The rational a number stands for: [m * 2 ^ e] with its sign. *)
Definition real (x : spec_float) : Q :=
  match x with
  | S754_finite s m e =>
      let n := if s then Z.neg m else Z.pos m in
      if 0 <=? e then inject_Z (n * 2 ^ e)
      else n # Pos.pow 2 (Z.to_pos (- e))
  | _ => 0
  end.

(** Two floats are the same number: what [==] decides. *)
Definition same_number (x y : spec_float) : Prop :=
  SFcompare x y = Some Eq.

End Float.

(** ** OSC arguments *)

(** An argument of an OSC message, as python-osc hands it to a handler. *)
Inductive osc_arg : Type :=
  | OInt (z : Z)
  | OFloat (x : spec_float)
  | OStr (s : string).

Module Osc.

Section Conversions.

(** Python's [int] applied to a [str]: [None] stands for [ValueError]. *)
Variable int_of_str : string -> option Z.

(** [int(x)] for an OSC argument. *)
Definition py_int (a : osc_arg) : option Z :=
  match a with
  | OInt z => Some z
  | OFloat x => Float.to_int x
  | OStr s => int_of_str s
  end.

End Conversions.

(** [bool(x)] for an OSC argument. *)
Definition py_bool (a : osc_arg) : bool :=
  match a with
  | OInt z => negb (z =? 0)
  | OFloat x => negb (SFeqb x (Float.of_Z 0))
  | OStr s => negb (String.eqb s EmptyString)
  end.

End Osc.

(** ** The session adapter ([ClipDeck_CS/clipdeck_cs.py]) *)

Module Session.

(** *** The session read API (Live) *)

Record Clip : Type := mkClip {
  name : string;
  color : Z;
  is_playing : bool;
  is_triggered : bool;
  playing_position : spec_float;
  clip_length : spec_float          (* [clip.length] *)
}.

(** A clip slot: [has_clip] is [is_Some], [clip] the content. *)
Definition ClipSlot : Type := option Clip.

Record Track : Type := mkTrack { clip_slots : list ClipSlot }.

(** [song.tracks] and [len(song.scenes)]. *)
Record Song : Type := mkSong { tracks : list Track; scenes : nat }.

Definition len_tracks (song : Song) : Z := Z.of_nat (List.length (tracks song)).
Definition len_scenes (song : Song) : Z := Z.of_nat (scenes song).

(** *** Calls to external collaborators, in call order *)

Inductive action : Type :=
  | OscSend (port : Z) (address : string) (args : list osc_arg)
  | RingSetOffsets (h v : Z)          (* [_session_ring.set_offsets] *)
  | Fire (track scene : Z)            (* [clip_slot.fire()] *)
  | StopAllClips (track : Z).         (* [track.stop_all_clips()] *)

(** *** The fields of [ClipDeck] the handlers read and write *)

Record ClipDeck : Type := mkClipDeck {
  config_received : bool;
  debug_mode : bool;
  debug_client : option Z;            (* port of [_debug_client], if any *)
  display_order : Z;
  h_offset : Z;
  initial_h_offset : Z;
  v_offset : Z;
  last_applied_h_offset : Z;
  last_applied_v_offset : Z;
  structural_mismatch : bool;
  osc_send_port : Z;
  out : list action
}.

Definition num_tracks : Z := 8.
Definition num_scenes : Z := 4.
Definition OSC_BASE_SEND_PORT : Z := 9000.
Definition OSC_BASE_RECV_PORT : Z := 9001.

(** [__init__] for a given default display order. *)
Definition init (order : Z) : ClipDeck :=
  {| config_received := false;
     debug_mode := false;
     debug_client := None;
     display_order := order;
     h_offset := 0;
     initial_h_offset := 0;
     v_offset := 0;
     last_applied_h_offset := -1;
     last_applied_v_offset := -1;
     structural_mismatch := false;
     osc_send_port := OSC_BASE_SEND_PORT + order * 10;
     out := [] |}.

Definition set_h_offset (h : Z) (s : ClipDeck) : ClipDeck :=
  {| config_received := config_received s; debug_mode := debug_mode s;
     debug_client := debug_client s; display_order := display_order s;
     h_offset := h; initial_h_offset := initial_h_offset s;
     v_offset := v_offset s;
     last_applied_h_offset := last_applied_h_offset s;
     last_applied_v_offset := last_applied_v_offset s;
     structural_mismatch := structural_mismatch s;
     osc_send_port := osc_send_port s; out := out s |}.

Definition set_initial_h_offset (h : Z) (s : ClipDeck) : ClipDeck :=
  {| config_received := config_received s; debug_mode := debug_mode s;
     debug_client := debug_client s; display_order := display_order s;
     h_offset := h_offset s; initial_h_offset := h;
     v_offset := v_offset s;
     last_applied_h_offset := last_applied_h_offset s;
     last_applied_v_offset := last_applied_v_offset s;
     structural_mismatch := structural_mismatch s;
     osc_send_port := osc_send_port s; out := out s |}.

Definition set_v_offset (v : Z) (s : ClipDeck) : ClipDeck :=
  {| config_received := config_received s; debug_mode := debug_mode s;
     debug_client := debug_client s; display_order := display_order s;
     h_offset := h_offset s; initial_h_offset := initial_h_offset s;
     v_offset := v;
     last_applied_h_offset := last_applied_h_offset s;
     last_applied_v_offset := last_applied_v_offset s;
     structural_mismatch := structural_mismatch s;
     osc_send_port := osc_send_port s; out := out s |}.

Definition set_last_applied (h v : Z) (s : ClipDeck) : ClipDeck :=
  {| config_received := config_received s; debug_mode := debug_mode s;
     debug_client := debug_client s; display_order := display_order s;
     h_offset := h_offset s; initial_h_offset := initial_h_offset s;
     v_offset := v_offset s;
     last_applied_h_offset := h;
     last_applied_v_offset := v;
     structural_mismatch := structural_mismatch s;
     osc_send_port := osc_send_port s; out := out s |}.

Definition set_config_received (b : bool) (s : ClipDeck) : ClipDeck :=
  {| config_received := b; debug_mode := debug_mode s;
     debug_client := debug_client s; display_order := display_order s;
     h_offset := h_offset s; initial_h_offset := initial_h_offset s;
     v_offset := v_offset s;
     last_applied_h_offset := last_applied_h_offset s;
     last_applied_v_offset := last_applied_v_offset s;
     structural_mismatch := structural_mismatch s;
     osc_send_port := osc_send_port s; out := out s |}.

Definition set_debug_mode (b : bool) (s : ClipDeck) : ClipDeck :=
  {| config_received := config_received s; debug_mode := b;
     debug_client := debug_client s; display_order := display_order s;
     h_offset := h_offset s; initial_h_offset := initial_h_offset s;
     v_offset := v_offset s;
     last_applied_h_offset := last_applied_h_offset s;
     last_applied_v_offset := last_applied_v_offset s;
     structural_mismatch := structural_mismatch s;
     osc_send_port := osc_send_port s; out := out s |}.

Definition set_debug_client (c : option Z) (s : ClipDeck) : ClipDeck :=
  {| config_received := config_received s; debug_mode := debug_mode s;
     debug_client := c; display_order := display_order s;
     h_offset := h_offset s; initial_h_offset := initial_h_offset s;
     v_offset := v_offset s;
     last_applied_h_offset := last_applied_h_offset s;
     last_applied_v_offset := last_applied_v_offset s;
     structural_mismatch := structural_mismatch s;
     osc_send_port := osc_send_port s; out := out s |}.

Definition set_structural_mismatch (b : bool) (s : ClipDeck) : ClipDeck :=
  {| config_received := config_received s; debug_mode := debug_mode s;
     debug_client := debug_client s; display_order := display_order s;
     h_offset := h_offset s; initial_h_offset := initial_h_offset s;
     v_offset := v_offset s;
     last_applied_h_offset := last_applied_h_offset s;
     last_applied_v_offset := last_applied_v_offset s;
     structural_mismatch := b;
     osc_send_port := osc_send_port s; out := out s |}.

(** Append calls to the output log. *)
Definition emit (acts : list action) (s : ClipDeck) : ClipDeck :=
  {| config_received := config_received s; debug_mode := debug_mode s;
     debug_client := debug_client s; display_order := display_order s;
     h_offset := h_offset s; initial_h_offset := initial_h_offset s;
     v_offset := v_offset s;
     last_applied_h_offset := last_applied_h_offset s;
     last_applied_v_offset := last_applied_v_offset s;
     structural_mismatch := structural_mismatch s;
     osc_send_port := osc_send_port s; out := out s ++ acts |}.

(** *** [_handle_scroll] *)

(** The first lines of [_handle_scroll]: strip the [-fast] modifier and
    pick the step. *)
Definition scroll_step (direction : string) : string * Z :=
  if Py.endswith direction "-fast"
  then (Py.replace direction "-fast" EmptyString, 4)
  else (direction, 1).

Definition handle_scroll (song : Song) (direction : string) (s : ClipDeck)
  : ClipDeck :=
  let '(direction, step) := scroll_step direction in
  let old_h := h_offset s in
  let old_v := v_offset s in
  let s :=
    if String.eqb direction "up" then
      set_v_offset (Z.max 0 (v_offset s - step)) s
    else if String.eqb direction "down" then
      let max_offset := Z.max 0 (len_scenes song - num_scenes) in
      set_v_offset (Z.min max_offset (v_offset s + step)) s
    else if String.eqb direction "left" then
      set_h_offset (Z.max 0 (h_offset s - step)) s
    else if String.eqb direction "right" then
      let max_h_offset := Z.max 0 (len_tracks song - num_tracks) in
      set_h_offset (Z.min max_h_offset (h_offset s + step)) s
    else if String.eqb direction "reset" then
      set_h_offset (initial_h_offset s) s
    else s in
  if negb (h_offset s =? old_h) || negb (v_offset s =? old_v) then
    set_last_applied (h_offset s) (v_offset s)
      (emit [RingSetOffsets (h_offset s) (v_offset s)] s)
  else s.

(** [_osc_scroll_handler]: a missing argument is ignored; an argument that
    is not a string makes [direction.endswith] raise, which the handler
    swallows before anything was written. *)
Definition osc_scroll_handler (song : Song) (args : list osc_arg)
  (s : ClipDeck) : ClipDeck :=
  match args with
  | OStr direction :: _ => handle_scroll song direction s
  | _ => s
  end.

(** *** Sending *)

(** [_osc_send]: the message goes to the client and, in debug mode, also
    to the debug client. *)
Definition osc_send (address : string) (args : list osc_arg) (s : ClipDeck)
  : ClipDeck :=
  let dbg :=
    if debug_mode s then
      match debug_client s with
      | Some port => [OscSend port address args]
      | None => []
      end
    else [] in
  emit (OscSend (osc_send_port s) address args :: dbg) s.

(** The dict and list messages [_send_message] understands. *)
Inductive message : Type :=
  | MsgAblonline
  | MsgStructuralMismatch (show : bool)
  | MsgDocumentClosing
  | MsgTrackStopped (track_index : Z) (was_playing : bool)
  | MsgClipInfo (cells : list string).

Definition int_of_bool (b : bool) : Z := if b then 1 else 0.

Definition send_message (m : message) (s : ClipDeck) : ClipDeck :=
  match m with
  | MsgAblonline => osc_send "/ablonline" [OInt (display_order s)] s
  | MsgStructuralMismatch show =>
      osc_send "/structural_mismatch"
        [OInt (display_order s); OInt (int_of_bool show)] s
  | MsgDocumentClosing =>
      osc_send "/document_closing" [OInt (display_order s)] s
  | MsgTrackStopped track_index was_playing =>
      osc_send "/track_stopped"
        [OInt (display_order s); OInt track_index;
         OInt (int_of_bool was_playing)] s
  | MsgClipInfo cells =>
      osc_send "/clip_info" (OInt (display_order s) :: List.map OStr cells) s
  end.

(** *** [_check_structural_validity] *)

Definition check_structural_validity (song : Song) (s : ClipDeck)
  : bool * ClipDeck :=
  let available_tracks := len_tracks song in
  if available_tracks <=? h_offset s then
    (false,
     if negb (structural_mismatch s)
     then send_message (MsgStructuralMismatch true)
            (set_structural_mismatch true s)
     else s)
  else
    (true,
     if structural_mismatch s
     then send_message (MsgStructuralMismatch false)
            (set_structural_mismatch false s)
     else s).

(** *** The snapshot of [_prepare_and_send_clip_info] *)

(** One cell of the snapshot before it is formatted. *)
Record Cell : Type := mkCell { label : string; cell_color : Z; code : Z }.

(** The f-string ["{name}|{color}|{code}"]. *)
Definition cell_wire (c : Cell) : string :=
  String.append (label c)
    (String.append "|"
       (String.append (pretty (cell_color c))
          (String.append "|" (pretty (code c))))).

(** [any(slot.has_clip and (slot.clip.is_playing or slot.clip.is_triggered)
        for slot in track.clip_slots)] *)
Definition any_slot_active (track : Track) : bool :=
  existsb
    (fun slot : ClipSlot =>
       match slot with
       | Some clip => is_playing clip || is_triggered clip
       | None => false
       end)
    (clip_slots track).

(** The first loop: the dict [track_is_playing]. *)
Definition track_is_playing_step (song : Song) (h : Z)
  (acc : option (gmap Z bool)) (track_index : Z) : option (gmap Z bool) :=
  m ← acc;
  let actual_track_idx := h + track_index in
  if actual_track_idx <? len_tracks song then
    track ← Py.index (tracks song) actual_track_idx;
    Some (<[track_index := any_slot_active track]> m)
  else Some (<[track_index := false]> m).

Definition build_track_is_playing (song : Song) (h : Z)
  : option (gmap Z bool) :=
  List.fold_left (track_is_playing_step song h) (Py.range 8) (Some ∅).

(** [raw_progress = clip.playing_position / clip.length] and
    [max(0, min(int(raw_progress * 16), 15)) + 1]; a zero length raises
    [ZeroDivisionError], and [int] raises on a product that is not a
    number. *)
Definition progress_val (clip : Clip) : option Z :=
  if SFeqb (clip_length clip) (Float.of_Z 0) then None
  else
    let raw_progress :=
      Float.div (playing_position clip) (clip_length clip) in
    n ← Float.to_int (Float.mul raw_progress (Float.of_Z 16));
    Some (Z.max 0 (Z.min n 15) + 1).

(** The body of the inner loop for one [(scene_index, track_index)]. *)
Definition cell_for (song : Song) (h v : Z) (track_is_playing : gmap Z bool)
  (scene_index track_index : Z) : option Cell :=
  let actual_scene_idx := v + scene_index in
  let actual_track_idx := h + track_index in
  if (len_tracks song <=? actual_track_idx)
     || (len_scenes song <=? actual_scene_idx)
  then Some (mkCell "X" 3276800 (-4))
  else
    track ← Py.index (tracks song) actual_track_idx;
    clip_slot ← Py.index (clip_slots track) actual_scene_idx;
    match clip_slot with
    | Some clip =>
        if is_playing clip then
          p ← progress_val clip;
          Some (mkCell (name clip) (color clip) p)
        else if is_triggered clip then
          Some (mkCell (name clip) (color clip) (-1))
        else
          playing ← track_is_playing !! track_index;
          if (playing : bool)
          then Some (mkCell (name clip) (color clip) (-2))
          else Some (mkCell (name clip) (color clip) (-3))
    | None =>
        playing ← track_is_playing !! track_index;
        if negb (playing : bool)
        then Some (mkCell " " 0 (-3))
        else Some (mkCell " " 0 (-2))
    end.

(** The iteration order of the two nested loops: scene outer, track
    inner. *)
Definition cell_order : list (Z * Z) :=
  List.flat_map
    (fun scene_index =>
       List.map (fun track_index => (scene_index, track_index)) (Py.range 8))
    (Py.range 4).

(** The list [clip_info], or [None] when building it raised. *)
Definition snapshot (song : Song) (h v : Z) : option (list Cell) :=
  track_is_playing ← build_track_is_playing song h;
  mapM (fun p : Z * Z => cell_for song h v track_is_playing p.1 p.2)
    cell_order.

Definition prepare_and_send_clip_info (song : Song) (s : ClipDeck)
  : ClipDeck :=
  if negb (config_received s) then s
  else if len_tracks song <=? h_offset s then s
  else
    match snapshot song (h_offset s) (v_offset s) with
    | Some clip_info =>
        send_message (MsgClipInfo (List.map cell_wire clip_info)) s
    | None => s
    end.

(** *** [_handle_trigger_clip] *)

(** The absolute slot a trigger with window-relative offsets addresses. *)
Definition trigger_target (s : ClipDeck) (track_offset scene_offset : Z)
  : Z * Z :=
  (h_offset s + track_offset, v_offset s + scene_offset).

(** [song] is the session when the message arrives, [song'] the session as
    Live presents it after [fire] or [stop_all_clips] returned. *)
Definition handle_trigger_clip (song song' : Song)
  (track_offset scene_offset : Z) (s : ClipDeck) : ClipDeck :=
  let '(track_index, scene_index) :=
    trigger_target s track_offset scene_offset in
  if (0 <=? track_index) && (track_index <? len_tracks song)
     && (0 <=? scene_index) && (scene_index <? len_scenes song)
  then
    match
      track ← Py.index (tracks song) track_index;
      clip_slot ← Py.index (clip_slots track) scene_index;
      Some (track, clip_slot)
    with
    | None => s
    | Some (track, clip_slot) =>
        let s :=
          match clip_slot with
          | Some _ => emit [Fire track_index scene_index] s
          | None =>
              let track_is_playing := any_slot_active track in
              send_message (MsgTrackStopped track_offset track_is_playing)
                (emit [StopAllClips track_index] s)
          end in
        let '(valid, s) := check_structural_validity song' s in
        if valid then prepare_and_send_clip_info song' s else s
    end
  else s.

(** [_osc_trigger_clip_handler]: the offsets are added to integers and
    used as indices, so anything but two integers raises and is dropped. *)
Definition osc_trigger_clip_handler (song song' : Song)
  (args : list osc_arg) (s : ClipDeck) : ClipDeck :=
  match args with
  | [OInt track_offset; OInt scene_offset] =>
      handle_trigger_clip song song' track_offset scene_offset s
  | _ => s
  end.

(** [_on_offset_changed] *)
Definition on_offset_changed (song : Song) (s : ClipDeck) : ClipDeck :=
  prepare_and_send_clip_info song (check_structural_validity song s).2.

(** [_osc_pyonline_handler] *)
Definition osc_pyonline_handler (s : ClipDeck) : ClipDeck :=
  osc_send "/ablonline" [OInt (display_order s)] s.

(** One round of the [_send_ablonline] loop while the song plays. *)
Definition send_ablonline_round (s : ClipDeck) : ClipDeck :=
  let s := send_message MsgAblonline s in
  if structural_mismatch s
  then send_message (MsgStructuralMismatch true) s
  else s.

Section Parsing.

(** Python's [int] applied to a [str]: [None] stands for [ValueError]. *)
Variable int_of_str : string -> option Z.

Local Abbreviation py_int := (Osc.py_int int_of_str).

(** The argument parsing at the head of [_osc_config_handler]: display
    order, horizontal offset and debug flag, or [None] when there are
    fewer than two arguments or a conversion raises. *)
Definition config_args (args : list osc_arg) : option (Z * Z * bool) :=
  match args with
  | a0 :: a1 :: rest =>
      display_order ← py_int a0;
      h_offset ← py_int a1;
      debug_mode ←
        match rest with
        | a2 :: _ => (fun z => negb (z =? 0)) <$> py_int a2
        | [] => Some false
        end;
      Some (display_order, h_offset, debug_mode)
  | _ => None
  end.

(** *** [_osc_config_handler] *)
Definition osc_config_handler (song : Song) (args : list osc_arg)
  (s : ClipDeck) : ClipDeck :=
  match config_args args with
  | Some (order, h, debug) =>
      if order =? display_order s then
        let first_config := negb (config_received s) in
        let s :=
          if first_config
          then set_initial_h_offset h (set_h_offset h s)
          else s in
        let s := set_config_received true s in
        let s := set_debug_mode debug s in
        let s :=
          if debug
          then set_debug_client (Some (osc_send_port s + 1000)) s
          else s in
        let s :=
          if first_config
             && (negb (h_offset s =? last_applied_h_offset s)
                 || negb (v_offset s =? last_applied_v_offset s))
          then
            prepare_and_send_clip_info song
              (set_last_applied (h_offset s) (v_offset s)
                 (emit [RingSetOffsets (h_offset s) (v_offset s)] s))
          else s in
        osc_send "/ablonline" [OInt (display_order s)] s
      else s
  | None => s
  end.

(** [_osc_refresh_handler]; a conversion error leaves the state as it
    is. *)
Definition osc_refresh_handler (song : Song) (args : list osc_arg)
  (s : ClipDeck) : ClipDeck :=
  match
    match args with
    | a0 :: _ => py_int a0
    | [] => Some (display_order s)
    end
  with
  | Some order =>
      if order =? display_order s then
        osc_send "/ablonline" [OInt (display_order s)]
          (prepare_and_send_clip_info song s)
      else s
  | None => s
  end.

(** *** The adapter as a machine over its inputs *)

Inductive event : Type :=
  | EvConfig (song : Song) (args : list osc_arg)
  | EvScroll (song : Song) (args : list osc_arg)
  | EvTriggerClip (song song' : Song) (args : list osc_arg)
  | EvRefresh (song : Song) (args : list osc_arg)
  | EvPyonline
  | EvOffsetChanged (song : Song)
  | EvSongChanged (song : Song)      (* [_on_song_changed], [_poll_clips] *)
  | EvAnnounce.                      (* [_send_ablonline] *)

Definition step (s : ClipDeck) (e : event) : ClipDeck :=
  match e with
  | EvConfig song args => osc_config_handler song args s
  | EvScroll song args => osc_scroll_handler song args s
  | EvTriggerClip song song' args => osc_trigger_clip_handler song song' args s
  | EvRefresh song args => osc_refresh_handler song args s
  | EvPyonline => osc_pyonline_handler s
  | EvOffsetChanged song => on_offset_changed song s
  | EvSongChanged song => prepare_and_send_clip_info song s
  | EvAnnounce => send_ablonline_round s
  end.

Definition run (s : ClipDeck) (es : list event) : ClipDeck :=
  List.fold_left step es s.

(** A config message the adapter with display order [order] accepts. *)
Definition accepted (order : Z) (args : list osc_arg) : option (Z * bool) :=
  match config_args args with
  | Some (o, h, debug) => if o =? order then Some (h, debug) else None
  | None => None
  end.

Definition is_accepted_config (order : Z) (e : event) : bool :=
  match e with
  | EvConfig _ args =>
      match accepted order args with Some _ => true | None => false end
  | _ => false
  end.

End Parsing.

(** The scroll commands of the message catalogue and their wire form. *)
Inductive scroll_direction : Type := Up | Down | Left | Right | Reset.

Definition direction_name (d : scroll_direction) : string :=
  match d with
  | Up => "up"
  | Down => "down"
  | Left => "left"
  | Right => "right"
  | Reset => "reset"
  end.

Definition scroll_wire (c : scroll_direction * bool) : string :=
  if c.2 then String.append (direction_name c.1) "-fast"
  else direction_name c.1.

(** The offsets lie in the window range of the song. *)
Definition offsets_valid (song : Song) (s : ClipDeck) : Prop :=
  0 <= h_offset s <= Z.max 0 (len_tracks song - num_tracks) /\
  0 <= v_offset s <= Z.max 0 (len_scenes song - num_scenes).

(** The scroll handler applied to a sequence of catalogue commands. *)
Definition scroll_all (song : Song) (cmds : list (scroll_direction * bool))
  (s : ClipDeck) : ClipDeck :=
  List.fold_left
    (fun s c => osc_scroll_handler song [OStr (scroll_wire c)] s) cmds s.

(** The fields no sending or snapshot operation writes (the last applied
    ring offsets, the mismatch flag and the output log may change). *)
Definition same_window (s s' : ClipDeck) : Prop :=
  config_received s' = config_received s /\
  debug_mode s' = debug_mode s /\
  debug_client s' = debug_client s /\
  display_order s' = display_order s /\
  h_offset s' = h_offset s /\
  initial_h_offset s' = initial_h_offset s /\
  v_offset s' = v_offset s /\
  osc_send_port s' = osc_send_port s.

(** What an accepted config does to the debug fields. *)
Definition with_debug (debug : bool) (s : ClipDeck) : ClipDeck :=
  let s := set_debug_mode debug s in
  if debug then set_debug_client (Some (osc_send_port s + 1000)) s else s.

(** The playing code in the words of the specification:
    [clamp(floor((position / length) * 16), 0, 15) + 1], the quotient and
    the product being those of Python's floats and [floor] the floor of
    the number the product stands for. *)
Definition clamp (x lo hi : Z) : Z := Z.max lo (Z.min x hi).

Definition scaled_progress (position length : spec_float) : spec_float :=
  Float.mul (Float.div position length) (Float.of_Z 16).

Definition playing_code_spec (position length : spec_float) : Z :=
  clamp (Qfloor (Float.real (scaled_progress position length))) 0 15 + 1.

(** What the session read API guarantees and the snapshot relies on: each
    track has a clip slot for every scene, and a playing clip has a
    length other than zero and a position for which
    [position / length * 16] is a number. *)
Definition song_ok (song : Song) : Prop :=
  forall track, List.In track (tracks song) ->
    (scenes song <= List.length (clip_slots track))%nat /\
    forall clip, List.In (Some clip) (clip_slots track) ->
      is_playing clip = true ->
      ~ Float.same_number (clip_length clip) (Float.of_Z 0) /\
      Float.is_number
        (scaled_progress (playing_position clip) (clip_length clip)) = true.

(** A slot holds a clip that is playing or triggered; a track has such a
    slot. *)
Definition active_slot (slot : ClipSlot) : Prop :=
  match slot with
  | Some clip => is_playing clip = true \/ is_triggered clip = true
  | None => False
  end.

Definition has_active_clip (track : Track) : Prop :=
  Exists active_slot (clip_slots track).

#[global] Instance active_slot_dec (slot : ClipSlot)
  : Decision (active_slot slot).
Proof. destruct slot as [clip |]; simpl; apply _. Defined.

#[global] Instance has_active_clip_dec (track : Track)
  : Decision (has_active_clip track).
Proof. unfold has_active_clip. apply _. Defined.

(** The value the first snapshot loop stores for a window column. *)
Definition track_active (song : Song) (h track_index : Z) : bool :=
  if h + track_index <? len_tracks song then
    match Py.index (tracks song) (h + track_index) with
    | Some track => any_slot_active track
    | None => false
    end
  else false.

(** The code of an addressable slot in the words of the specification:
    playing first, then triggered, then the stopped and the empty cases,
    which depend on whether any slot of the track is playing or
    triggered. *)
Definition slot_code_spec (track : Track) (slot : ClipSlot) : Z :=
  match slot with
  | Some clip =>
      if is_playing clip then
        playing_code_spec (playing_position clip) (clip_length clip)
      else if is_triggered clip then -1
      else if bool_decide (has_active_clip track) then -2 else -3
  | None => if bool_decide (has_active_clip track) then -2 else -3
  end.

(** *** Start-up, ports and the config request loop *)

(** [_osc_recv_port] *)
Definition osc_recv_port (order : Z) : Z := OSC_BASE_RECV_PORT + order * 10.

Definition max_retries : nat := 100.

(** The loop of [_wait_for_live]: [probe n] is what [_can_proceed]
    answers when [retry_count] is [n]; [remaining] probes remain before
    [retry_count] reaches [max_retries].  The result is the number of
    failed probes before Live was ready, [None] is the [RuntimeError]. *)
Fixpoint wait_loop (probe : nat -> bool) (remaining retry_count : nat)
  : option nat :=
  match remaining with
  | O => None
  | S remaining =>
      if probe retry_count then Some retry_count
      else wait_loop probe remaining (S retry_count)
  end.

(** [_wait_for_live] *)
Definition wait_for_live (probe : nat -> bool) : option nat :=
  wait_loop probe max_retries 0.

(** One round of the [_request_config] loop while the surface runs. *)
Definition request_config_round (s : ClipDeck) : ClipDeck :=
  if negb (config_received s)
  then osc_send "/config_request" [OInt (display_order s)] s
  else s.

(** *** Predicates on the output log *)

Definition is_clip_info (a : action) : bool :=
  match a with
  | OscSend _ address _ => String.eqb address "/clip_info"
  | _ => false
  end.

(** The offsets of the last [set_offsets] call in a log, if any. *)
Fixpoint last_ring (log : list action) : option (Z * Z) :=
  match log with
  | [] => None
  | a :: log =>
      match last_ring log with
      | Some hv => Some hv
      | None =>
          match a with
          | RingSetOffsets h v => Some (h, v)
          | _ => None
          end
      end
  end.

(** A step that only sends or acts on clips: the window, the debug
    fields and the applied ring offsets stay, and the log grows by
    entries that are no [set_offsets] call and, before a config was
    accepted, no snapshot. *)
Definition only_logged (s s' : ClipDeck) : Prop :=
  same_window s s' /\
  last_applied_h_offset s' = last_applied_h_offset s /\
  last_applied_v_offset s' = last_applied_v_offset s /\
  exists l,
    out s' = out s ++ l /\ last_ring l = None /\
    (config_received s = false ->
     Forall (fun a => is_clip_info a = false) l).

(** What every state of the adapter with display order [order]
    satisfies (see [SessionExtras.run_inv]). *)
Definition adapter_inv (order : Z) (s : ClipDeck) : Prop :=
  display_order s = order /\
  osc_send_port s = OSC_BASE_SEND_PORT + order * 10 /\
  0 <= v_offset s /\
  (debug_mode s = true -> debug_client s = Some (osc_send_port s + 1000)) /\
  (config_received s = false ->
   Forall (fun a => is_clip_info a = false) (out s)) /\
  (last_ring (out s)
   = Some (last_applied_h_offset s, last_applied_v_offset s) \/
   (last_applied_h_offset s = -1 /\ last_applied_v_offset s = -1 /\
    last_ring (out s) = None)) /\
  (config_received s = true ->
   last_applied_h_offset s = h_offset s /\
   last_applied_v_offset s = v_offset s).

Section Traces.

Variable int_of_str : string -> option Z.

(** An event that is no accepted config with a negative offset. *)
Definition config_offset_ok (order : Z) (e : event) : bool :=
  match e with
  | EvConfig _ args =>
      match accepted int_of_str order args with
      | Some (h, _) => 0 <=? h
      | None => true
      end
  | _ => true
  end.

End Traces.

End Session.

(** ** The device aggregator ([clipdeck.py]) *)

Module Hardware.

Definition FLASH_DURATION : Q := 2 # 10.
Definition OFFLINE_TIMEOUT : Q := 2.

Definition SCROLL_NONE : string := "none".
Definition SCROLL_VERTICAL : string := "vertical".
Definition SCROLL_BOTH : string := "both".
Definition SCROLL_BOTH_RESET : string := "both-reset".

Definition KEY_BURGER : Z := 31.
Definition KEY_BRIGHTNESS : Z := 23.
Definition KEY_ARROW_RIGHT : Z := 30.
Definition KEY_ARROW_DOWN : Z := 29.
Definition KEY_ARROW_UP : Z := 21.
Definition KEY_ARROW_LEFT : Z := 28.

Definition rgb : Type := Z * Z * Z.

Definition ableton_color_to_rgb (color_value : Z) : rgb :=
  (Z.land (Z.shiftr color_value 16) 255,
   Z.land (Z.shiftr color_value 8) 255,
   Z.land color_value 255).

(** A Stream Deck unit as far as the handlers look at it. *)
Record Deck : Type := mkDeck { serial_number : string; key_count : Z }.

(** The arguments of one [update_key_image] call that reached
    [deck.set_key_image]; composing the bitmap is outside the model. *)
Record image : Type := mkImage {
  img_key : Z;
  img_label : string;
  img_color : rgb;
  img_progress : option spec_float;
  img_background : option rgb;
  img_stopped_keys : option (gset Z);
  img_flash : bool;
  img_scroll_mode : option string;
  img_menu_active : bool
}.

(** A [key_states] entry: [(label, color, progress)]. *)
Abbreviation key_state := (string * Z * spec_float)%type.

(** The state dict of one display order ([init_cs_state]). *)
Record cs_state : Type := mkState {
  key_states : gmap Z key_state;
  stopped_keys : gset Z;
  last_ablonline : Q;
  waiting_cleared : bool;
  structural_mismatch : bool;
  pressed_keys : gset Z;
  flash_until : gmap Z Q;
  menu_active : bool;
  ableton_offline : bool
}.

Definition new_state : cs_state :=
  {| key_states := ∅; stopped_keys := ∅; last_ablonline := 0;
     waiting_cleared := false; structural_mismatch := false;
     pressed_keys := ∅; flash_until := ∅; menu_active := false;
     ableton_offline := true |}.

Definition set_key_states (x : gmap Z key_state) (s : cs_state) : cs_state :=
  {| key_states := x; stopped_keys := stopped_keys s;
     last_ablonline := last_ablonline s;
     waiting_cleared := waiting_cleared s;
     structural_mismatch := structural_mismatch s;
     pressed_keys := pressed_keys s; flash_until := flash_until s;
     menu_active := menu_active s; ableton_offline := ableton_offline s |}.

Definition set_stopped_keys (x : gset Z) (s : cs_state) : cs_state :=
  {| key_states := key_states s; stopped_keys := x;
     last_ablonline := last_ablonline s;
     waiting_cleared := waiting_cleared s;
     structural_mismatch := structural_mismatch s;
     pressed_keys := pressed_keys s; flash_until := flash_until s;
     menu_active := menu_active s; ableton_offline := ableton_offline s |}.

Definition set_last_ablonline (x : Q) (s : cs_state) : cs_state :=
  {| key_states := key_states s; stopped_keys := stopped_keys s;
     last_ablonline := x;
     waiting_cleared := waiting_cleared s;
     structural_mismatch := structural_mismatch s;
     pressed_keys := pressed_keys s; flash_until := flash_until s;
     menu_active := menu_active s; ableton_offline := ableton_offline s |}.

Definition set_waiting_cleared (x : bool) (s : cs_state) : cs_state :=
  {| key_states := key_states s; stopped_keys := stopped_keys s;
     last_ablonline := last_ablonline s;
     waiting_cleared := x;
     structural_mismatch := structural_mismatch s;
     pressed_keys := pressed_keys s; flash_until := flash_until s;
     menu_active := menu_active s; ableton_offline := ableton_offline s |}.

Definition set_structural_mismatch (x : bool) (s : cs_state) : cs_state :=
  {| key_states := key_states s; stopped_keys := stopped_keys s;
     last_ablonline := last_ablonline s;
     waiting_cleared := waiting_cleared s;
     structural_mismatch := x;
     pressed_keys := pressed_keys s; flash_until := flash_until s;
     menu_active := menu_active s; ableton_offline := ableton_offline s |}.

Definition set_pressed_keys (x : gset Z) (s : cs_state) : cs_state :=
  {| key_states := key_states s; stopped_keys := stopped_keys s;
     last_ablonline := last_ablonline s;
     waiting_cleared := waiting_cleared s;
     structural_mismatch := structural_mismatch s;
     pressed_keys := x; flash_until := flash_until s;
     menu_active := menu_active s; ableton_offline := ableton_offline s |}.

Definition set_flash_until (x : gmap Z Q) (s : cs_state) : cs_state :=
  {| key_states := key_states s; stopped_keys := stopped_keys s;
     last_ablonline := last_ablonline s;
     waiting_cleared := waiting_cleared s;
     structural_mismatch := structural_mismatch s;
     pressed_keys := pressed_keys s; flash_until := x;
     menu_active := menu_active s; ableton_offline := ableton_offline s |}.

Definition set_menu_active (x : bool) (s : cs_state) : cs_state :=
  {| key_states := key_states s; stopped_keys := stopped_keys s;
     last_ablonline := last_ablonline s;
     waiting_cleared := waiting_cleared s;
     structural_mismatch := structural_mismatch s;
     pressed_keys := pressed_keys s; flash_until := flash_until s;
     menu_active := x; ableton_offline := ableton_offline s |}.

Definition set_ableton_offline (x : bool) (s : cs_state) : cs_state :=
  {| key_states := key_states s; stopped_keys := stopped_keys s;
     last_ablonline := last_ablonline s;
     waiting_cleared := waiting_cleared s;
     structural_mismatch := structural_mismatch s;
     pressed_keys := pressed_keys s; flash_until := flash_until s;
     menu_active := menu_active s; ableton_offline := x |}.

(** The callback of a [threading.Timer] with the values its lambda
    captured; the state dict is captured by reference, that is, by its
    display order. *)
Inductive timer : Type :=
  | FlashRestore (key : Z) (deck : Deck) (display_order : Z)
  | StopRestore (key : Z) (label_text : string) (color : rgb)
      (progress : option spec_float) (deck : Deck) (display_order : Z).

(** The module-level state of [clipdeck.py] together with what it has
    drawn, sent and scheduled. *)
Record World : Type := mkWorld {
  deck_states : gmap Z cs_state;        (* [deck_manager.deck_states] *)
  order_to_deck : gmap Z Deck;          (* [deck_manager.order_to_deck] *)
  config_decks : list (string * (Z * Z));
                    (* [current_config["decks"]]: serial, order, offset *)
  config_scroll_mode : option string;   (* [current_config["scroll_mode"]] *)
  debug_mode : bool;
  images : list (string * image);       (* per serial number *)
  osc_out : list (Z * string * list osc_arg);   (* port, address, args *)
  timers : list (Q * timer)             (* due time, callback *)
}.

Definition set_deck_states (x : gmap Z cs_state) (w : World) : World :=
  {| deck_states := x; order_to_deck := order_to_deck w;
     config_decks := config_decks w;
     config_scroll_mode := config_scroll_mode w;
     debug_mode := debug_mode w; images := images w;
     osc_out := osc_out w; timers := timers w |}.

Definition set_images (x : list (string * image)) (w : World) : World :=
  {| deck_states := deck_states w; order_to_deck := order_to_deck w;
     config_decks := config_decks w;
     config_scroll_mode := config_scroll_mode w;
     debug_mode := debug_mode w; images := x;
     osc_out := osc_out w; timers := timers w |}.

Definition set_osc_out (x : list (Z * string * list osc_arg)) (w : World)
  : World :=
  {| deck_states := deck_states w; order_to_deck := order_to_deck w;
     config_decks := config_decks w;
     config_scroll_mode := config_scroll_mode w;
     debug_mode := debug_mode w; images := images w;
     osc_out := x; timers := timers w |}.

Definition set_timers (x : list (Q * timer)) (w : World) : World :=
  {| deck_states := deck_states w; order_to_deck := order_to_deck w;
     config_decks := config_decks w;
     config_scroll_mode := config_scroll_mode w;
     debug_mode := debug_mode w; images := images w;
     osc_out := osc_out w; timers := x |}.

(** Whether a handler returned or let an exception escape. *)
Inductive outcome : Type := Returned | Raised.

(** *** [DeckManager] *)

Definition init_cs_state (display_order : Z) (w : World) : World :=
  match deck_states w !! display_order with
  | Some _ => w
  | None => set_deck_states (<[display_order := new_state]> (deck_states w)) w
  end.

(** The dict [get_cs_state] returns, read after [init_cs_state]. *)
Definition state_of (display_order : Z) (w : World) : cs_state :=
  default new_state (deck_states w !! display_order).

Definition get_cs_state (display_order : Z) (w : World) : cs_state * World :=
  let w := init_cs_state display_order w in
  (state_of display_order w, w).

(** A write through the reference [get_cs_state] returned. *)
Definition put_state (display_order : Z) (state : cs_state) (w : World)
  : World :=
  set_deck_states (<[display_order := state]> (deck_states w)) w.

Definition get_deck_for_cs (display_order : Z) (w : World) : option Deck :=
  order_to_deck w !! display_order.

Definition get_config_for_order (display_order : Z) (w : World)
  : option (Z * Z) :=
  snd <$> List.find (fun e : string * (Z * Z) => e.2.1 =? display_order)
            (config_decks w).

Definition scroll_mode (w : World) : string :=
  default SCROLL_VERTICAL (config_scroll_mode w).

(** *** Drawing and sending *)

(** [update_key_image]; the callers test [deck is None] themselves, and
    the device is assumed connected. *)
Definition update_key_image (deck : Deck) (key : Z) (label_text : string)
  (color : rgb) (progress : option spec_float)
  (background_color : option rgb)
  (stopped : option (gset Z)) (flash : bool) (mode : option string)
  (menu : bool) (w : World) : World :=
  if (key <? 0) || (key_count deck <=? key) then w
  else
    set_images
      (images w ++
       [(serial_number deck,
         mkImage key label_text color progress background_color stopped
           flash mode menu)]) w.

(** [send_osc_message] *)
Definition send_osc_message (display_order : Z) (address : string)
  (args : list osc_arg) (w : World) : World :=
  let port := 9001 + display_order * 10 in
  set_osc_out
    (osc_out w ++
     (port, address, args)
     :: (if debug_mode w then [(port + 1000, address, args)] else [])) w.

(** The four-way redraw shared by [restore_key_image] and
    [show_menu_arrows]. *)
Definition redraw_key (deck : Deck) (key : Z) (state : cs_state)
  (mode : string) (menu : bool) (w : World) : World :=
  match key_states state !! key with
  | Some (label, color_val, progress) =>
      let color :=
        if negb (color_val =? 0) then ableton_color_to_rgb color_val
        else (0, 0, 0) in
      let stopped := Some (stopped_keys state) in
      if SFleb (Float.of_Z 0) progress then
        let fraction :=
          if SFltb (Float.of_Z 0) progress
          then Float.div progress (Float.of_Z 16) else Float.of_Z 1 in
        update_key_image deck key label color (Some fraction) None stopped
          false (Some mode) menu w
      else if SFeqb progress (Float.of_Z (-1)) then
        update_key_image deck key label color (Some (Float.of_Z (-1))) None
          stopped false (Some mode) menu w
      else if SFeqb progress (Float.of_Z (-3)) then
        update_key_image deck key label color (Some (Float.of_Z (-2)))
          (Some (255, 0, 0)) stopped false (Some mode) menu w
      else
        update_key_image deck key label color (Some (Float.of_Z (-2))) None
          stopped false (Some mode) menu w
  | None =>
      update_key_image deck key EmptyString (0, 0, 0) None None None false
        (Some mode) menu w
  end.

(** [restore_key_image] *)
Definition restore_key_image (deck : Deck) (key : Z) (state : cs_state)
  (w : World) : World :=
  redraw_key deck key state (scroll_mode w) (menu_active state) w.

(** [show_menu_arrows] *)
Definition show_menu_arrows (deck : Deck) (display_order : Z) (show : bool)
  (w : World) : World :=
  let '(state, w) := get_cs_state display_order w in
  List.fold_left
    (fun w key => redraw_key deck key state (scroll_mode w) show w)
    [KEY_ARROW_UP; KEY_ARROW_DOWN; KEY_ARROW_LEFT; KEY_ARROW_RIGHT;
     KEY_BRIGHTNESS] w.

(** *** The OSC handlers *)

(** [str.split('|', 1)]: the text before and after the first bar. *)
Fixpoint split_once (s : string) : option (string * string) :=
  match s with
  | EmptyString => None
  | String c rest =>
      if Ascii.eqb c "|" then Some (EmptyString, rest)
      else
        match split_once rest with
        | Some (a, b) => Some (String c a, b)
        | None => None
        end
  end.

(** [info.split('|', 2)] *)
Definition split_pipe2 (info : string) : list string :=
  match split_once info with
  | None => [info]
  | Some (a, r) =>
      match split_once r with
      | None => [a; r]
      | Some (b, c) => [a; b; c]
      end
  end.

(** Tuple comparison of a cached entry with a new one (the progress of
    the new one is a float that [float] has just made, so the two are
    compared with [==]); [key_states.get(i)] is [None] for a key without
    entry. *)
Definition key_state_eqb (a b : key_state) : bool :=
  String.eqb a.1.1 b.1.1 && (a.1.2 =? b.1.2) && SFeqb a.2 b.2.

Definition cached_is (cached : option key_state) (new : key_state) : bool :=
  match cached with
  | Some old => key_state_eqb old new
  | None => false
  end.

Section Handlers.

(** Python's [int] and [float] applied to a [str]; [None] stands for
    [ValueError]. *)
Variable int_of_str : string -> option Z.
Variable float_of_str : string -> option spec_float.

Local Abbreviation py_int := (Osc.py_int int_of_str).

(** The three parts of a cell converted to a cache entry; [None] when
    there are not three parts or a conversion raises [ValueError] (both
    cases are skipped by the handler). *)
Definition parse_cell (info : string) : option key_state :=
  match split_pipe2 info with
  | [clip_name; clip_color; clip_progress] =>
      clip_color_val ← int_of_str clip_color;
      clip_progress_value ← float_of_str clip_progress;
      Some (clip_name, clip_color_val, clip_progress_value)
  | _ => None
  end.

(** The drawing of a changed cell in [osc_clip_info_handler]. *)
Definition draw_cell (deck : Deck) (i : Z) (new : key_state)
  (state : cs_state) (mode : string) (menu : bool) (w : World) : World :=
  let '(clip_name, clip_color_val, clip_progress_value) := new in
  let rgba_color := ableton_color_to_rgb clip_color_val in
  if SFleb (Float.of_Z 0) clip_progress_value then
    let fraction := Float.div clip_progress_value (Float.of_Z 16) in
    let fraction :=
      if SFeqb fraction (Float.of_Z 0) then Float.of_Z 1 else fraction in
    update_key_image deck i clip_name rgba_color (Some fraction) None
      (Some (stopped_keys state)) false (Some mode) menu w
  else if SFeqb clip_progress_value (Float.of_Z (-1)) then
    update_key_image deck i clip_name rgba_color (Some (Float.of_Z (-1)))
      None None false (Some mode) menu w
  else if SFeqb clip_progress_value (Float.of_Z (-3)) then
    update_key_image deck i clip_name rgba_color (Some (Float.of_Z (-2)))
      (Some (255, 0, 0)) None false (Some mode) menu w
  else
    update_key_image deck i clip_name rgba_color (Some (Float.of_Z (-2)))
      None None false (Some mode) menu w.

(** Whether the handler treats key [i] as flashing: pressed, or within
    its flash time. *)
Definition is_flashing (pressed : gset Z) (flash : gmap Z Q)
  (current_time : Q) (i : Z) : bool :=
  bool_decide (i ∈ pressed)
  || match flash !! i with
     | Some u => Py.Qltb current_time u
     | None => false
     end.

(** The body of the loop over [enumerate(clip_data)].  A cell that is
    not a string makes [info.split] raise. *)
Definition clip_info_cell (deck : Deck) (display_order : Z)
  (pressed : gset Z) (flash : gmap Z Q) (current_time : Q)
  (mode : string) (menu : bool) (i : Z) (info : osc_arg) (w : World)
  : World * outcome :=
  if i <? 32 then
    match info with
    | OStr info =>
        let state := state_of display_order w in
        if is_flashing pressed flash current_time i then
          match parse_cell info with
          | Some new =>
              (put_state display_order
                 (set_key_states (<[i := new]> (key_states state)) state) w,
               Returned)
          | None => (w, Returned)
          end
        else
          match parse_cell info with
          | Some new =>
              if negb (cached_is (key_states state !! i) new) then
                let state :=
                  set_key_states (<[i := new]> (key_states state)) state in
                (draw_cell deck i new state mode menu
                   (put_state display_order state w),
                 Returned)
              else (w, Returned)
          | None => (w, Returned)
          end
    | _ => (w, Raised)
    end
  else (w, Returned).

Fixpoint clip_info_loop (deck : Deck) (display_order : Z)
  (pressed : gset Z) (flash : gmap Z Q) (current_time : Q)
  (mode : string) (menu : bool) (i : Z) (clip_data : list osc_arg)
  (w : World) : World * outcome :=
  match clip_data with
  | [] => (w, Returned)
  | info :: rest =>
      match
        clip_info_cell deck display_order pressed flash current_time mode
          menu i info w
      with
      | (w, Returned) =>
          clip_info_loop deck display_order pressed flash current_time mode
            menu (i + 1) rest w
      | (w, Raised) => (w, Raised)
      end
  end.

(** [osc_clip_info_handler] *)
Definition osc_clip_info_handler (now : Q) (args : list osc_arg) (w : World)
  : World * outcome :=
  match args with
  | a0 :: ((_ :: _) as clip_data) =>
      match py_int a0 with
      | None => (w, Raised)
      | Some display_order =>
          match get_deck_for_cs display_order w with
          | None => (w, Returned)
          | Some deck =>
              let '(state, w) := get_cs_state display_order w in
              let state := set_last_ablonline now state in
              let state :=
                if ableton_offline state
                then set_waiting_cleared true (set_ableton_offline false state)
                else state in
              let w := put_state display_order state w in
              clip_info_loop deck display_order (pressed_keys state)
                (flash_until state) now (scroll_mode w) (menu_active state)
                0 clip_data w
          end
      end
  | _ => (w, Returned)
  end.

(** [int(args[0]) if args else 0] *)
Definition order_or_zero (args : list osc_arg) : option Z :=
  match args with
  | a0 :: _ => py_int a0
  | [] => Some 0
  end.

(** [osc_ablonline_handler] *)
Definition osc_ablonline_handler (now : Q) (args : list osc_arg) (w : World)
  : World * outcome :=
  match order_or_zero args with
  | None => (w, Raised)
  | Some display_order =>
      let '(state, w) := get_cs_state display_order w in
      let deck := get_deck_for_cs display_order w in
      let state := set_last_ablonline now state in
      let state :=
        if ableton_offline state then set_ableton_offline false state
        else state in
      let w := put_state display_order state w in
      match deck with
      | Some deck =>
          if negb (waiting_cleared state) then
            let w :=
              update_key_image deck 0 EmptyString (0, 0, 0) None None
                (Some (stopped_keys state)) false None false w in
            (put_state display_order (set_waiting_cleared true state) w,
             Returned)
          else (w, Returned)
      | None => (w, Returned)
      end
  end.

(** [osc_structural_mismatch_handler] *)
Definition osc_structural_mismatch_handler (args : list osc_arg) (w : World)
  : World * outcome :=
  match args with
  | a0 :: a1 :: _ =>
      match py_int a0 with
      | None => (w, Raised)
      | Some display_order =>
          let show := Osc.py_bool a1 in
          let '(state, w) := get_cs_state display_order w in
          let deck := get_deck_for_cs display_order w in
          let state := set_structural_mismatch show state in
          let w := put_state display_order state w in
          match deck with
          | Some deck =>
              if show then
                let w :=
                  update_key_image deck 0 "Wrong Channel Number"
                    (255, 125, 0) None None None false None false w in
                (put_state display_order (set_waiting_cleared true state) w,
                 Returned)
              else
                let w :=
                  update_key_image deck 0 EmptyString (0, 0, 0) None None
                    None false None false w in
                (put_state display_order (set_waiting_cleared false state) w,
                 Returned)
          | None => (w, Returned)
          end
      end
  | _ => (w, Returned)
  end.

(** The loop over [range(deck.key_count())] that blanks every key. *)
Definition clear_keys (deck : Deck) (w : World) : World :=
  List.fold_left
    (fun w key =>
       update_key_image deck key EmptyString (0, 0, 0) None None None false None
         false w)
    (Py.range (Z.to_nat (key_count deck))) w.

(** [osc_document_closing_handler] *)
Definition osc_document_closing_handler (args : list osc_arg) (w : World)
  : World * outcome :=
  match order_or_zero args with
  | None => (w, Raised)
  | Some display_order =>
      let '(state, w) := get_cs_state display_order w in
      let w :=
        match get_deck_for_cs display_order w with
        | Some deck => clear_keys deck w
        | None => w
        end in
      (put_state display_order
         (set_waiting_cleared false
            (set_last_ablonline 0 (set_key_states ∅ state))) w,
       Returned)
  end.

(** The body of the loop over the four scenes in
    [osc_track_stopped_handler]. *)
Definition track_stopped_key (now : Q) (deck : Deck) (display_order : Z)
  (track_index : Z) (display_time : Q) (w : World) (scene_index : Z)
  : World :=
  let key := scene_index * 8 + track_index in
  let state := state_of display_order w in
  let '(label_text, color, progress) :=
    match key_states state !! key with
    | Some (label_text, color_val, progress) =>
        (label_text, ableton_color_to_rgb color_val, Some progress)
    | None => (EmptyString, (0, 0, 0), None)
    end in
  let state := set_stopped_keys ({[key]} ∪ stopped_keys state) state in
  let w := put_state display_order state w in
  let w :=
    update_key_image deck key label_text color progress (Some (255, 0, 0))
      (Some (stopped_keys state)) false None false w in
  set_timers
    (timers w ++
     [((now + display_time)%Q,
       StopRestore key label_text color progress deck display_order)]) w.

(** [osc_track_stopped_handler] *)
Definition osc_track_stopped_handler (now : Q) (args : list osc_arg)
  (w : World) : World * outcome :=
  match args with
  | a0 :: a1 :: a2 :: _ =>
      match py_int a0 with
      | None => (w, Raised)
      | Some display_order =>
          match py_int a1 with
          | None => (w, Raised)
          | Some track_index =>
              let was_playing := Osc.py_bool a2 in
              let '(state, w) := get_cs_state display_order w in
              match get_deck_for_cs display_order w with
              | None => (w, Returned)
              | Some deck =>
                  let display_time := if was_playing then 4%Q else (1 # 2)%Q in
                  (List.fold_left
                     (track_stopped_key now deck display_order track_index
                        display_time)
                     (Py.range 4) w,
                   Returned)
              end
          end
      end
  | _ => (w, Returned)
  end.

(** [osc_config_request_handler] *)
Definition osc_config_request_handler (args : list osc_arg) (w : World)
  : World * outcome :=
  match args with
  | a0 :: _ =>
      match py_int a0 with
      | None => (w, Raised)
      | Some display_order =>
          match get_config_for_order display_order w with
          | Some deck_cfg =>
              (send_osc_message display_order "/config"
                 [OInt display_order; OInt deck_cfg.2] w,
               Returned)
          | None => (w, Returned)
          end
      end
  | [] => (w, Returned)
  end.

(** The dispatcher of the listener. *)
Definition dispatch (now : Q) (address : string) (args : list osc_arg)
  (w : World) : World * outcome :=
  if String.eqb address "/clip_info" then osc_clip_info_handler now args w
  else if String.eqb address "/ablonline" then
    osc_ablonline_handler now args w
  else if String.eqb address "/structural_mismatch" then
    osc_structural_mismatch_handler args w
  else if String.eqb address "/document_closing" then
    osc_document_closing_handler args w
  else if String.eqb address "/track_stopped" then
    osc_track_stopped_handler now args w
  else if String.eqb address "/config_request" then
    osc_config_request_handler args w
  else (w, Returned).

End Handlers.

(** *** Key input *)

(** [poll_keys] is represented by the bodies of its branches: a key went
    down, a key went up, the burger key changed; the branch of the
    brightness key follows under "The brightness key". *)

(** [on_key_change] *)
Definition on_key_change (key display_order : Z) (w : World) : World :=
  let scroll := fun d => send_osc_message display_order "/scroll" [OStr d] w in
  let trigger :=
    fun w : World =>
      let track_offset := key mod 8 in
      let scene_offset := key / 8 in
      send_osc_message display_order "/trigger_clip"
        [OInt track_offset; OInt scene_offset] w in
  let mode := scroll_mode w in
  if String.eqb mode SCROLL_VERTICAL then
    if key =? 30 then scroll "up"%string
    else if key =? 31 then scroll "down"%string
    else trigger w
  else if String.eqb mode SCROLL_BOTH then
    let '(state, w') := get_cs_state display_order w in
    if menu_active state && (key =? KEY_ARROW_UP) then
      send_osc_message display_order "/scroll" [OStr "up"] w'
    else if menu_active state && (key =? KEY_ARROW_DOWN) then
      send_osc_message display_order "/scroll" [OStr "down"] w'
    else if menu_active state && (key =? KEY_ARROW_LEFT) then
      send_osc_message display_order "/scroll" [OStr "left"] w'
    else if menu_active state && (key =? KEY_ARROW_RIGHT) then
      send_osc_message display_order "/scroll" [OStr "right"] w'
    else if (key =? KEY_BURGER) || (key =? KEY_BRIGHTNESS) then w'
    else trigger w'
  else if String.eqb mode SCROLL_BOTH_RESET then
    let '(state, w') := get_cs_state display_order w in
    if menu_active state && (key =? KEY_ARROW_UP) then
      send_osc_message display_order "/scroll" [OStr "up"] w'
    else if menu_active state && (key =? KEY_ARROW_DOWN) then
      send_osc_message display_order "/scroll" [OStr "down"] w'
    else if menu_active state && (key =? KEY_ARROW_LEFT) then
      send_osc_message display_order "/scroll" [OStr "reset"] w'
    else if menu_active state && (key =? KEY_ARROW_RIGHT) then
      send_osc_message display_order "/scroll" [OStr "right"] w'
    else if (key =? KEY_BURGER) || (key =? KEY_BRIGHTNESS) then w'
    else trigger w'
  else trigger w.

(** The keys [on_key_change] answers without a clip trigger: the two
    scroll keys of the vertical layout and, in the two menu layouts, the
    arrows while the menu is active, the burger and the brightness key. *)
Definition overlay_key (mode : string) (menu : bool) (key : Z) : bool :=
  if String.eqb mode SCROLL_VERTICAL then (key =? 30) || (key =? 31)
  else if String.eqb mode SCROLL_BOTH || String.eqb mode SCROLL_BOTH_RESET
  then
    menu && ((key =? KEY_ARROW_UP) || (key =? KEY_ARROW_DOWN)
             || (key =? KEY_ARROW_LEFT) || (key =? KEY_ARROW_RIGHT))
    || (key =? KEY_BURGER) || (key =? KEY_BRIGHTNESS)
  else false.

(** The branch "key just pressed" of [poll_keys]. *)
Definition key_pressed (now : Q) (deck : Deck) (display_order key : Z)
  (w : World) : World :=
  let '(state, w) := get_cs_state display_order w in
  let state := set_pressed_keys ({[key]} ∪ pressed_keys state) state in
  let state :=
    set_flash_until
      (<[key := (now + FLASH_DURATION)%Q]> (flash_until state)) state in
  let w := put_state display_order state w in
  let w :=
    update_key_image deck key EmptyString (0, 0, 0) None None None true None
      false w in
  on_key_change key display_order w.

(** The branch "key just released" of [poll_keys]. *)
Definition key_released (now : Q) (deck : Deck) (display_order key : Z)
  (w : World) : World :=
  let '(state, w) := get_cs_state display_order w in
  let state := set_pressed_keys (pressed_keys state ∖ {[key]}) state in
  let w := put_state display_order state w in
  match flash_until state !! key with
  | Some until =>
      let remaining := (until - now)%Q in
      if Py.Qltb 0 remaining then
        set_timers
          (timers w ++
           [((now + remaining)%Q, FlashRestore key deck display_order)]) w
      else
        let state := set_flash_until (delete key (flash_until state)) state in
        restore_key_image deck key state (put_state display_order state w)
  | None => w
  end.

(** The burger key changed in one of the two menu modes. *)
Definition burger_changed (deck : Deck) (display_order : Z) (pressed : bool)
  (w : World) : World :=
  let '(state, w) := get_cs_state display_order w in
  let w := put_state display_order (set_menu_active pressed state) w in
  show_menu_arrows deck display_order pressed w.

(** *** Timers and the offline monitor *)

(** A timer callback runs. *)
Definition run_timer (t : timer) (w : World) : World :=
  match t with
  | FlashRestore k d display_order =>
      let s := state_of display_order w in
      let s := set_flash_until (delete k (flash_until s)) s in
      restore_key_image d k s (put_state display_order s w)
  | StopRestore k lt c p d display_order =>
      let s := state_of display_order w in
      let s := set_stopped_keys (stopped_keys s ∖ {[k]}) s in
      update_key_image d k lt c p None (Some (stopped_keys s)) false None
        false (put_state display_order s w)
  end.

(** The [n]-th pending timer fires if it is due. *)
Definition fire_timer (now : Q) (n : nat) (w : World) : World :=
  match timers w !! n with
  | Some (due, t) =>
      if Qle_bool due now
      then run_timer t (set_timers (delete n (timers w)) w)
      else w
  | None => w
  end.

(** The body of the monitor loop for one display order. *)
Definition monitor_order (current_time : Q) (w : World) (display_order : Z)
  : World :=
  let '(state, w) := get_cs_state display_order w in
  match get_deck_for_cs display_order w with
  | None => w
  | Some deck =>
      let last_msg := last_ablonline state in
      let was_offline := ableton_offline state in
      if Py.Qltb 0 last_msg
         && Py.Qltb OFFLINE_TIMEOUT (current_time - last_msg)%Q
      then
        if negb was_offline then
          let state :=
            set_waiting_cleared false (set_ableton_offline true state) in
          let w := put_state display_order state w in
          let w := clear_keys deck w in
          update_key_image deck 0 "Ableton Offline" (255, 80, 0) None None
            None false None false w
        else w
      else w
  end.

(** [get_active_display_orders] *)
Definition get_active_display_orders (w : World) : list Z :=
  (map_to_list (order_to_deck w)).*1.

(** One round of [monitor_loop]. *)
Definition monitor_round (current_time : Q) (w : World) : World :=
  List.fold_left (monitor_order current_time) (get_active_display_orders w) w.

(** The images drawn on key [key] so far, oldest first. *)
Definition drawn (key : Z) (w : World) : list (string * image) :=
  List.filter (fun e : string * image => img_key e.2 =? key) (images w).

(** The cache entry of key [key] in the window [display_order]. *)
Definition cache (display_order key : Z) (w : World) : option key_state :=
  key_states (state_of display_order w) !! key.

(** The cache holds an entry for the key that equals the new triple:
    the same label, the same colour and, as progress, the same number. *)
Definition same_entry (cached : option key_state) (new : key_state) : Prop :=
  exists old,
    cached = Some old /\ old.1.1 = new.1.1 /\ old.1.2 = new.1.2 /\
    Float.same_number old.2 new.2.

(** Key [i] is held, or its flash time has not elapsed at [now]. *)
Definition held_or_flashing (state : cs_state) (now : Q) (i : Z) : Prop :=
  i ∈ pressed_keys state \/
  exists until, flash_until state !! i = Some until /\ (now < until)%Q.

(** [configure_from_config] for decks that were discovered. *)
Definition configure (decks : list (Deck * Z * Z)) (mode : option string)
  (debug : bool) : World :=
  List.fold_left
    (fun w (e : Deck * Z * Z) =>
       let '(deck, display_order, h_offset) := e in
       init_cs_state display_order
         {| deck_states := deck_states w;
            order_to_deck := <[display_order := deck]> (order_to_deck w);
            config_decks :=
              config_decks w
              ++ [(serial_number deck, (display_order, h_offset))];
            config_scroll_mode := config_scroll_mode w;
            debug_mode := debug_mode w; images := images w;
            osc_out := osc_out w; timers := timers w |})
    decks
    {| deck_states := ∅; order_to_deck := ∅; config_decks := [];
       config_scroll_mode := mode; debug_mode := debug; images := [];
       osc_out := []; timers := [] |}.

(** *** Listener ports and the config broadcast *)

(** The port [__main__] binds the listener of a display order to. *)
Definition listen_port (display_order : Z) : Z := 9000 + display_order * 10.

(** The loop body shared by [send_initial_config] and
    [send_config_loop]. *)
Definition send_config (w : World) (display_order : Z) : World :=
  match get_config_for_order display_order w with
  | Some deck_cfg =>
      send_osc_message display_order "/config"
        [OInt display_order; OInt deck_cfg.2;
         OInt (if debug_mode w then 1 else 0)] w
  | None => w
  end.

(** [send_initial_config]; a round of [send_config_loop] is the same
    loop. *)
Definition send_initial_config (w : World) : World :=
  List.fold_left send_config (get_active_display_orders w) w.

(** *** The background of a key image *)

Definition FLASH_COLOR : rgb := (170, 170, 170).

(** What [render_key_image] fills the key with before it draws the clip:
    [Adjusted c] stands for [adjust_color(c, 1, 0.2)], [Black] for the
    colour name the [or] falls back to. *)
Inductive fill : Type := Fill (c : rgb) | Adjusted (c : rgb) | Black.

Definition background_fill (img : image) : fill :=
  if img_flash img then Fill FLASH_COLOR
  else
    let background_color := Fill <$> img_background img in
    let background_color :=
      match img_progress img with
      | Some progress =>
          let background_color :=
            if SFeqb progress (Float.of_Z (-2)) then
              if match img_stopped_keys img with
                 | Some stopped => bool_decide (img_key img ∈ stopped)
                 | None => false
                 end
              then Some (Fill (255, 0, 0))
              else Some (Fill (0, 0, 0))
            else background_color in
          if SFleb (Float.of_Z 0) progress && SFleb progress (Float.of_Z 1)
          then Some (Adjusted (img_color img))
          else background_color
      | None => background_color
      end in
    default Black background_color.

(** *** The brightness key *)

Definition LONG_PRESS_DURATION : Q := 1 # 2.

(** The two brightness entries of [current_config] and the local
    [brightness_press_start] of [poll_keys]. *)
Record Dimmer : Type := mkDimmer {
  brightness : option Z;
  current_brightness : option Z;
  brightness_press_start : option Q
}.

(** [set_brightness]: the percentage handed to [deck.set_brightness], if
    the call is made. *)
Definition set_brightness (level : Z) : option Z :=
  if (0 <=? level) && (level <=? 10) then Some (level * 10) else None.

(** The brightness branch of [poll_keys] while the menu is active.  The
    result is the new dimmer and, when the branch applies a level to the
    active decks, that level. *)
Definition brightness_key (current_time : Q)
  (brightness_pressed brightness_was_pressed : bool) (d : Dimmer)
  : Dimmer * option Z :=
  if brightness_pressed && negb brightness_was_pressed then
    (mkDimmer (brightness d) (current_brightness d) (Some current_time), None)
  else if negb brightness_pressed && brightness_was_pressed then
    match brightness_press_start d with
    | Some start =>
        let press_duration := (current_time - start)%Q in
        let saved_brightness := default 3 (brightness d) in
        let current :=
          if Qle_bool LONG_PRESS_DURATION press_duration then saved_brightness
          else (default saved_brightness (current_brightness d) + 1) mod 11 in
        (mkDimmer (brightness d) (Some current) None, Some current)
    | None => (d, None)
    end
  else (d, None).

(** The brightness part of one [poll_keys] round. *)
Definition poll_brightness (mode : string) (menu : bool) (current_time : Q)
  (brightness_pressed brightness_was_pressed : bool) (d : Dimmer)
  : Dimmer * option Z :=
  if String.eqb mode SCROLL_BOTH || String.eqb mode SCROLL_BOTH_RESET then
    if menu then
      brightness_key current_time brightness_pressed brightness_was_pressed d
    else (mkDimmer (brightness d) (current_brightness d) None, None)
  else (d, None).

(** A press of the brightness key at [p.1] and its release at [p.2],
    with the menu held open. *)
Definition brightness_click (d : Dimmer) (p : Q * Q) : Dimmer :=
  (brightness_key p.2 false true (brightness_key p.1 true false d).1).1.

(** *** Images the handlers draw *)

(** A blank key, as every loop that clears a unit draws it. *)
Definition blank_image (key : Z) : image :=
  mkImage key EmptyString (0, 0, 0) None None None false None false.

(** A notice on key 0. *)
Definition notice_image (label_text : string) (color : rgb) : image :=
  mkImage 0 label_text color None None None false None false.

(** The label, colour and progress [osc_track_stopped_handler] reads for
    a key. *)
Definition stop_values (state : cs_state) (key : Z)
  : string * rgb * option spec_float :=
  match key_states state !! key with
  | Some (label_text, color_val, progress) =>
      (label_text, ableton_color_to_rgb color_val, Some progress)
  | None => (EmptyString, (0, 0, 0), None)
  end.

(** The keys of a window column, top to bottom. *)
Definition column_keys (track_index : Z) : list Z :=
  List.map (fun scene_index => scene_index * 8 + track_index) (Py.range 4).

(** The keys [show_menu_arrows] redraws, in its order. *)
Definition menu_keys : list Z :=
  [KEY_ARROW_UP; KEY_ARROW_DOWN; KEY_ARROW_LEFT; KEY_ARROW_RIGHT;
   KEY_BRIGHTNESS].

(** Key [key] exists on the unit [deck]. *)
Definition has_key (deck : Deck) (key : Z) : bool :=
  (0 <=? key) && (key <? key_count deck).

(** The liveness check finds the heartbeat of a record timed out and
    the window not yet offline. *)
Definition goes_offline (state : cs_state) (current_time : Q) : bool :=
  Py.Qltb 0 (last_ablonline state)
  && Py.Qltb OFFLINE_TIMEOUT (current_time - last_ablonline state)%Q
  && negb (ableton_offline state).

(** A step that concerns the window [order] only: the deck mapping and
    the configuration stay, the record of every other window stays, and
    what is drawn is drawn on the unit with serial number [serial]. *)
Definition only_window (order : Z) (serial : option string) (w w' : World)
  : Prop :=
  order_to_deck w' = order_to_deck w /\
  config_decks w' = config_decks w /\
  config_scroll_mode w' = config_scroll_mode w /\
  debug_mode w' = debug_mode w /\
  (forall o, o <> order -> state_of o w' = state_of o w) /\
  exists new,
    images w' = images w ++ new /\
    Forall (fun e : string * image => Some e.1 = serial) new.

(** *** Progress values that vanish *)

(** A progress above zero whose quotient by 16 is rounded to zero: the
    positive numbers up to [2 ^ -1071]. *)
Definition underflows (progress : spec_float) : bool :=
  SFltb (Float.of_Z 0) progress
  && SFeqb (Float.div progress (Float.of_Z 16)) (Float.of_Z 0).

(** *** Bars in a cell *)

(** The number of bars in a string. *)
Fixpoint bars (s : string) : nat :=
  match s with
  | EmptyString => O
  | String c rest => ((if Ascii.eqb c "|" then 1 else 0) + bars rest)%nat
  end.

End Hardware.

(** ** Concrete sessions used by the examples *)

Module Examples.
Import Session.

Definition empty_track (n : nat) : Track := mkTrack (List.repeat None n).

(** A session of [t] tracks and [n] scenes without clips. *)
Definition empty_song (t n : nat) : Song :=
  mkSong (List.repeat (empty_track n) t) n.

(** [int(str)] on the decimal integers the session side writes. *)
Fixpoint digits (s : string) (acc : Z) : option Z :=
  match s with
  | EmptyString => Some acc
  | String c rest =>
      let n := Z.of_nat (nat_of_ascii c) in
      if (48 <=? n) && (n <=? 57) then digits rest (10 * acc + (n - 48))
      else None
  end.

Definition int_of_str (s : string) : option Z :=
  match s with
  | EmptyString => None
  | String "-" (String c rest) => Z.opp <$> digits (String c rest) 0
  | _ => digits s 0
  end.

(** [float(str)] on the same strings. *)
Definition float_of_str (s : string) : option spec_float :=
  Float.of_Z <$> int_of_str s.

(** A parser for [int(str)] that rejects every string. *)
Definition no_int : string -> option Z := fun _ => None.

(** The adapter of window 0 after a first config with offset 8 and two
    fast scrolls to the left, in a session of 8 tracks and 4 scenes. *)
Definition scrolled_back : ClipDeck :=
  run no_int (init 0)
    [EvConfig (empty_song 8 4) [OInt 0; OInt 8];
     EvScroll (empty_song 8 4) [OStr "left-fast"];
     EvScroll (empty_song 8 4) [OStr "left-fast"]].

(** Eight tracks and four scenes; the slot of track 2 and scene 1 holds a
    clip playing at half of its length. *)
Definition lead : Clip :=
  mkClip "Lead" 16711680 true false (Float.of_Z 2) (Float.of_Z 4).

Definition lead_track : Track := mkTrack [None; Some lead; None; None].

Definition scenario_song : Song :=
  mkSong
    ([empty_track 4; empty_track 4; lead_track] ++
     List.repeat (empty_track 4) 5) 4.

(** Seven tracks and four scenes: track 0 holds a triggered clip in
    scene 0, track 1 a stopped clip in scene 0, track 2 the playing clip
    [lead] in scene 1. *)
Definition cue : Clip :=
  mkClip "Cue" 255 false true (Float.of_Z 0) (Float.of_Z 4).

Definition old : Clip :=
  mkClip "Old" 65280 false false (Float.of_Z 0) (Float.of_Z 4).

Definition queued_song : Song :=
  mkSong
    ([mkTrack [Some cue; None; None; None];
      mkTrack [Some old; None; None; None]; lead_track] ++
     List.repeat (empty_track 4) 4) 4.

(** A 32-key unit bound to window 0. *)
Definition xl : Hardware.Deck := Hardware.mkDeck "XL" 32.

Definition one_deck : Hardware.World :=
  Hardware.configure [(xl, 0, 0)] None false.

(** Key 3 of the unit went down at time 1. *)
Definition key3_down : Hardware.World :=
  Hardware.key_pressed 1 xl 0 3 one_deck.

Definition four_cells : list osc_arg :=
  [OStr " |0|-3"; OStr " |0|-3"; OStr "A|255|-2"; OStr "Lead|255|9"].

(** Window 0 after a snapshot at time 0, a [/track_stopped] for column 2
    at time 1 and a snapshot at time 2 that renames the clip on key 2. *)
Definition stopped_then_updated : Hardware.World :=
  let w := (Hardware.osc_clip_info_handler int_of_str float_of_str 0
              (OInt 0 :: four_cells) one_deck).1 in
  let w := (Hardware.osc_track_stopped_handler int_of_str 1
              [OInt 0; OInt 2; OInt 1] w).1 in
  (Hardware.osc_clip_info_handler int_of_str float_of_str 2
     [OInt 0; OStr " |0|-3"; OStr " |0|-3"; OStr "B|65280|-3"] w).1.

(** Window 0 heard [/ablonline] at time 1. *)
Definition heard_ablonline_at_1 : Hardware.World :=
  (Hardware.dispatch int_of_str float_of_str 1 "/ablonline" [OInt 0]
     one_deck).1.

(** After that, one more message at time 3: [/structural_mismatch],
    [/track_stopped] or [/clip_info]. *)
Definition mismatch_after_heartbeat : Hardware.World :=
  (Hardware.dispatch int_of_str float_of_str 3 "/structural_mismatch"
     [OInt 0; OInt 1] heard_ablonline_at_1).1.

Definition stopped_after_heartbeat : Hardware.World :=
  (Hardware.dispatch int_of_str float_of_str 3 "/track_stopped"
     [OInt 0; OInt 2; OInt 1] heard_ablonline_at_1).1.

Definition snapshot_after_heartbeat : Hardware.World :=
  (Hardware.dispatch int_of_str float_of_str 3 "/clip_info"
     (OInt 0 :: four_cells) heard_ablonline_at_1).1.

(** Events of an adapter that has not been configured yet: a scroll, a
    trigger, a refresh and a config for another window. *)
Definition before_config : list Session.event :=
  [Session.EvScroll scenario_song [OStr "right"];
   Session.EvTriggerClip scenario_song scenario_song [OInt 2; OInt 1];
   Session.EvRefresh scenario_song [];
   Session.EvConfig scenario_song [OInt 3; OInt 8]].

(** The same events followed by a config for window 0 and two scrolls. *)
Definition configured_and_scrolled : list Session.event :=
  before_config ++
  [Session.EvConfig (empty_song 20 9) [OInt 0; OInt 8; OInt 1];
   Session.EvScroll (empty_song 20 9) [OStr "down-fast"];
   Session.EvScroll (empty_song 20 9) [OStr "left"]].

(** Window 0 after a snapshot of [four_cells] at time 1. *)
Definition heard_at_1 : Hardware.World :=
  (Hardware.dispatch int_of_str float_of_str 1 "/clip_info"
     (OInt 0 :: four_cells) one_deck).1.

(** The cell of the playing clip of [scenario_song], and a cell whose
    clip name holds a bar. *)
Definition lead_cell : Session.Cell := Session.mkCell "Lead" 16711680 9.

Definition barred_cell : Session.Cell := Session.mkCell "A|B" 255 9.

(** An adapter of window 0 that has its config, and one whose window
    starts beyond the session. *)
Definition configured : Session.ClipDeck :=
  Session.set_config_received true (Session.init 0).

Definition mismatched : Session.ClipDeck :=
  Session.set_structural_mismatch true (Session.init 0).

End Examples.

(** ** Properties of the session adapter *)

Module SessionProofs.
Import Session.

(** *** The helpers on small inputs *)

Example endswith_fast : Py.endswith "down-fast" "-fast" = true.
Proof. reflexivity. Qed.

Example endswith_short : Py.endswith "up" "-fast" = false.
Proof. reflexivity. Qed.

Example replace_fast :
  Py.replace "down-fast" "-fast" EmptyString = "down"%string.
Proof. reflexivity. Qed.

Example replace_every_match :
  Py.replace "a-fast-fastb" "-fast" "_" = "a__b"%string.
Proof. reflexivity. Qed.

Example to_int_truncates :
  Float.to_int (Float.div (Float.of_Z (-7)) (Float.of_Z 2)) = Some (-3) /\
  Float.to_int (Float.div (Float.of_Z 7) (Float.of_Z 2)) = Some 3 /\
  Float.to_int (Float.div (Float.of_Z 1) (Float.of_Z 0)) = None.
Proof. by vm_compute. Qed.

(** [0.5 / 0.8] is rounded to [0.625], so that the code is 11. *)
Example progress_val_rounds :
  progress_val
    (mkClip "A" 0 true false
       (Float.div (Float.of_Z 1) (Float.of_Z 2))
       (Float.div (Float.of_Z 8) (Float.of_Z 10)))
  = Some 11.
Proof. by vm_compute. Qed.

(** A zero length, and a quotient that overflows, raise: the playing
    clip has no code, and the adapter sends no snapshot. *)
Example progress_val_raises :
  progress_val (mkClip "A" 0 true false (Float.of_Z 1) (Float.of_Z 0))
  = None /\
  progress_val
    (mkClip "A" 0 true false (Float.of_Z (2 ^ 1000))
       (S754_finite false 1 (-1074)))
  = None /\
  prepare_and_send_clip_info
    (mkSong
       [mkTrack
          [Some (mkClip "A" 0 true false (Float.of_Z 1) (Float.of_Z 0))]] 1)
    Examples.configured
  = Examples.configured.
Proof. by vm_compute. Qed.

Example index_from_the_end :
  Py.index [1; 2; 3] (-1) = Some 3 /\ Py.index [1; 2; 3] 3 = None.
Proof. split; reflexivity. Qed.

Example cell_wire_nonexistent :
  cell_wire (mkCell "X" 3276800 (-4)) = "X|3276800|-4"%string.
Proof. reflexivity. Qed.

Example scenario_snapshot_row_1 :
  (fun cells => List.map cell_wire (firstn 8 (skipn 8 cells)))
    <$> snapshot Examples.scenario_song 0 0
  = Some [" |0|-3"; " |0|-3"; "Lead|16711680|9"; " |0|-3"; " |0|-3";
          " |0|-3"; " |0|-3"; " |0|-3"]%string.
Proof. by vm_compute. Qed.

(** The wire form of a catalogue command is split back into its
    direction and step. *)
Lemma scroll_step_wire (c : scroll_direction * bool) :
  scroll_step (scroll_wire c) = (direction_name c.1, if c.2 then 4 else 1).
Proof. destruct c as [[] []]; reflexivity. Qed.

Lemma scroll_step_cases (d : string) :
  (scroll_step d).2 = 1 \/ (scroll_step d).2 = 4.
Proof.
  unfold scroll_step. destruct (Py.endswith d "-fast"); simpl; auto.
Qed.

Ltac scroll_cases :=
  repeat match goal with
    | |- context [String.eqb ?a ?b] => destruct (String.eqb a b) eqn:?
    end.

Ltac bool_cases :=
  repeat match goal with
    | |- context [if ?b then _ else _] => destruct b eqn:?
    end.

(** One scroll keeps the offsets in range, unless it is a reset to an
    initial offset that is itself out of range. *)
Lemma handle_scroll_valid (song : Song) (d : string) (s : ClipDeck) :
  offsets_valid song s ->
  ((scroll_step d).1 = "reset"%string ->
   0 <= initial_h_offset s <= Z.max 0 (len_tracks song - num_tracks)) ->
  offsets_valid song (handle_scroll song d s).
Proof.
  intros [Hh Hv] Hreset. unfold handle_scroll.
  pose proof (scroll_step_cases d) as Hs.
  destruct (scroll_step d) as [dir st]; simpl in Hs, Hreset.
  assert (Hr : String.eqb dir "reset" = true ->
               0 <= initial_h_offset s
                 <= Z.max 0 (len_tracks song - num_tracks))
    by (intros E; apply Hreset, String.eqb_eq, E).
  clear Hreset. unfold offsets_valid.
  scroll_cases;
    try match goal with
      | E : String.eqb dir "reset" = true |- _ => specialize (Hr E)
      end;
    bool_cases; cbn [h_offset v_offset set_h_offset set_v_offset
                     set_last_applied emit]; lia.
Qed.

Lemma handle_scroll_initial (song : Song) (d : string) (s : ClipDeck) :
  initial_h_offset (handle_scroll song d s) = initial_h_offset s.
Proof.
  unfold handle_scroll. destruct (scroll_step d) as [dir st].
  scroll_cases; bool_cases; reflexivity.
Qed.

(** C1, as stated, fails: in a session of 8 tracks the adapter that was
    configured at offset 8 and scrolled back to 0 has valid offsets, and a
    reset moves the horizontal offset to 8, beyond [max(0, 8 - 8) = 0]. *)
Lemma reset_leaves_window_range :
  offsets_valid (Examples.empty_song 8 4) Examples.scrolled_back /\
  ~ offsets_valid (Examples.empty_song 8 4)
      (scroll_all (Examples.empty_song 8 4) [(Reset, false)]
         Examples.scrolled_back).
Proof.
  split.
  - vm_compute. repeat split; discriminate.
  - intros [[_ H] _]. vm_compute in H. apply H. reflexivity.
Qed.

(** C1 (amended): from valid offsets, every finite sequence of scroll
    commands from up, down, left, right and reset, each optionally fast,
    leaves [0 <= hOffset <= max(0, trackCount - 8)] and
    [0 <= vOffset <= max(0, sceneCount - 4)], provided that, when the
    sequence contains a reset, the initial horizontal offset lies in
    [0, max(0, trackCount - 8)] itself. *)
Theorem scroll_sequence_keeps_offsets_valid
  (song : Song) (cmds : list (scroll_direction * bool)) (s : ClipDeck) :
  offsets_valid song s ->
  (List.In Reset (List.map fst cmds) ->
   0 <= initial_h_offset s <= Z.max 0 (len_tracks song - num_tracks)) ->
  offsets_valid song (scroll_all song cmds s).
Proof.
  unfold scroll_all. revert s.
  induction cmds as [| c cmds IH]; intros s Hv Hreset; simpl; [exact Hv |].
  apply IH.
  - apply handle_scroll_valid; [exact Hv |].
    rewrite scroll_step_wire. simpl. intros Hd. apply Hreset. simpl. left.
    destruct c as [[] f]; simpl in *; try discriminate; reflexivity.
  - rewrite handle_scroll_initial. intros Hin. apply Hreset. simpl. now right.
Qed.

Lemma scroll_sequence_keeps_offsets_valid_witness :
  offsets_valid (Examples.empty_song 12 9)
    (scroll_all (Examples.empty_song 12 9)
       [(Right, true); (Down, false); (Reset, false); (Right, false);
        (Up, true); (Left, true); (Down, true)]
       (init 0)).
Proof.
  apply scroll_sequence_keeps_offsets_valid.
  - vm_compute. repeat split; discriminate.
  - intros _. vm_compute. split; discriminate.
Defined.

(** *** The playing code *)

(** Truncation and floor agree once clamped to [0, 15]. *)
Lemma clamp_to_int (x : spec_float) (n : Z) :
  Float.to_int x = Some n ->
  Z.max 0 (Z.min n 15) = clamp (Qfloor (Float.real x)) 0 15.
Proof.
  unfold clamp. destruct x as [s | s | | s m e]; try discriminate.
  - intros [= <-]. reflexivity.
  - cbn [Float.to_int Float.real]. intros [= <-].
    destruct (0 <=? e) eqn:He.
    + rewrite Qfloor_Z. destruct s; [| reflexivity].
      replace (Z.neg m * 2 ^ e) with (- (Z.pos m * 2 ^ e)) by lia.
      reflexivity.
    + apply Z.leb_gt in He. cbn [Qfloor].
      assert (Hd : Z.pos (2 ^ Z.to_pos (- e)) = 2 ^ (- e)).
      { rewrite Pos2Z.inj_pow. f_equal. apply Z2Pos.id. lia. }
      rewrite Hd.
      assert (Hpos : 0 < 2 ^ (- e)) by (apply Z.pow_pos_nonneg; lia).
      destruct s; [| reflexivity].
      assert (H1 : 0 <= Z.pos m / 2 ^ (- e)) by (apply Z.div_pos; lia).
      assert (H2 : Z.neg m / 2 ^ (- e) < 0)
        by (apply Z.div_lt_upper_bound; lia).
      lia.
Qed.

Lemma to_int_is_number (x : spec_float) :
  Float.is_number x = true -> is_Some (Float.to_int x).
Proof. destruct x; try discriminate; intros _; eexists; reflexivity. Qed.

Lemma SFeqb_same_number (x y : spec_float) :
  SFeqb x y = true <-> Float.same_number x y.
Proof.
  unfold SFeqb, Float.same_number.
  destruct (SFcompare x y) as [[] |]; split; congruence.
Qed.

Lemma progress_val_spec (clip : Clip) :
  ~ Float.same_number (clip_length clip) (Float.of_Z 0) ->
  Float.is_number
    (scaled_progress (playing_position clip) (clip_length clip)) = true ->
  progress_val clip
  = Some (playing_code_spec (playing_position clip) (clip_length clip)).
Proof.
  intros Hl Hn. unfold progress_val, playing_code_spec.
  destruct (SFeqb (clip_length clip) (Float.of_Z 0)) eqn:E.
  - apply SFeqb_same_number in E. contradiction.
  - destruct (to_int_is_number _ Hn) as [n Hint].
    unfold scaled_progress in *. rewrite Hint. cbn [mbind option_bind].
    by rewrite (clamp_to_int _ _ Hint).
Qed.

Lemma playing_code_spec_range (p l : spec_float) :
  1 <= playing_code_spec p l <= 16.
Proof. unfold playing_code_spec, clamp. lia. Qed.

Lemma playing_code_spec_half (p l : spec_float) :
  Float.div p l = Float.div (Float.of_Z 1) (Float.of_Z 2) ->
  playing_code_spec p l = 9.
Proof.
  intros H. unfold playing_code_spec, scaled_progress. rewrite H.
  by vm_compute.
Qed.

(** The code reads the flag of a track as the statement puts it. *)
Lemma any_slot_active_spec (track : Track) :
  any_slot_active track = true <-> has_active_clip track.
Proof.
  unfold any_slot_active, has_active_clip.
  rewrite existsb_exists, Exists_exists. split.
  - intros (slot & Hin & Hs). exists slot.
    split; [by apply list_elem_of_In |].
    destruct slot as [clip |]; [| discriminate].
    by apply orb_true_iff in Hs.
  - intros (slot & Hin & Hs). exists slot.
    split; [by apply list_elem_of_In |].
    destruct slot as [clip |]; [| done].
    by apply orb_true_iff.
Qed.

Lemma any_slot_active_decide (track : Track) :
  any_slot_active track = bool_decide (has_active_clip track).
Proof.
  destruct (any_slot_active track) eqn:E; symmetry.
  - by apply bool_decide_eq_true, any_slot_active_spec.
  - apply bool_decide_eq_false. intros H.
    apply any_slot_active_spec in H. congruence.
Qed.

(** *** The snapshot *)

Lemma index_in_range {A} (l : list A) (i : Z) :
  0 <= i < Z.of_nat (List.length l) ->
  exists x, Py.index l i = Some x /\ List.In x l.
Proof.
  intros Hi. unfold Py.index.
  replace (0 <=? i) with true by (symmetry; apply Z.leb_le; lia).
  destruct (lookup_lt_is_Some_2 l (Z.to_nat i)) as [x Hx]; [lia |].
  exists x. split; [exact Hx |].
  apply list_elem_of_In. eapply list_elem_of_lookup_2. exact Hx.
Qed.

(** The first loop, over any list of columns. *)
Lemma track_is_playing_fold (song : Song) (h : Z) (cols : list Z)
  (m : gmap Z bool) :
  0 <= h -> Forall (fun ti => 0 <= ti) cols ->
  exists m',
    List.fold_left (track_is_playing_step song h) cols (Some m) = Some m' /\
    forall ti,
      m' !! ti = if decide (ti ∈ cols) then Some (track_active song h ti)
                 else m !! ti.
Proof.
  intros Hh. revert m. induction cols as [| a cols IH]; intros m Hall.
  - exists m. split; [reflexivity |]. intros ti.
    destruct (decide (ti ∈ [])) as [Hin | _]; [| reflexivity].
    inversion Hin.
  - inversion Hall as [| ? ? Ha Hall']; subst.
    assert (Hstep : track_is_playing_step song h (Some m) a
                    = Some (<[a := track_active song h a]> m)).
    { unfold track_is_playing_step, track_active. cbn [mbind option_bind].
      destruct (h + a <? len_tracks song) eqn:E; [| reflexivity].
      apply Z.ltb_lt in E.
      destruct (index_in_range (tracks song) (h + a)) as (t & Ht & _);
        [unfold len_tracks in E; lia |].
      rewrite Ht. reflexivity. }
    cbn [List.fold_left]. rewrite Hstep.
    destruct (IH (<[a := track_active song h a]> m) Hall')
      as (m' & Hm' & Hlook).
    exists m'. split; [exact Hm' |]. intros ti. rewrite Hlook.
    destruct (decide (ti ∈ cols)) as [Hin | Hnin].
    + rewrite decide_True by (right; exact Hin). reflexivity.
    + destruct (decide (ti = a)) as [-> | Hne].
      * rewrite decide_True by left. apply lookup_insert_eq.
      * rewrite decide_False
          by (intros Hc; apply elem_of_cons in Hc; tauto).
        apply lookup_insert_ne. congruence.
Qed.

Lemma build_track_is_playing_total (song : Song) (h : Z) :
  0 <= h ->
  exists m,
    build_track_is_playing song h = Some m /\
    forall ti, 0 <= ti < 8 -> m !! ti = Some (track_active song h ti).
Proof.
  intros Hh.
  destruct (track_is_playing_fold song h (Py.range 8) ∅ Hh)
    as (m & Hm & Hlook).
  - repeat constructor; discriminate.
  - exists m. split; [exact Hm |]. intros ti Hti. rewrite Hlook.
    apply decide_True.
    assert (C : ti = 0 \/ ti = 1 \/ ti = 2 \/ ti = 3 \/ ti = 4 \/ ti = 5
                \/ ti = 6 \/ ti = 7) by lia.
    clear Hti. unfold Py.range. simpl.
    repeat (destruct C as [-> | C]; [set_solver |]). subst. set_solver.
Qed.

Lemma slot_code_spec_range (track : Track) (slot : ClipSlot) :
  let c := slot_code_spec track slot in
  c = -3 \/ c = -2 \/ c = -1 \/ 1 <= c <= 16.
Proof.
  unfold slot_code_spec. destruct slot as [clip |].
  - destruct (is_playing clip).
    + pose proof (playing_code_spec_range (playing_position clip)
                    (clip_length clip)). cbv zeta. lia.
    + destruct (is_triggered clip), (bool_decide (has_active_clip track));
        cbv zeta; lia.
  - destruct (bool_decide (has_active_clip track)); cbv zeta; lia.
Qed.

(** The body of the second loop on an addressable slot. *)
Lemma cell_for_in_range (song : Song) (h v : Z) (m : gmap Z bool)
  (si ti : Z) :
  song_ok song -> 0 <= h -> 0 <= v -> 0 <= si -> 0 <= ti ->
  m !! ti = Some (track_active song h ti) ->
  h + ti < len_tracks song -> v + si < len_scenes song ->
  exists track slot cell,
    Py.index (tracks song) (h + ti) = Some track /\
    Py.index (clip_slots track) (v + si) = Some slot /\
    cell_for song h v m si ti = Some cell /\
    code cell = slot_code_spec track slot.
Proof.
  intros Hok Hh Hv Hsi Hti Hm Ht Hs.
  destruct (index_in_range (tracks song) (h + ti)) as (track & Htr & Hin);
    [unfold len_tracks in Ht; lia |].
  destruct (Hok track Hin) as [Hslots Hlen].
  destruct (index_in_range (clip_slots track) (v + si)) as (slot & Hsl & Hin');
    [unfold len_scenes in Hs; lia |].
  assert (Hact : track_active song h ti = any_slot_active track).
  { unfold track_active. rewrite Htr.
    replace (h + ti <? len_tracks song) with true
      by (symmetry; apply Z.ltb_lt; exact Ht). reflexivity. }
  exists track, slot. unfold cell_for.
  replace (len_tracks song <=? h + ti) with false
    by (symmetry; apply Z.leb_gt; exact Ht).
  replace (len_scenes song <=? v + si) with false
    by (symmetry; apply Z.leb_gt; exact Hs).
  cbn [orb]. rewrite Htr. cbn [mbind option_bind]. rewrite Hsl.
  cbn [mbind option_bind]. rewrite Hm, Hact. cbn [mbind option_bind].
  unfold slot_code_spec. rewrite <- any_slot_active_decide.
  destruct slot as [clip |].
  - destruct (is_playing clip) eqn:Ep.
    + destruct (Hlen clip Hin' Ep) as [Hz Hn].
      rewrite (progress_val_spec clip Hz Hn).
      cbn [mbind option_bind]. eexists. repeat split; reflexivity.
    + destruct (is_triggered clip), (any_slot_active track);
        eexists; repeat split; reflexivity.
  - destruct (any_slot_active track); eexists; repeat split; reflexivity.
Qed.

Lemma cell_for_out_of_range (song : Song) (h v : Z) (m : gmap Z bool)
  (si ti : Z) :
  len_tracks song <= h + ti \/ len_scenes song <= v + si ->
  cell_for song h v m si ti = Some (mkCell "X" 3276800 (-4)).
Proof.
  intros H. unfold cell_for.
  replace ((len_tracks song <=? h + ti) || (len_scenes song <=? v + si))
    with true; [reflexivity |].
  symmetry. apply orb_true_iff. rewrite !Z.leb_le. exact H.
Qed.

Lemma cell_order_lookup (si ti : Z) :
  0 <= si < 4 -> 0 <= ti < 8 ->
  cell_order !! Z.to_nat (si * 8 + ti) = Some (si, ti).
Proof.
  intros Hsi Hti.
  assert (Cs : si = 0 \/ si = 1 \/ si = 2 \/ si = 3) by lia.
  assert (Ct : ti = 0 \/ ti = 1 \/ ti = 2 \/ ti = 3 \/ ti = 4 \/ ti = 5
               \/ ti = 6 \/ ti = 7) by lia.
  clear Hsi Hti.
  repeat (destruct Cs as [-> | Cs]);
    repeat (destruct Ct as [-> | Ct]); subst; reflexivity.
Qed.

Lemma cell_order_bounds :
  Forall (fun p : Z * Z => 0 <= p.1 < 4 /\ 0 <= p.2 < 8) cell_order.
Proof. repeat constructor; simpl; lia. Qed.

(** Every cell of the two loops is produced and classified. *)
Lemma cell_classified (song : Song) (h v : Z) (m : gmap Z bool) (si ti : Z) :
  song_ok song -> 0 <= h -> 0 <= v ->
  (forall ti, 0 <= ti < 8 -> m !! ti = Some (track_active song h ti)) ->
  0 <= si < 4 -> 0 <= ti < 8 ->
  exists cell,
    cell_for song h v m si ti = Some cell /\
    (code cell = -4 <->
     len_tracks song <= h + ti \/ len_scenes song <= v + si) /\
    (h + ti < len_tracks song -> v + si < len_scenes song ->
     exists track slot,
       Py.index (tracks song) (h + ti) = Some track /\
       Py.index (clip_slots track) (v + si) = Some slot /\
       code cell = slot_code_spec track slot) /\
    (code cell = -4 \/ code cell = -3 \/ code cell = -2 \/
     code cell = -1 \/ 1 <= code cell <= 16).
Proof.
  intros Hok Hh Hv Hlook Hsi Hti.
  destruct (Z_lt_le_dec (h + ti) (len_tracks song)) as [Ht | Ht];
    [destruct (Z_lt_le_dec (v + si) (len_scenes song)) as [Hs | Hs] | ].
  - destruct (cell_for_in_range song h v m si ti)
      as (track & slot & cell & Htr & Hsl & Hc & Hcode);
      try assumption; try lia; [apply Hlook; exact Hti |].
    pose proof (slot_code_spec_range track slot) as Hr. cbv zeta in Hr.
    exists cell. rewrite Hcode.
    split; [exact Hc |]. split; [| split].
    + split; [intros E; lia | intros [? | ?]; lia].
    + intros _ _. exists track, slot. auto.
    + lia.
  - exists (mkCell "X" 3276800 (-4)).
    rewrite cell_for_out_of_range by (right; exact Hs). cbn [code].
    split; [reflexivity |]. split; [| split].
    + split; [intros _; lia | reflexivity].
    + intros; lia.
    + lia.
  - exists (mkCell "X" 3276800 (-4)).
    rewrite cell_for_out_of_range by (left; exact Ht). cbn [code].
    split; [reflexivity |]. split; [| split].
    + split; [intros _; lia | reflexivity].
    + intros; lia.
    + lia.
Qed.

(** On a session that answers every slot read the snapshot is built. *)
Lemma snapshot_total (song : Song) (h v : Z) :
  song_ok song -> 0 <= h -> 0 <= v ->
  exists cells, snapshot song h v = Some cells.
Proof.
  intros Hok Hh Hv.
  destruct (build_track_is_playing_total song h Hh) as (m & Hm & Hlook).
  assert (Hsome : is_Some (mapM (fun p : Z * Z => cell_for song h v m p.1 p.2)
                             cell_order)).
  { apply mapM_is_Some. eapply Forall_impl; [apply cell_order_bounds |].
    intros [si ti] [Hsi Hti]. cbn [fst snd] in *.
    destruct (cell_classified song h v m si ti Hok Hh Hv Hlook Hsi Hti)
      as (cell & Hc & _).
    cbn. rewrite Hc. eauto. }
  destruct Hsome as [cells Hcells]. exists cells.
  unfold snapshot. rewrite Hm. exact Hcells.
Qed.

(** Cell [si * 8 + ti] of a snapshot is the one the loops built for scene
    row [si] and track column [ti]. *)
Lemma snapshot_lookup (song : Song) (h v : Z) (cells : list Cell) (si ti : Z) :
  snapshot song h v = Some cells ->
  0 <= si < 4 -> 0 <= ti < 8 ->
  List.length cells = 32%nat /\
  exists m cell,
    build_track_is_playing song h = Some m /\
    cells !! Z.to_nat (si * 8 + ti) = Some cell /\
    cell_for song h v m si ti = Some cell.
Proof.
  intros Hsnap Hsi Hti. unfold snapshot in Hsnap.
  destruct (build_track_is_playing song h) as [m |]; [| discriminate].
  cbn [mbind option_bind] in Hsnap. split.
  - apply length_mapM in Hsnap. rewrite <- Hsnap. reflexivity.
  - apply mapM_Some_1 in Hsnap.
    destruct (Forall2_lookup_l _ _ _ _ _ Hsnap
                (cell_order_lookup si ti Hsi Hti)) as (cell & Hl & Hc).
    exists m, cell. auto.
Qed.

(** Once configured, and while the window starts inside the session, the
    adapter sends the snapshot it built as one [/clip_info] message. *)
Lemma prepare_and_send_clip_info_sends (song : Song) (s : ClipDeck)
  (cells : list Cell) :
  config_received s = true ->
  h_offset s < len_tracks song ->
  snapshot song (h_offset s) (v_offset s) = Some cells ->
  prepare_and_send_clip_info song s
  = osc_send "/clip_info"
      (OInt (display_order s) :: List.map OStr (List.map cell_wire cells)) s.
Proof.
  intros Hc Hh Hs. unfold prepare_and_send_clip_info.
  rewrite Hc, Hs. cbn [negb].
  replace (len_tracks song <=? h_offset s) with false
    by (symmetry; apply Z.leb_gt; exact Hh).
  reflexivity.
Qed.

Lemma scenario_song_ok : song_ok Examples.scenario_song.
Proof.
  intros track Hin. simpl in Hin.
  repeat (destruct Hin as [<- | Hin]); try contradiction;
    (split; [simpl; lia |]); intros clip Hc Hp; simpl in Hc;
    repeat (destruct Hc as [Hc | Hc]); try discriminate; try contradiction.
  injection Hc as <-. split; [intros E; discriminate | reflexivity].
Qed.

Lemma map_OStr_inj (a b : list string) :
  List.map OStr a = List.map OStr b -> a = b.
Proof.
  revert b. induction a as [| x a IH]; intros [| y b] H;
    try discriminate; [reflexivity |].
  injection H as -> H. f_equal. by apply IH.
Qed.

(** What the adapter appends to its output log when it sends a
    snapshot. *)
Lemma prepare_and_send_clip_info_out_cells (song : Song) (s : ClipDeck)
  (cells : list Cell) :
  config_received s = true ->
  h_offset s < len_tracks song ->
  snapshot song (h_offset s) (v_offset s) = Some cells ->
  exists dup,
    out (prepare_and_send_clip_info song s)
    = out s ++
      OscSend (osc_send_port s) "/clip_info"
        (OInt (display_order s) :: List.map OStr (List.map cell_wire cells))
      :: dup.
Proof.
  intros Hc Hh Hs.
  rewrite (prepare_and_send_clip_info_sends song s cells Hc Hh Hs).
  unfold osc_send. cbn [out emit]. eexists. reflexivity.
Qed.

(** Beyond the last track the adapter sends nothing. *)
Lemma prepare_and_send_clip_info_beyond (song : Song) (s : ClipDeck) :
  len_tracks song <= h_offset s -> prepare_and_send_clip_info song s = s.
Proof.
  intros H. unfold prepare_and_send_clip_info.
  destruct (negb (config_received s)); [reflexivity |].
  replace (len_tracks song <=? h_offset s) with true
    by (symmetry; apply Z.leb_le; exact H).
  reflexivity.
Qed.

(** The code of a slot, case by case. *)
Lemma slot_code_spec_cases (track : Track) (slot : ClipSlot) :
  let c := slot_code_spec track slot in
  match slot with
  | Some clip =>
      if is_playing clip then
        c = playing_code_spec (playing_position clip) (clip_length clip)
      else if is_triggered clip then c = -1
      else (has_active_clip track -> c = -2) /\
           (~ has_active_clip track -> c = -3)
  | None =>
      (has_active_clip track -> c = -2) /\
      (~ has_active_clip track -> c = -3)
  end.
Proof.
  cbv zeta. unfold slot_code_spec.
  destruct slot as [clip |];
    [destruct (is_playing clip); [done |];
     destruct (is_triggered clip); [done |] |];
    (destruct (decide (has_active_clip track)) as [Hy | Hn];
     [rewrite bool_decide_eq_true_2 by exact Hy
     | rewrite bool_decide_eq_false_2 by exact Hn]; split; done).
Qed.

(** C4: a configured adapter whose window lies at non-negative offsets
    over a session that answers every slot read.  When the window starts
    beyond the last track, the adapter sends nothing.  Otherwise it sends
    one [/clip_info] message of its display order and 32 cells, scene
    outer and track inner, each ["label|colour|code"].  The cell of scene
    row [si] and track column [ti] has code -4 exactly when the absolute
    track or scene index is outside the session; otherwise its code is
    that of the addressed slot: for a clip, the playing code in [1..16]
    when it is playing, else -1 when it is triggered; for a stopped clip
    and for an empty slot, -2 when some slot of the track holds a
    playing or triggered clip and -3 otherwise.  Every code lies in
    {-4, -3, -2, -1, 1..16}. *)
Theorem snapshot_classifies_cells (song : Song) (s : ClipDeck) :
  song_ok song -> config_received s = true ->
  0 <= h_offset s -> 0 <= v_offset s ->
  let h := h_offset s in
  let v := v_offset s in
  (len_tracks song <= h -> out (prepare_and_send_clip_info song s) = out s) /\
  (h < len_tracks song ->
   exists wire dup,
     out (prepare_and_send_clip_info song s)
     = out s ++
       OscSend (osc_send_port s) "/clip_info"
         (OInt (display_order s) :: List.map OStr wire) :: dup /\
     List.length wire = 32%nat /\
     forall si ti, 0 <= si < 4 -> 0 <= ti < 8 ->
       exists (lbl : string) (col c : Z),
         wire !! Z.to_nat (si * 8 + ti)
         = Some (String.append lbl
                   (String.append "|"
                      (String.append (pretty col)
                         (String.append "|" (pretty c))))) /\
         (c = -4 <->
          len_tracks song <= h + ti \/ len_scenes song <= v + si) /\
         (h + ti < len_tracks song -> v + si < len_scenes song ->
          exists track slot,
            Py.index (tracks song) (h + ti) = Some track /\
            Py.index (clip_slots track) (v + si) = Some slot /\
            match slot with
            | Some clip =>
                if is_playing clip then
                  c = playing_code_spec (playing_position clip)
                        (clip_length clip)
                  /\ 1 <= c <= 16
                else if is_triggered clip then c = -1
                else (has_active_clip track -> c = -2) /\
                     (~ has_active_clip track -> c = -3)
            | None =>
                (has_active_clip track -> c = -2) /\
                (~ has_active_clip track -> c = -3)
            end) /\
         (c = -4 \/ c = -3 \/ c = -2 \/ c = -1 \/ 1 <= c <= 16)).
Proof.
  intros Hok Hcfg Hh Hv h v. split.
  - intros Hb. by rewrite prepare_and_send_clip_info_beyond.
  - intros Hin.
    destruct (snapshot_total song h v Hok Hh Hv) as [cells Hcells].
    destruct (prepare_and_send_clip_info_out_cells song s cells Hcfg Hin
                Hcells) as [dup Hout].
    exists (List.map cell_wire cells), dup. split; [exact Hout |].
    split.
    { rewrite length_map.
      apply (snapshot_lookup song h v cells 0 0 Hcells); lia. }
    intros si ti Hsi Hti.
    destruct (snapshot_lookup song h v cells si ti Hcells Hsi Hti)
      as (_ & m & cell & Hm & Hl & Hc).
    destruct (build_track_is_playing_total song h Hh) as (m' & Hm' & Hlook).
    assert (m' = m) by congruence. subst m'.
    destruct (cell_classified song h v m si ti Hok Hh Hv Hlook Hsi Hti)
      as (cell' & Hc' & H4 & Hslot & Hrange).
    assert (cell' = cell) by congruence. subst cell'.
    exists (label cell), (cell_color cell), (code cell).
    split; [| split; [exact H4 | split; [| exact Hrange]]].
    + rewrite list_lookup_fmap, Hl. reflexivity.
    + intros Ht Hs.
      destruct (Hslot Ht Hs) as (track & slot & Htr & Hsl & Hcode).
      exists track, slot. split; [exact Htr |]. split; [exact Hsl |].
      pose proof (slot_code_spec_cases track slot) as Hcases.
      cbv zeta in Hcases. rewrite <- Hcode in Hcases.
      destruct slot as [clip |]; [| exact Hcases].
      destruct (is_playing clip); [| exact Hcases].
      split; [exact Hcases |]. rewrite Hcases.
      apply playing_code_spec_range.
Qed.

Lemma queued_song_ok : song_ok Examples.queued_song.
Proof.
  intros track Hin. simpl in Hin.
  repeat (destruct Hin as [<- | Hin]); try contradiction;
    (split; [simpl; lia |]); intros clip Hc Hp; simpl in Hc;
    repeat (destruct Hc as [Hc | Hc]); try discriminate; try contradiction;
    injection Hc as <-; try discriminate;
    (split; [intros E; discriminate | reflexivity]).
Qed.

Lemma snapshot_classifies_cells_witness :
  exists wire,
    out (prepare_and_send_clip_info Examples.queued_song Examples.configured)
    = [OscSend 9000 "/clip_info" (OInt 0 :: List.map OStr wire)] /\
    List.length wire = 32%nat /\
    wire !! 0%nat = Some "Cue|255|-1"%string /\
    wire !! 8%nat = Some " |0|-2"%string /\
    wire !! 1%nat = Some "Old|65280|-3"%string /\
    wire !! 10%nat = Some "Lead|16711680|9"%string /\
    wire !! 18%nat = Some " |0|-2"%string /\
    wire !! 31%nat = Some "X|3276800|-4"%string.
Proof.
  destruct (snapshot_classifies_cells Examples.queued_song
              Examples.configured queued_song_ok eq_refl
              ltac:(by vm_compute) ltac:(by vm_compute))
    as [_ Hsend].
  destruct (Hsend ltac:(by vm_compute)) as (wire & dup & Hout & Hlen & _).
  exists wire.
  assert (Hc : exists wire0,
             out (prepare_and_send_clip_info Examples.queued_song
                    Examples.configured)
             = [OscSend 9000 "/clip_info" (OInt 0 :: List.map OStr wire0)] /\
             wire0 !! 0%nat = Some "Cue|255|-1"%string /\
             wire0 !! 8%nat = Some " |0|-2"%string /\
             wire0 !! 1%nat = Some "Old|65280|-3"%string /\
             wire0 !! 10%nat = Some "Lead|16711680|9"%string /\
             wire0 !! 18%nat = Some " |0|-2"%string /\
             wire0 !! 31%nat = Some "X|3276800|-4"%string).
  { exists (default []
              (List.map cell_wire <$> snapshot Examples.queued_song 0 0)).
    repeat split; by vm_compute. }
  destruct Hc as (wire0 & Hc & Hcells).
  assert (Hw : wire = wire0).
  { rewrite Hc in Hout. change (out Examples.configured) with (@nil action)
      in Hout. cbn [app] in Hout. apply map_OStr_inj. congruence. }
  subst wire0. split; [exact Hc |]. split; [exact Hlen | exact Hcells].
Defined.

(** *** The cell of a playing clip *)

(** The body of the second loop on a slot with a playing clip. *)
Lemma cell_for_playing (song : Song) (h v : Z) (m : gmap Z bool)
  (si ti : Z) (track : Track) (clip : Clip) :
  h + ti < len_tracks song -> v + si < len_scenes song ->
  Py.index (tracks song) (h + ti) = Some track ->
  Py.index (clip_slots track) (v + si) = Some (Some clip) ->
  is_playing clip = true ->
  ~ Float.same_number (clip_length clip) (Float.of_Z 0) ->
  Float.is_number
    (scaled_progress (playing_position clip) (clip_length clip)) = true ->
  cell_for song h v m si ti
  = Some (mkCell (name clip) (color clip)
            (playing_code_spec (playing_position clip) (clip_length clip))).
Proof.
  intros Ht Hs Htrack Hslot Hplay Hz Hn. unfold cell_for.
  replace (len_tracks song <=? h + ti) with false
    by (symmetry; apply Z.leb_gt; exact Ht).
  replace (len_scenes song <=? v + si) with false
    by (symmetry; apply Z.leb_gt; exact Hs).
  cbn [orb]. rewrite Htrack. cbn [mbind option_bind]. rewrite Hslot.
  cbn [mbind option_bind]. rewrite Hplay.
  by rewrite (progress_val_spec clip Hz Hn).
Qed.

Lemma index_In {A} (l : list A) (i : Z) (x : A) :
  Py.index l i = Some x -> List.In x l.
Proof.
  unfold Py.index. intros H. apply list_elem_of_In.
  destruct (0 <=? i); [by eapply list_elem_of_lookup_2 |].
  destruct (0 <=? _); [by eapply list_elem_of_lookup_2 | discriminate].
Qed.

(** C5: a configured adapter whose window starts inside a session that
    answers every slot read sends a snapshot in which the cell of a
    playing clip with position [p] and length [l] (any length the
    session can report for a playing clip, in particular [l > 0]) is
    ["name|colour|code"] with the code
    [clamp(floor((p / l) * 16), 0, 15) + 1], quotient and product being
    those of binary64; the code lies in [1..16] and is [9] when [p / l]
    is [0.5]. *)
Theorem playing_cell_reports_fraction
  (song : Song) (s : ClipDeck) (scene_index track_index : Z)
  (track : Track) (clip : Clip) :
  song_ok song -> config_received s = true ->
  0 <= h_offset s < len_tracks song -> 0 <= v_offset s ->
  0 <= scene_index < 4 -> 0 <= track_index < 8 ->
  h_offset s + track_index < len_tracks song ->
  v_offset s + scene_index < len_scenes song ->
  Py.index (tracks song) (h_offset s + track_index) = Some track ->
  Py.index (clip_slots track) (v_offset s + scene_index)
  = Some (Some clip) ->
  is_playing clip = true ->
  let p := playing_position clip in
  let l := clip_length clip in
  let c :=
    clamp (Qfloor (Float.real (Float.mul (Float.div p l) (Float.of_Z 16))))
      0 15 + 1 in
  (exists wire dup,
     out (prepare_and_send_clip_info song s)
     = out s ++
       OscSend (osc_send_port s) "/clip_info"
         (OInt (display_order s) :: List.map OStr wire) :: dup /\
     wire !! Z.to_nat (scene_index * 8 + track_index)
     = Some (String.append (name clip)
               (String.append "|"
                  (String.append (pretty (color clip))
                     (String.append "|" (pretty c)))))) /\
  1 <= c <= 16 /\
  (Float.div p l = Float.div (Float.of_Z 1) (Float.of_Z 2) -> c = 9).
Proof.
  intros Hok Hcfg [Hh Hin] Hv Hsi Hti Ht Hs Htrack Hslot Hplay p l c.
  assert (Ec : c = playing_code_spec p l) by reflexivity.
  split; [| split].
  - destruct (snapshot_total song (h_offset s) (v_offset s) Hok Hh Hv)
      as [cells Hcells].
    destruct (prepare_and_send_clip_info_out_cells song s cells Hcfg Hin
                Hcells) as [dup Hout].
    exists (List.map cell_wire cells), dup. split; [exact Hout |].
    destruct (snapshot_lookup song (h_offset s) (v_offset s) cells
                scene_index track_index Hcells Hsi Hti)
      as (_ & m & cell & Hm & Hl & Hc).
    destruct (Hok track (index_In _ _ _ Htrack)) as [_ Hlen].
    destruct (Hlen clip (index_In _ _ _ Hslot) Hplay) as [Hz Hn].
    rewrite (cell_for_playing song (h_offset s) (v_offset s) m scene_index
               track_index track clip Ht Hs Htrack Hslot Hplay Hz Hn) in Hc.
    injection Hc as <-. rewrite list_lookup_fmap, Hl. reflexivity.
  - rewrite Ec. apply playing_code_spec_range.
  - rewrite Ec. apply playing_code_spec_half.
Qed.

Lemma playing_cell_reports_fraction_witness :
  exists wire,
    out (prepare_and_send_clip_info Examples.scenario_song
           Examples.configured)
    = [OscSend 9000 "/clip_info" (OInt 0 :: List.map OStr wire)] /\
    wire !! 10%nat = Some "Lead|16711680|9"%string.
Proof.
  destruct (playing_cell_reports_fraction Examples.scenario_song
              Examples.configured 1 2 Examples.lead_track Examples.lead
              scenario_song_ok eq_refl ltac:(by vm_compute)
              ltac:(by vm_compute) ltac:(lia) ltac:(lia)
              ltac:(by vm_compute) ltac:(by vm_compute) eq_refl eq_refl
              eq_refl)
    as ((wire & dup & Hout & Hcell) & _ & Hhalf).
  assert (Hc : out (prepare_and_send_clip_info Examples.scenario_song
                      Examples.configured)
               = [OscSend 9000 "/clip_info"
                    (OInt 0 ::
                     List.map OStr
                       (default []
                          (List.map cell_wire
                             <$> snapshot Examples.scenario_song 0 0)))])
    by (by vm_compute).
  assert (Hw : wire = default []
                        (List.map cell_wire
                           <$> snapshot Examples.scenario_song 0 0)).
  { apply map_OStr_inj. rewrite Hc in Hout.
    change (out Examples.configured) with (@nil action) in Hout.
    cbn [app] in Hout. congruence. }
  exists wire. split; [by rewrite Hw |]. rewrite Hw. by vm_compute.
Defined.

(** *** Frame properties of the handlers *)

Lemma same_window_refl (s : ClipDeck) : same_window s s.
Proof. repeat split. Qed.

Lemma same_window_trans (s1 s2 s3 : ClipDeck) :
  same_window s1 s2 -> same_window s2 s3 -> same_window s1 s3.
Proof. unfold same_window. intuition congruence. Qed.

Lemma osc_send_window (a : string) (args : list osc_arg) (s : ClipDeck) :
  same_window s (osc_send a args s).
Proof. repeat split. Qed.

Lemma send_message_window (m : message) (s : ClipDeck) :
  same_window s (send_message m s).
Proof. destruct m; apply osc_send_window. Qed.

Lemma check_structural_validity_window (song : Song) (s : ClipDeck) :
  same_window s (check_structural_validity song s).2.
Proof.
  unfold check_structural_validity.
  destruct (len_tracks song <=? h_offset s), (structural_mismatch s);
    simpl; repeat split.
Qed.

Lemma prepare_and_send_clip_info_window (song : Song) (s : ClipDeck) :
  same_window s (prepare_and_send_clip_info song s).
Proof.
  unfold prepare_and_send_clip_info.
  destruct (negb (config_received s)); [apply same_window_refl |].
  destruct (len_tracks song <=? h_offset s); [apply same_window_refl |].
  destruct (snapshot song (h_offset s) (v_offset s));
    [apply send_message_window | apply same_window_refl].
Qed.

Lemma handle_trigger_clip_window (song song' : Song) (t sc : Z)
  (s : ClipDeck) :
  same_window s (handle_trigger_clip song song' t sc s).
Proof.
  unfold handle_trigger_clip, trigger_target.
  destruct (_ && _); [| apply same_window_refl].
  destruct (_ ≫= _) as [[track slot] |]; [| apply same_window_refl].
  set (s1 := match slot with Some _ => _ | None => _ end).
  assert (H1 : same_window s s1).
  { subst s1. destruct slot; [repeat split |].
    eapply same_window_trans; [| apply send_message_window]. repeat split. }
  pose proof (check_structural_validity_window song' s1) as H2.
  destruct (check_structural_validity song' s1) as [valid s2]. simpl in H2.
  destruct valid.
  - eapply same_window_trans; [| apply prepare_and_send_clip_info_window].
    eapply same_window_trans; eassumption.
  - eapply same_window_trans; eassumption.
Qed.

(** The fields a scroll leaves alone. *)
Lemma handle_scroll_frame (song : Song) (d : string) (s : ClipDeck) :
  let s' := handle_scroll song d s in
  config_received s' = config_received s /\
  display_order s' = display_order s /\
  initial_h_offset s' = initial_h_offset s /\
  osc_send_port s' = osc_send_port s.
Proof.
  unfold handle_scroll. destruct (scroll_step d) as [dir st].
  scroll_cases; bool_cases; repeat split.
Qed.

(** *** The output log only grows *)

Lemma send_message_out (m : message) (s : ClipDeck) :
  exists l, out (send_message m s) = out s ++ l.
Proof. destruct m; eexists; reflexivity. Qed.

Lemma check_structural_validity_out (song : Song) (s : ClipDeck) :
  exists l, out (check_structural_validity song s).2 = out s ++ l.
Proof.
  unfold check_structural_validity.
  destruct (len_tracks song <=? h_offset s), (structural_mismatch s);
    cbn [snd negb];
    try (exists []; symmetry; apply app_nil_r); eexists; reflexivity.
Qed.

Lemma prepare_and_send_clip_info_out (song : Song) (s : ClipDeck) :
  exists l, out (prepare_and_send_clip_info song s) = out s ++ l.
Proof.
  unfold prepare_and_send_clip_info.
  destruct (negb (config_received s));
    [exists []; symmetry; apply app_nil_r |].
  destruct (len_tracks song <=? h_offset s);
    [exists []; symmetry; apply app_nil_r |].
  destruct (snapshot song (h_offset s) (v_offset s));
    [apply send_message_out | exists []; symmetry; apply app_nil_r].
Qed.

(** A trigger for an addressable slot fires the clip of that slot, or
    stops the track of an empty one, before anything else is emitted. *)
Lemma handle_trigger_clip_acts (song song' : Song) (t sc : Z) (s : ClipDeck)
  (track : Track) (slot : ClipSlot) :
  0 <= h_offset s + t < len_tracks song ->
  0 <= v_offset s + sc < len_scenes song ->
  Py.index (tracks song) (h_offset s + t) = Some track ->
  Py.index (clip_slots track) (v_offset s + sc) = Some slot ->
  exists rest,
    out (handle_trigger_clip song song' t sc s)
    = out s ++
      match slot with
      | Some _ => Fire (h_offset s + t) (v_offset s + sc)
      | None => StopAllClips (h_offset s + t)
      end :: rest.
Proof.
  intros Ht Hs Htr Hsl. unfold handle_trigger_clip, trigger_target.
  replace ((0 <=? h_offset s + t) && (h_offset s + t <? len_tracks song)
           && (0 <=? v_offset s + sc) && (v_offset s + sc <? len_scenes song))
    with true
    by (symmetry; rewrite !andb_true_iff, !Z.leb_le, !Z.ltb_lt; lia).
  rewrite Htr. cbn [mbind option_bind]. rewrite Hsl. cbn [mbind option_bind].
  set (s1 := match slot with Some _ => _ | None => _ end).
  assert (H1 : exists l, out s1 = out s ++
                match slot with
                | Some _ => Fire (h_offset s + t) (v_offset s + sc)
                | None => StopAllClips (h_offset s + t)
                end :: l).
  { subst s1. destruct slot; [exists []; reflexivity |].
    eexists. cbn. rewrite <- app_assoc. reflexivity. }
  destruct H1 as [l1 H1].
  destruct (check_structural_validity_out song' s1) as [l2 H2].
  destruct (check_structural_validity song' s1) as [valid s2].
  cbn [snd] in H2.
  destruct valid.
  - destruct (prepare_and_send_clip_info_out song' s2) as [l3 H3].
    exists (l1 ++ l2 ++ l3). rewrite H3, H2, H1.
    rewrite <- !app_assoc. reflexivity.
  - exists (l1 ++ l2). rewrite H2, H1. rewrite <- !app_assoc. reflexivity.
Qed.

(** A trigger for a slot outside the session does nothing. *)
Lemma handle_trigger_clip_outside (song song' : Song) (t sc : Z)
  (s : ClipDeck) :
  len_tracks song <= h_offset s + t \/ len_scenes song <= v_offset s + sc ->
  handle_trigger_clip song song' t sc s = s.
Proof.
  intros H. unfold handle_trigger_clip, trigger_target.
  replace ((0 <=? h_offset s + t) && (h_offset s + t <? len_tracks song)
           && (0 <=? v_offset s + sc) && (v_offset s + sc <? len_scenes song))
    with false; [reflexivity |].
  symmetry. apply not_true_is_false.
  rewrite !andb_true_iff, !Z.leb_le, !Z.ltb_lt. lia.
Qed.

Section Handshake.

Variable int_of_str : string -> option Z.

Local Abbreviation step := (step int_of_str).
Local Abbreviation run := (run int_of_str).
Local Abbreviation accepted := (accepted int_of_str).
Local Abbreviation is_accepted_config := (is_accepted_config int_of_str).

(** An accepted config after the first one. *)
Lemma config_again (song : Song) (args : list osc_arg) (h : Z) (d : bool)
  (s : ClipDeck) :
  config_received s = true ->
  accepted (display_order s) args = Some (h, d) ->
  osc_config_handler int_of_str song args s
  = osc_send "/ablonline" [OInt (display_order s)] (with_debug d s).
Proof.
  intros Hc Ha. unfold accepted in Ha. unfold osc_config_handler.
  destruct (config_args int_of_str args) as [[[o h'] d'] |]; [| discriminate].
  destruct (o =? display_order s); [| discriminate].
  injection Ha as -> ->.
  destruct s; simpl in *; subst. destruct d; reflexivity.
Qed.

(** The first accepted config. *)
Lemma config_first (song : Song) (args : list osc_arg) (h : Z) (d : bool)
  (s : ClipDeck) :
  config_received s = false ->
  accepted (display_order s) args = Some (h, d) ->
  let s' := osc_config_handler int_of_str song args s in
  h_offset s' = h /\ initial_h_offset s' = h /\ v_offset s' = v_offset s /\
  config_received s' = true /\ display_order s' = display_order s.
Proof.
  intros Hc Ha. unfold accepted in Ha. unfold osc_config_handler.
  destruct (config_args int_of_str args) as [[[o h'] d'] |]; [| discriminate].
  destruct (o =? display_order s); [| discriminate].
  injection Ha as -> ->. rewrite Hc. cbn [negb andb].
  match goal with
  | |- context [osc_send ?a ?l ?x] =>
      pose proof (osc_send_window a l x) as Hw; revert Hw;
      generalize (osc_send a l x)
  end.
  match goal with
  | |- context [if ?c then prepare_and_send_clip_info ?g ?x else ?y] =>
      assert (Hp : same_window y
                     (if c then prepare_and_send_clip_info g x else y))
  end.
  { destruct (_ || _).
    - eapply same_window_trans; [| apply prepare_and_send_clip_info_window].
      destruct d; repeat split.
    - apply same_window_refl. }
  revert Hp.
  match goal with
  | |- same_window _ ?z -> _ => generalize z
  end.
  intros s1 H1 s2 H2.
  pose proof (same_window_trans _ _ _ H1 H2) as H.
  destruct H as (H3 & _ & _ & H4 & H5 & H6 & H7 & _).
  rewrite H3, H4, H5, H6, H7. destruct d; repeat split.
Qed.

(** A config that is not accepted changes nothing. *)
Lemma config_rejected (song : Song) (args : list osc_arg) (s : ClipDeck) :
  accepted (display_order s) args = None ->
  osc_config_handler int_of_str song args s = s.
Proof.
  unfold accepted, osc_config_handler.
  destruct (config_args int_of_str args) as [[[o h'] d'] |]; [| reflexivity].
  destruct (o =? display_order s); [discriminate | reflexivity].
Qed.

(** Events other than a config keep the handshake fields. *)
Lemma step_other_frame (s : ClipDeck) (e : event) :
  match e with EvConfig _ _ => False | _ => True end ->
  let s' := step s e in
  config_received s' = config_received s /\
  display_order s' = display_order s /\
  initial_h_offset s' = initial_h_offset s /\
  osc_send_port s' = osc_send_port s.
Proof.
  assert (W : forall s', same_window s s' ->
    config_received s' = config_received s /\
    display_order s' = display_order s /\
    initial_h_offset s' = initial_h_offset s /\
    osc_send_port s' = osc_send_port s).
  { unfold same_window. intuition. }
  destruct e as [g a | g a | g g' a | g a | | g | g |]; intros He;
    cbv beta iota delta [Session.step]; try (simpl in He; contradiction).
  - unfold osc_scroll_handler.
    destruct a as [| [z | q | d] a]; try (repeat split; fail).
    apply handle_scroll_frame.
  - apply W. unfold osc_trigger_clip_handler.
    destruct a as [| [t | |] [| [sc | |] [|]]]; try apply same_window_refl.
    apply handle_trigger_clip_window.
  - apply W. unfold osc_refresh_handler.
    destruct (match a with [] => _ | _ => _ end) as [o |];
      [| apply same_window_refl].
    destruct (o =? display_order s); [| apply same_window_refl].
    eapply same_window_trans;
      [apply prepare_and_send_clip_info_window | apply osc_send_window].
  - apply W. unfold osc_pyonline_handler. apply osc_send_window.
  - apply W. unfold on_offset_changed.
    eapply same_window_trans;
      [apply check_structural_validity_window
      | apply prepare_and_send_clip_info_window].
  - apply W. apply prepare_and_send_clip_info_window.
  - apply W. unfold send_ablonline_round.
    destruct (structural_mismatch _).
    + eapply same_window_trans; apply send_message_window.
    + apply send_message_window.
Qed.

(** Until a config is accepted the adapter has none. *)
Lemma run_before_config (order : Z) (pre : list event) (s : ClipDeck) :
  display_order s = order ->
  config_received s = false ->
  Forall (fun e => is_accepted_config order e = false) pre ->
  let s' := run s pre in
  display_order s' = order /\ config_received s' = false.
Proof.
  revert s. induction pre as [| e pre IH]; intros s Ho Hc Hall; simpl;
    [auto |].
  inversion Hall as [| ? ? He Hall']; subst.
  apply IH; try assumption.
  - destruct e; try (apply (step_other_frame s); exact I).
    simpl. simpl in He. rewrite config_rejected; [reflexivity |].
    destruct (accepted _ _); [discriminate | reflexivity].
  - destruct e;
      try (rewrite <- Hc; apply (step_other_frame s); exact I).
    simpl. simpl in He. rewrite config_rejected; [assumption |].
    destruct (accepted _ _); [discriminate | reflexivity].
Qed.

(** Once a config was accepted, the reset target and the display order
    are fixed. *)
Lemma run_after_config (mid : list event) (s : ClipDeck) :
  config_received s = true ->
  let s' := run s mid in
  config_received s' = true /\
  display_order s' = display_order s /\
  initial_h_offset s' = initial_h_offset s.
Proof.
  revert s. induction mid as [| e mid IH]; intros s Hc; simpl; [auto |].
  assert (H : config_received (step s e) = true /\
              display_order (step s e) = display_order s /\
              initial_h_offset (step s e) = initial_h_offset s).
  { destruct e;
      try (match goal with
           | |- context [Session.step _ s ?e] =>
               destruct (step_other_frame s e I) as (-> & -> & -> & _)
           end; auto; fail).
    simpl. destruct (accepted (display_order s) args) as [[h d] |] eqn:Ha.
    - rewrite (config_again _ _ _ _ _ Hc Ha).
      destruct s; simpl in *; subst. destruct d; auto.
    - rewrite config_rejected by assumption. auto. }
  destruct H as (H1 & H2 & H3).
  destruct (IH _ H1) as (I1 & I2 & I3). rewrite <- H2, <- H3. auto.
Qed.

(** A reset scroll, fast or not. *)
Lemma handle_scroll_reset (song : Song) (fast : bool) (s : ClipDeck) :
  let s' := handle_scroll song (scroll_wire (Reset, fast)) s in
  h_offset s' = initial_h_offset s /\ v_offset s' = v_offset s.
Proof.
  unfold handle_scroll. rewrite scroll_step_wire.
  cbn [fst snd direction_name]. change (String.eqb "reset" "up") with false.
  change (String.eqb "reset" "down") with false.
  change (String.eqb "reset" "left") with false.
  change (String.eqb "reset" "right") with false.
  change (String.eqb "reset" "reset") with true.
  cbv iota. bool_cases; split; reflexivity.
Qed.

(** C2: the first config the adapter accepts sets the horizontal offset
    and the initial horizontal offset to the offset it carries; every
    config accepted later for the same order rewrites the debug fields
    only and answers with [/ablonline]: the horizontal, the initial
    horizontal and the vertical offset stay as they were, whatever
    happened in between. *)
Theorem first_config_sets_offset_later_configs_keep_it
  (order : Z) (pre mid : list event) (song1 song2 : Song)
  (args1 args2 : list osc_arg) (h1 h2 : Z) (d1 d2 : bool) :
  Forall (fun e => is_accepted_config order e = false) pre ->
  accepted order args1 = Some (h1, d1) ->
  accepted order args2 = Some (h2, d2) ->
  let s0 := run (init order) pre in
  let s1 := step s0 (EvConfig song1 args1) in
  let s2 := run s1 mid in
  let s3 := step s2 (EvConfig song2 args2) in
  (h_offset s1 = h1 /\ initial_h_offset s1 = h1) /\
  (h_offset s3 = h_offset s2 /\
   initial_h_offset s3 = initial_h_offset s2 /\
   initial_h_offset s3 = h1 /\
   v_offset s3 = v_offset s2) /\
  (config_received s3 = config_received s2 /\
   display_order s3 = display_order s2 /\
   last_applied_h_offset s3 = last_applied_h_offset s2 /\
   last_applied_v_offset s3 = last_applied_v_offset s2 /\
   structural_mismatch s3 = structural_mismatch s2 /\
   osc_send_port s3 = osc_send_port s2) /\
  (debug_mode s3 = d2 /\
   debug_client s3
   = if d2 then Some (osc_send_port s2 + 1000) else debug_client s2) /\
  out s3
  = out s2 ++
    OscSend (osc_send_port s2) "/ablonline" [OInt order]
    :: (if d2
        then [OscSend (osc_send_port s2 + 1000) "/ablonline" [OInt order]]
        else []).
Proof.
  intros Hpre Ha1 Ha2. cbv zeta. cbn [Session.step].
  destruct (run_before_config order pre (init order) eq_refl eq_refl Hpre)
    as [Ho0 Hc0].
  set (s0 := run (init order) pre) in *.
  rewrite <- Ho0 in Ha1.
  destruct (config_first song1 args1 h1 d1 s0 Hc0 Ha1)
    as (F1 & F2 & _ & F4 & F5).
  set (s1 := osc_config_handler int_of_str song1 args1 s0) in *.
  destruct (run_after_config mid s1 F4) as (M1 & M2 & M3).
  set (s2 := run s1 mid) in *.
  assert (Ho2 : display_order s2 = order) by congruence.
  rewrite <- Ho2 in Ha2.
  assert (E : osc_config_handler int_of_str song2 args2 s2
              = osc_send "/ablonline" [OInt (display_order s2)]
                  (with_debug d2 s2))
    by (apply (config_again song2 args2 h2 d2 s2); assumption).
  split; [auto |].
  rewrite E, <- Ho2. clear E.
  assert (I3 : initial_h_offset s2 = h1) by congruence.
  clearbody s2. clear - M1 I3. destruct s2; simpl in *; subst.
  destruct d2; repeat split.
Qed.

(** C7: after the first accepted config, whatever the adapter handled
    since (any number of scrolls in particular), a reset scroll sets the
    horizontal offset to the offset that first config carried and leaves
    the vertical offset unchanged. *)
Theorem reset_restores_first_config_offset
  (order : Z) (pre mid : list event) (song1 song : Song)
  (args1 : list osc_arg) (h1 : Z) (d1 fast : bool) :
  Forall (fun e => is_accepted_config order e = false) pre ->
  accepted order args1 = Some (h1, d1) ->
  let s2 :=
    run (step (run (init order) pre) (EvConfig song1 args1)) mid in
  let s3 := step s2 (EvScroll song [OStr (scroll_wire (Reset, fast))]) in
  h_offset s3 = h1 /\ v_offset s3 = v_offset s2.
Proof.
  intros Hpre Ha1. cbv zeta. cbn [Session.step].
  destruct (run_before_config order pre (init order) eq_refl eq_refl Hpre)
    as [Ho0 Hc0].
  rewrite <- Ho0 in Ha1.
  destruct (config_first song1 args1 h1 d1 _ Hc0 Ha1)
    as (_ & F2 & _ & F4 & _).
  destruct (run_after_config mid _ F4) as (_ & _ & M3).
  set (s2 := run _ mid) in *.
  destruct (handle_scroll_reset song fast s2) as [R1 R2].
  cbn [Session.step osc_scroll_handler]. split; congruence.
Qed.

End Handshake.

Section HandshakeExamples.

Local Abbreviation step := (step Examples.no_int).
Local Abbreviation run := (run Examples.no_int).

Lemma first_config_sets_offset_later_configs_keep_it_witness :
  let s2 :=
    run (step (run (init 1) [EvPyonline; EvConfig (Examples.empty_song 9 5)
                                          [OInt 0; OInt 3]])
           (EvConfig (Examples.empty_song 9 5) [OInt 1; OInt 1; OInt 0]))
      [EvScroll (Examples.empty_song 9 5) [OStr "down"]] in
  let s3 := step s2 (EvConfig (Examples.empty_song 9 5)
                       [OInt 1; OInt 6; OInt 1]) in
  h_offset s3 = h_offset s2 /\ initial_h_offset s3 = 1 /\
  v_offset s3 = v_offset s2 /\ debug_mode s3 = true.
Proof.
  pose proof (first_config_sets_offset_later_configs_keep_it
    Examples.no_int 1
    [EvPyonline; EvConfig (Examples.empty_song 9 5) [OInt 0; OInt 3]]
    [EvScroll (Examples.empty_song 9 5) [OStr "down"]]
    (Examples.empty_song 9 5) (Examples.empty_song 9 5)
    [OInt 1; OInt 1; OInt 0] [OInt 1; OInt 6; OInt 1] 1 6 false true) as H.
  cbv zeta in H.
  destruct H as (_ & (H1 & _ & H3 & H4) & _ & (H5 & _) & _).
  - repeat constructor.
  - reflexivity.
  - reflexivity.
  - cbv zeta. auto.
Defined.

Lemma reset_restores_first_config_offset_witness :
  let s2 :=
    run (step (run (init 0) [EvAnnounce])
           (EvConfig (Examples.empty_song 20 9) [OInt 0; OInt 8]))
      [EvScroll (Examples.empty_song 20 9) [OStr "right-fast"];
       EvScroll (Examples.empty_song 20 9) [OStr "down"];
       EvScroll (Examples.empty_song 20 9) [OStr "left"]] in
  let s3 := step s2 (EvScroll (Examples.empty_song 20 9)
                       [OStr (scroll_wire (Reset, false))]) in
  h_offset s2 = 11 /\ h_offset s3 = 8 /\ v_offset s3 = v_offset s2.
Proof.
  cbv zeta. split; [reflexivity |].
  apply (reset_restores_first_config_offset Examples.no_int 0 [EvAnnounce]
           [EvScroll (Examples.empty_song 20 9) [OStr "right-fast"];
            EvScroll (Examples.empty_song 20 9) [OStr "down"];
            EvScroll (Examples.empty_song 20 9) [OStr "left"]]
           (Examples.empty_song 20 9) (Examples.empty_song 20 9)
           [OInt 0; OInt 8] 8 false false).
  - repeat constructor.
  - reflexivity.
Defined.

End HandshakeExamples.

End SessionProofs.

(** ** Properties of the device aggregator *)

Module HardwareProofs.
Import Hardware.

(** *** The helpers on small inputs *)

Example split_pipe2_three :
  split_pipe2 "a|b|c|d" = ["a"; "b"; "c|d"]%string.
Proof. reflexivity. Qed.

Example split_pipe2_short :
  split_pipe2 "ab" = ["ab"%string] /\ split_pipe2 "a|b" = ["a"; "b"]%string.
Proof. split; reflexivity. Qed.

Example color_red : ableton_color_to_rgb 16711680 = (255, 0, 0).
Proof. reflexivity. Qed.

Example parse_cell_lead :
  parse_cell Examples.int_of_str Examples.float_of_str "Lead|255|9"
  = Some ("Lead"%string, 255, Float.of_Z 9).
Proof. reflexivity. Qed.

Example parse_cell_bar_in_name :
  parse_cell Examples.int_of_str Examples.float_of_str "A|B|255|9" = None.
Proof. reflexivity. Qed.

Example key_10_triggers_column_2_row_1 :
  osc_out (on_key_change 10 0 Examples.one_deck)
  = [(9001, "/trigger_clip"%string, [OInt 2; OInt 1])].
Proof. by vm_compute. Qed.

Example key_30_scrolls_up :
  osc_out (on_key_change 30 0 Examples.one_deck)
  = [(9001, "/scroll"%string, [OStr "up"])].
Proof. by vm_compute. Qed.

(** *** Reading back what the handlers wrote *)

Lemma state_of_put (o : Z) (st : cs_state) (w : World) :
  state_of o (put_state o st w) = st.
Proof. unfold state_of, put_state. simpl. by rewrite lookup_insert_eq. Qed.

Lemma state_of_init (o : Z) (w : World) :
  state_of o (init_cs_state o w) = state_of o w.
Proof.
  unfold state_of, init_cs_state.
  destruct (deck_states w !! o) eqn:E; [by rewrite E |].
  simpl. by rewrite lookup_insert_eq.
Qed.

Lemma state_of_update_key_image (o : Z) d k l c p b sk f m ma (w : World) :
  state_of o (update_key_image d k l c p b sk f m ma w) = state_of o w.
Proof. unfold update_key_image. by destruct (_ || _). Qed.

Lemma drawn_app (j : Z) (new : list (string * image)) (w : World) :
  drawn j (set_images (images w ++ new) w)
  = drawn j w ++ List.filter (fun e : string * image => img_key e.2 =? j) new.
Proof. unfold drawn. simpl. apply List.filter_app. Qed.

Lemma drawn_update_key_image (j : Z) d k l c p b sk f m ma (w : World) :
  drawn j (update_key_image d k l c p b sk f m ma w)
  = drawn j w ++
    if (0 <=? k) && (k <? key_count d) && (k =? j)
    then [(serial_number d, mkImage k l c p b sk f m ma)] else [].
Proof.
  unfold update_key_image.
  destruct (k <? 0) eqn:E1; [| destruct (key_count d <=? k) eqn:E2];
    cbn [orb].
  - replace (0 <=? k) with false by (symmetry; apply Z.leb_gt; lia).
    by rewrite app_nil_r.
  - replace (k <? key_count d) with false by (symmetry; apply Z.ltb_ge; lia).
    rewrite andb_false_r. by rewrite app_nil_r.
  - replace (0 <=? k) with true by (symmetry; apply Z.leb_le; lia).
    replace (k <? key_count d) with true by (symmetry; apply Z.ltb_lt; lia).
    rewrite drawn_app. simpl. by destruct (k =? j).
Qed.

(** The drawing of a changed cell draws one image, on that key, when the
    unit has the key, and nothing otherwise. *)
Lemma draw_cell_drawn (j : Z) (d : Deck) (i : Z) (t : key_state)
  (st : cs_state) (mode : string) (menu : bool) (w : World) :
  0 <= i ->
  exists img,
    img_key img = i /\ img_label img = t.1.1 /\ img_flash img = false /\
    drawn j (draw_cell d i t st mode menu w)
    = drawn j w ++
      if (i <? key_count d) && (i =? j) then [(serial_number d, img)] else [].
Proof.
  intros Hi. destruct t as [[name color] prog]. unfold draw_cell.
  assert (G : (0 <=? i) = true) by (apply Z.leb_le; lia).
  destruct (SFleb (Float.of_Z 0) prog);
    [| destruct (SFeqb prog (Float.of_Z (-1)));
       [| destruct (SFeqb prog (Float.of_Z (-3)))]];
    rewrite drawn_update_key_image, G; cbn [andb];
    eexists; (split; [| split; [| split]]);
    [ | | | reflexivity | | | | reflexivity | | | | reflexivity
      | | | | reflexivity ]; reflexivity.
Qed.

Lemma state_of_draw_cell (o : Z) (d : Deck) (i : Z) (t : key_state)
  (st : cs_state) (mode : string) (menu : bool) (w : World) :
  state_of o (draw_cell d i t st mode menu w) = state_of o w.
Proof.
  destruct t as [[name color] prog]. unfold draw_cell.
  destruct (SFleb (Float.of_Z 0) prog);
    [| destruct (SFeqb prog (Float.of_Z (-1)));
       [| destruct (SFeqb prog (Float.of_Z (-3)))]];
    apply state_of_update_key_image.
Qed.

(** *** The snapshot loop of [osc_clip_info_handler] *)

Section ClipInfoLoop.

Variable int_of_str : string -> option Z.
Variable float_of_str : string -> option spec_float.

Local Abbreviation parse_cell := (parse_cell int_of_str float_of_str).
Local Abbreviation clip_info_cell :=
  (clip_info_cell int_of_str float_of_str).
Local Abbreviation clip_info_loop :=
  (clip_info_loop int_of_str float_of_str).

Variables (deck : Deck) (order : Z) (pressed : gset Z) (flash : gmap Z Q).
Variables (now : Q) (mode : string) (menu : bool).

(** The step for cell [i] leaves every other key alone. *)
Lemma clip_info_cell_other (i j : Z) (info : osc_arg) (w : World) :
  i <> j ->
  let w' :=
    (clip_info_cell deck order pressed flash now mode menu i info w).1 in
  cache order j w' = cache order j w /\ drawn j w' = drawn j w.
Proof.
  intros Hij. unfold Hardware.clip_info_cell, cache.
  destruct (i <? 32); [| by split].
  destruct info as [z | q | info]; [by split | by split |].
  destruct (is_flashing pressed flash now i).
  - destruct (parse_cell info) as [t |]; [| by split].
    cbn [fst]. rewrite state_of_put. cbn [key_states set_key_states].
    by rewrite lookup_insert_ne.
  - destruct (parse_cell info) as [t |]; [| by split].
    destruct (negb _); [| by split].
    cbn [fst]. rewrite state_of_draw_cell, state_of_put.
    cbn [key_states set_key_states]. split; [by rewrite lookup_insert_ne |].
    unfold draw_cell. destruct t as [[name color] prog].
    destruct (SFleb (Float.of_Z 0) prog);
      [| destruct (SFeqb prog (Float.of_Z (-1)));
       [| destruct (SFeqb prog (Float.of_Z (-3)))]];
      rewrite drawn_update_key_image;
      replace (i =? j) with false by (symmetry; apply Z.eqb_neq; exact Hij);
      rewrite andb_false_r; by rewrite app_nil_r.
Qed.

(** The step for a well-formed cell. *)
Lemma clip_info_cell_hit (i : Z) (info : string) (t : key_state) (w : World) :
  0 <= i < 32 ->
  parse_cell info = Some t ->
  let r := clip_info_cell deck order pressed flash now mode menu i
             (OStr info) w in
  r.2 = Returned /\
  if is_flashing pressed flash now i then
    cache order i r.1 = Some t /\ drawn i r.1 = drawn i w
  else if cached_is (cache order i w) t then
    cache order i r.1 = cache order i w /\ drawn i r.1 = drawn i w
  else
    cache order i r.1 = Some t /\
    exists img,
      img_key img = i /\ img_label img = t.1.1 /\ img_flash img = false /\
      drawn i r.1
      = drawn i w ++
        if i <? key_count deck then [(serial_number deck, img)] else [].
Proof.
  intros Hi Hp. unfold Hardware.clip_info_cell, cache.
  replace (i <? 32) with true by (symmetry; apply Z.ltb_lt; lia).
  rewrite Hp. destruct (is_flashing pressed flash now i).
  - cbn [fst snd]. rewrite state_of_put.
    cbn [key_states set_key_states]. by rewrite lookup_insert_eq.
  - destruct (cached_is (key_states (state_of order w) !! i) t);
      cbn [negb fst snd]; [done |].
    rewrite state_of_draw_cell, state_of_put.
    cbn [key_states set_key_states]. rewrite lookup_insert_eq.
    split; [done |]. split; [done |].
    edestruct (draw_cell_drawn i deck i t) as (img & H1 & H2 & H3 & H4);
      [lia |].
    exists img. rewrite H4, Z.eqb_refl, andb_true_r. done.
Qed.

Lemma clip_info_cell_str (i : Z) (info : string) (w : World) :
  (clip_info_cell deck order pressed flash now mode menu i (OStr info) w).2
  = Returned.
Proof.
  unfold Hardware.clip_info_cell. destruct (i <? 32); [| done].
  destruct (is_flashing _ _ _ _), (parse_cell info); try done.
  by destruct (negb _).
Qed.

(** The loop, started beyond key [j], leaves key [j] alone. *)
Lemma clip_info_loop_beyond (j : Z) (cells : list osc_arg) (i : Z)
  (w : World) :
  j < i ->
  let w' := (clip_info_loop deck order pressed flash now mode menu i cells
               w).1 in
  cache order j w' = cache order j w /\ drawn j w' = drawn j w.
Proof.
  revert i w. induction cells as [| info cells IH]; intros i w Hji;
    [by split |].
  cbn [Hardware.clip_info_loop].
  destruct (clip_info_cell_other i j info w) as [H1 H2]; [lia |].
  destruct (clip_info_cell deck order pressed flash now mode menu i info w)
    as [w1 [|]]; cbn [fst] in *.
  - destruct (IH (i + 1) w1) as [I1 I2]; [lia |]. cbv zeta in I1, I2.
    split; congruence.
  - by split.
Qed.

(** The loop at the cell of key [j]. *)
Lemma clip_info_loop_at (j : Z) (info : string) (t : key_state)
  (cells : list osc_arg) (i : Z) (w : World) :
  0 <= i <= j -> j < 32 ->
  Forall (fun c => exists s, c = OStr s) cells ->
  cells !! Z.to_nat (j - i) = Some (OStr info) ->
  parse_cell info = Some t ->
  let r := clip_info_loop deck order pressed flash now mode menu i cells w in
  r.2 = Returned /\
  if is_flashing pressed flash now j then
    cache order j r.1 = Some t /\ drawn j r.1 = drawn j w
  else if cached_is (cache order j w) t then
    cache order j r.1 = cache order j w /\ drawn j r.1 = drawn j w
  else
    cache order j r.1 = Some t /\
    exists img,
      img_key img = j /\ img_label img = t.1.1 /\ img_flash img = false /\
      drawn j r.1
      = drawn j w ++
        if j <? key_count deck then [(serial_number deck, img)] else [].
Proof.
  revert i w. induction cells as [| c cells IH]; intros i w Hi Hj Hall Hl Hp;
    [done |].
  inversion Hall as [| ? ? [s ->] Hall']; subst.
  cbn [Hardware.clip_info_loop].
  assert (Hret : forall w0, (clip_info_loop deck order pressed flash now mode
                               menu (i + 1) cells w0).2 = Returned).
  { clear -Hall'. generalize (i + 1). induction cells as [| c cells IH];
      intros k w0; [done |].
    inversion Hall' as [| ? ? [s ->] Hall'']; subst.
    cbn [Hardware.clip_info_loop].
    pose proof (clip_info_cell_str k s w0) as Hs.
    destruct (clip_info_cell deck order pressed flash now mode menu k
                (OStr s) w0) as [w1 oc]. cbn [snd] in Hs. subst oc.
    by apply IH. }
  destruct (decide (i = j)) as [-> | Hne].
  - replace (j - j) with 0 in Hl by lia. cbn in Hl. injection Hl as ->.
    pose proof (clip_info_cell_hit j info t w ltac:(lia) Hp) as Hhit.
    cbv zeta in Hhit.
    destruct (clip_info_cell deck order pressed flash now mode menu j
                (OStr info) w) as [w1 oc]. cbn [fst snd] in Hhit.
    destruct Hhit as [-> Hhit].
    destruct (clip_info_loop_beyond j cells (j + 1) w1) as [B1 B2]; [lia |].
    cbv zeta in B1, B2. split; [apply Hret |].
    rewrite B1, B2. exact Hhit.
  - pose proof (clip_info_cell_str i s w) as Hs.
    destruct (clip_info_cell_other i j (OStr s) w Hne) as [O1 O2].
    destruct (clip_info_cell deck order pressed flash now mode menu i
                (OStr s) w) as [w1 oc]. cbn [fst snd] in *. subst oc.
    replace (Z.to_nat (j - i)) with (S (Z.to_nat (j - (i + 1)))) in Hl
      by lia. cbn in Hl.
    pose proof (IH (i + 1) w1 ltac:(lia) Hj Hall' Hl Hp) as Hih.
    cbv zeta in Hih. rewrite O1, O2 in Hih. exact Hih.
Qed.

End ClipInfoLoop.

Lemma Qltb_lt (a b : Q) : Py.Qltb a b = true <-> (a < b)%Q.
Proof.
  unfold Py.Qltb. rewrite negb_true_iff. split.
  - intros H. apply Qnot_le_lt. intros Hle.
    apply Qle_bool_iff in Hle. congruence.
  - intros H. destruct (Qle_bool b a) eqn:E; [| done].
    apply Qle_bool_iff in E. by apply Qlt_not_le in H.
Qed.

Lemma is_flashing_iff (st : cs_state) (t : Q) (i : Z) :
  is_flashing (pressed_keys st) (flash_until st) t i = true
  <-> held_or_flashing st t i.
Proof.
  unfold is_flashing, held_or_flashing.
  rewrite orb_true_iff, bool_decide_eq_true.
  split; (intros [H | H]; [by left | right]).
  - destruct (flash_until st !! i) as [u |]; [| done].
    exists u. split; [done |]. by apply Qltb_lt.
  - destruct H as (u & -> & Hu). by apply Qltb_lt.
Qed.

(** The tuple comparison of the handler decides [same_entry]. *)
Lemma cached_is_spec (cached : option key_state) (new : key_state) :
  cached_is cached new = true <-> same_entry cached new.
Proof.
  unfold cached_is, same_entry, key_state_eqb, Float.same_number, SFeqb.
  destruct cached as [old |].
  - rewrite !andb_true_iff, String.eqb_eq, Z.eqb_eq. split.
    + intros [[H1 H2] H3]. exists old. repeat split; try done.
      by destruct (SFcompare old.2 new.2) as [[] |].
    + intros (old' & [= <-] & H1 & H2 & H3). rewrite H3. done.
  - split; [discriminate |]. by intros (old & H & _).
Qed.

Section ClipInfo.

Variable int_of_str : string -> option Z.
Variable float_of_str : string -> option spec_float.

Local Abbreviation parse_cell := (parse_cell int_of_str float_of_str).

(** C8: a [/clip_info] snapshot for a configured window whose cell for
    key [i] of 0..31 is well formed: when the key is held or its flash
    time has not elapsed, the cache entry of the key becomes the new
    triple and nothing is drawn on the key; otherwise nothing is drawn
    and the cache stays when the cache holds an entry equal to the new
    triple, and when it holds none or one that differs the cache takes
    the new triple and one image with the new label is drawn on the key
    (on a unit that has the key; a unit with fewer keys draws nothing for
    it). *)
Theorem clip_info_updates_cache_and_defers_drawing
  (now : Q) (order : Z) (deck : Deck) (a0 : osc_arg) (cells : list osc_arg)
  (w : World) (i : Z) (info : string) (t : key_state) :
  Osc.py_int int_of_str a0 = Some order ->
  get_deck_for_cs order w = Some deck ->
  0 <= i < 32 ->
  Forall (fun c => exists s, c = OStr s) cells ->
  cells !! Z.to_nat i = Some (OStr info) ->
  parse_cell info = Some t ->
  let st := state_of order w in
  let r := osc_clip_info_handler int_of_str float_of_str now (a0 :: cells) w in
  r.2 = Returned /\
  (held_or_flashing st now i ->
   cache order i r.1 = Some t /\ drawn i r.1 = drawn i w) /\
  (~ held_or_flashing st now i ->
   (same_entry (cache order i w) t ->
    cache order i r.1 = cache order i w /\ drawn i r.1 = drawn i w) /\
   (~ same_entry (cache order i w) t ->
    cache order i r.1 = Some t /\
    exists img,
      img_key img = i /\ img_label img = t.1.1 /\ img_flash img = false /\
      drawn i r.1
      = drawn i w ++
        if i <? key_count deck then [(serial_number deck, img)] else [])).
Proof.
  intros Ha Hd Hi Hall Hl Hp st r. subst r.
  unfold osc_clip_info_handler.
  destruct cells as [| c cells']; [done |].
  rewrite Ha. unfold get_cs_state.
  replace (get_deck_for_cs order w) with (Some deck).
  set (st1 := state_of order (init_cs_state order w)).
  assert (Est : st1 = st) by apply state_of_init.
  set (st2 := if ableton_offline (set_last_ablonline now st1)
              then set_waiting_cleared true
                     (set_ableton_offline false (set_last_ablonline now st1))
              else set_last_ablonline now st1).
  assert (E2 : pressed_keys st2 = pressed_keys st /\
               flash_until st2 = flash_until st /\
               key_states st2 = key_states st).
  { subst st2. rewrite <- Est.
    destruct (ableton_offline (set_last_ablonline now st1)); done. }
  destruct E2 as (Ep & Ef & Ek).
  set (w2 := put_state order st2 (init_cs_state order w)).
  assert (Ec : cache order i w2 = cache order i w).
  { unfold cache. subst w2. rewrite state_of_put. by rewrite Ek. }
  assert (Ed : drawn i w2 = drawn i w).
  { subst w2. unfold drawn, put_state, init_cs_state.
    by destruct (deck_states w !! order). }
  rewrite Ep, Ef.
  pose proof (clip_info_loop_at int_of_str float_of_str deck order
                (pressed_keys st)
                (flash_until st) now (scroll_mode w2) (menu_active st2)
                i info t (c :: cells') 0 w2 ltac:(lia) ltac:(lia) Hall
                ltac:(by replace (i - 0) with i by lia) Hp) as H.
  cbv zeta in H. destruct H as [Hret H].
  split; [exact Hret |].
  rewrite Ec, Ed in H.
  destruct (is_flashing (pressed_keys st) (flash_until st) now i) eqn:Efl.
  - split; [intros _; exact H |].
    intros Hn. exfalso. apply Hn. by apply is_flashing_iff.
  - split.
    + intros Hh. apply is_flashing_iff in Hh. congruence.
    + intros _. destruct (cached_is (cache order i w) t) eqn:Ec'; split.
      * intros _. exact H.
      * intros Hn. exfalso. by apply Hn, cached_is_spec.
      * intros Hs. apply cached_is_spec in Hs. congruence.
      * intros _. exact H.
Qed.

End ClipInfo.

Lemma clip_info_updates_cache_and_defers_drawing_witness :
  let r :=
    osc_clip_info_handler Examples.int_of_str Examples.float_of_str (11 # 10)
      (OInt 0 :: Examples.four_cells) Examples.key3_down in
  let r' :=
    osc_clip_info_handler Examples.int_of_str Examples.float_of_str 2
      (OInt 0 :: Examples.four_cells) Examples.heard_at_1 in
  (cache 0 3 r.1 = Some ("Lead"%string, 255, Float.of_Z 9) /\
   drawn 3 r.1 = drawn 3 Examples.key3_down) /\
  (cache 0 2 r.1 = Some ("A"%string, 255, Float.of_Z (-2)) /\
   exists img,
     img_label img = "A"%string /\
     drawn 2 r.1 = drawn 2 Examples.key3_down ++ [("XL"%string, img)]) /\
  (cache 0 2 r'.1 = cache 0 2 Examples.heard_at_1 /\
   drawn 2 r'.1 = drawn 2 Examples.heard_at_1).
Proof.
  cbv zeta. split; [| split].
  - refine (proj1 (proj2
      (clip_info_updates_cache_and_defers_drawing
         Examples.int_of_str Examples.float_of_str (11 # 10) 0 Examples.xl
         (OInt 0) Examples.four_cells Examples.key3_down 3 "Lead|255|9"
         ("Lead"%string, 255, Float.of_Z 9) eq_refl _ _ _ eq_refl eq_refl))
      _).
    + by vm_compute.
    + lia.
    + repeat constructor; eexists; reflexivity.
    + left. apply (bool_decide_unpack _). by vm_compute.
  - destruct (proj2 (proj2
      (clip_info_updates_cache_and_defers_drawing
         Examples.int_of_str Examples.float_of_str (11 # 10) 0 Examples.xl
         (OInt 0) Examples.four_cells Examples.key3_down 2 "A|255|-2"
         ("A"%string, 255, Float.of_Z (-2)) eq_refl
         ltac:(by vm_compute) ltac:(lia)
         ltac:(repeat constructor; eexists; reflexivity) eq_refl eq_refl)))
      as [_ Hnew].
    + intros [Hheld | (u & Hu & _)]; [| by vm_compute in Hu].
      apply (bool_decide_pack _) in Hheld. by vm_compute in Hheld.
    + destruct Hnew as (Hcache & img & _ & Hlabel & _ & Hdrawn).
      * intros (old & Hold & _). by vm_compute in Hold.
      * split; [exact Hcache |]. exists img. split; [exact Hlabel |].
        exact Hdrawn.
  - destruct (proj2 (proj2
      (clip_info_updates_cache_and_defers_drawing
         Examples.int_of_str Examples.float_of_str 2 0 Examples.xl
         (OInt 0) Examples.four_cells Examples.heard_at_1 2 "A|255|-2"
         ("A"%string, 255, Float.of_Z (-2)) eq_refl
         ltac:(by vm_compute) ltac:(lia)
         ltac:(repeat constructor; eexists; reflexivity) eq_refl eq_refl)))
      as [Hsame _].
    + intros [Hheld | (u & Hu & _)]; [| by vm_compute in Hu].
      apply (bool_decide_pack _) in Hheld. by vm_compute in Hheld.
    + apply Hsame. exists ("A"%string, 255, Float.of_Z (-2)).
      repeat split; by vm_compute.
Defined.

(** *** Heartbeat and offline flag *)

Lemma state_of_put_ne (o o' : Z) (st : cs_state) (w : World) :
  o <> o' -> state_of o (put_state o' st w) = state_of o w.
Proof.
  intros H. unfold state_of, put_state. simpl.
  by rewrite lookup_insert_ne.
Qed.

Lemma state_of_init_any (o o' : Z) (w : World) :
  state_of o (init_cs_state o' w) = state_of o w.
Proof.
  destruct (decide (o = o')) as [-> | Hne]; [apply state_of_init |].
  unfold state_of, init_cs_state.
  destruct (deck_states w !! o'); [done |]. simpl.
  by rewrite lookup_insert_ne.
Qed.

Lemma deck_of_init (o o' : Z) (w : World) :
  get_deck_for_cs o (init_cs_state o' w) = get_deck_for_cs o w.
Proof. unfold init_cs_state. by destruct (deck_states w !! o'). Qed.

Lemma deck_of_update_key_image (o : Z) d k l c p b sk f m ma (w : World) :
  get_deck_for_cs o (update_key_image d k l c p b sk f m ma w)
  = get_deck_for_cs o w.
Proof. unfold update_key_image. by destruct (_ || _). Qed.

Lemma clear_keys_frame (o : Z) (d : Deck) (w : World) :
  state_of o (clear_keys d w) = state_of o w /\
  get_deck_for_cs o (clear_keys d w) = get_deck_for_cs o w.
Proof.
  unfold clear_keys. generalize (Py.range (Z.to_nat (key_count d))).
  intros l. revert w. induction l as [| k l IH]; intros w; [done |].
  cbn [List.fold_left]. destruct (IH
    (update_key_image d k EmptyString (0, 0, 0) None None None false None
       false w))
    as [-> ->].
  by rewrite state_of_update_key_image, deck_of_update_key_image.
Qed.

Section Liveness.

Variable int_of_str : string -> option Z.
Variable float_of_str : string -> option spec_float.

(** The snapshot loop writes cache entries only. *)
Lemma clip_info_loop_liveness (deck : Deck) (order : Z) (pressed : gset Z)
  (flash : gmap Z Q) (now : Q) (mode : string) (menu : bool)
  (cells : list osc_arg) (i : Z) (w : World) :
  let w' := (clip_info_loop int_of_str float_of_str deck order pressed flash
               now mode menu i cells w).1 in
  last_ablonline (state_of order w') = last_ablonline (state_of order w) /\
  ableton_offline (state_of order w') = ableton_offline (state_of order w).
Proof.
  revert i w. induction cells as [| info cells IH]; intros i w; [done |].
  cbn [clip_info_loop].
  assert (Hcell :
    let w1 := (clip_info_cell int_of_str float_of_str deck order pressed
                 flash now mode menu i info w).1 in
    last_ablonline (state_of order w1) = last_ablonline (state_of order w) /\
    ableton_offline (state_of order w1) = ableton_offline (state_of order w)).
  { unfold clip_info_cell. destruct (i <? 32); [| done].
    destruct info as [z | q | info]; [done | done |].
    destruct (is_flashing pressed flash now i),
      (parse_cell int_of_str float_of_str info) as [t |]; try done.
    - cbn [fst]. by rewrite state_of_put.
    - destruct (negb _); [| done]. cbn [fst].
      by rewrite state_of_draw_cell, state_of_put. }
  cbv zeta in Hcell.
  destruct (clip_info_cell int_of_str float_of_str deck order pressed flash
              now mode menu i info w) as [w1 [|]]; cbn [fst] in *; [| done].
  destruct (IH (i + 1) w1) as [I1 I2]. cbv zeta in I1, I2.
  destruct Hcell as [H1 H2]. split; congruence.
Qed.

Lemma clip_info_heartbeat (now : Q) (a0 : osc_arg) (cells : list osc_arg)
  (order : Z) (deck : Deck) (w : World) :
  Osc.py_int int_of_str a0 = Some order ->
  get_deck_for_cs order w = Some deck ->
  cells <> [] ->
  let w' := (osc_clip_info_handler int_of_str float_of_str now (a0 :: cells)
               w).1 in
  last_ablonline (state_of order w') = now /\
  ableton_offline (state_of order w') = false.
Proof.
  intros Ha Hd Hne. unfold osc_clip_info_handler.
  destruct cells as [| c cells]; [done |].
  rewrite Ha, Hd. unfold get_cs_state.
  match goal with
  | |- context [clip_info_loop _ _ ?d ?o ?p ?f ?t ?m ?me ?i ?l ?w0] =>
      destruct (clip_info_loop_liveness d o p f t m me l i w0) as [-> ->]
  end.
  rewrite state_of_put.
  destruct (ableton_offline (set_last_ablonline now _)) eqn:E;
    [done | by rewrite E].
Qed.

Lemma ablonline_heartbeat (now : Q) (args : list osc_arg) (order : Z)
  (w : World) :
  order_or_zero int_of_str args = Some order ->
  let w' := (osc_ablonline_handler int_of_str now args w).1 in
  last_ablonline (state_of order w') = now /\
  ableton_offline (state_of order w') = false.
Proof.
  intros Ha. unfold osc_ablonline_handler. rewrite Ha. unfold get_cs_state.
  destruct (get_deck_for_cs order (init_cs_state order w)) as [d |].
  - destruct (negb _); cbn [fst]; rewrite state_of_put;
      (destruct (ableton_offline (set_last_ablonline now _)) eqn:E;
       [done | by rewrite ?E]).
  - cbn [fst]. rewrite state_of_put.
    destruct (ableton_offline (set_last_ablonline now _)) eqn:E;
      [done | by rewrite E].
Qed.

End Liveness.

(** The condition under which the monitor marks a window offline. *)
Lemma monitor_order_self (t : Q) (o : Z) (d : Deck) (w : World) :
  get_deck_for_cs o w = Some d ->
  let st := state_of o w in
  let st' := state_of o (monitor_order t w o) in
  last_ablonline st' = last_ablonline st /\
  ableton_offline st'
  = ableton_offline st
    || (Py.Qltb 0 (last_ablonline st)
        && Py.Qltb OFFLINE_TIMEOUT (t - last_ablonline st)%Q).
Proof.
  intros Hd. unfold monitor_order, get_cs_state.
  rewrite deck_of_init, Hd, state_of_init.
  destruct (Py.Qltb 0 _ && Py.Qltb OFFLINE_TIMEOUT _).
  - destruct (ableton_offline (state_of o w)) eqn:E; cbn [negb orb].
    + by rewrite state_of_init, E.
    + rewrite state_of_update_key_image.
      destruct (clear_keys_frame o d
        (put_state o (set_waiting_cleared false
                        (set_ableton_offline true (state_of o w)))
           (init_cs_state o w))) as [-> _].
      by rewrite state_of_put.
  - rewrite state_of_init. by rewrite orb_false_r.
Qed.

Lemma monitor_order_other (t : Q) (o o' : Z) (w : World) :
  o <> o' ->
  state_of o (monitor_order t w o') = state_of o w /\
  get_deck_for_cs o (monitor_order t w o') = get_deck_for_cs o w.
Proof.
  intros Hne. unfold monitor_order, get_cs_state.
  destruct (get_deck_for_cs o' (init_cs_state o' w)) as [d |];
    [| by rewrite state_of_init_any, deck_of_init].
  destruct (_ && _); [| by rewrite state_of_init_any, deck_of_init].
  destruct (negb _); [| by rewrite state_of_init_any, deck_of_init].
  rewrite state_of_update_key_image, deck_of_update_key_image.
  match goal with
  | |- context [clear_keys d ?x] =>
      destruct (clear_keys_frame o d x) as [-> ->]
  end.
  rewrite state_of_put_ne by done.
  by rewrite state_of_init_any, <- (deck_of_init o o' w).
Qed.

Lemma monitor_fold (t : Q) (o : Z) (d : Deck) (l : list Z) (w : World) :
  NoDup l -> o ∈ l ->
  get_deck_for_cs o w = Some d ->
  let st := state_of o w in
  let st' := state_of o (List.fold_left (monitor_order t) l w) in
  last_ablonline st' = last_ablonline st /\
  ableton_offline st'
  = ableton_offline st
    || (Py.Qltb 0 (last_ablonline st)
        && Py.Qltb OFFLINE_TIMEOUT (t - last_ablonline st)%Q).
Proof.
  assert (Hrest : forall l w, o ∉ l ->
    state_of o (List.fold_left (monitor_order t) l w) = state_of o w).
  { clear. intros l. induction l as [| a l IH]; intros w Hnin; [done |].
    cbn [List.fold_left]. rewrite IH by set_solver.
    apply monitor_order_other. set_solver. }
  revert w. induction l as [| a l IH]; intros w Hnd Hin Hd;
    [by apply elem_of_nil in Hin |].
  apply NoDup_cons in Hnd as [Hna Hnd]. cbn [List.fold_left].
  destruct (decide (a = o)) as [-> | Hne].
  - cbv zeta. rewrite Hrest by done. by apply (monitor_order_self t o d).
  - destruct (monitor_order_other t o a w) as [Hs Hdk]; [done |].
    assert (Hin' : o ∈ l)
      by (apply elem_of_cons in Hin as [-> | Hin]; [done | exact Hin]).
    cbv zeta. rewrite <- Hs. apply IH; [done | exact Hin' | congruence].
Qed.

(** What the two handlers that record the heartbeat, and the liveness
    check, do.  A fresh window record has no heartbeat and is offline;
    for a configured window every [/clip_info] message with at least one
    cell, and for any order every [/ablonline] message, sets the
    window's heartbeat to the receive time and clears its offline flag;
    after a liveness check at time [now] the heartbeat of a configured
    window is unchanged and its offline flag is true if and only if it
    was true before or a heartbeat is recorded and [now] minus the
    heartbeat exceeds the offline timeout. *)
Lemma heartbeat_writers_and_monitor
  (int_of_str : string -> option Z)
  (float_of_str : string -> option spec_float) :
  (last_ablonline new_state = 0%Q /\ ableton_offline new_state = true) /\
  (forall now a0 cells order deck w,
     Osc.py_int int_of_str a0 = Some order ->
     get_deck_for_cs order w = Some deck ->
     cells <> [] ->
     let w' := (dispatch int_of_str float_of_str now "/clip_info"
                  (a0 :: cells) w).1 in
     last_ablonline (state_of order w') = now /\
     ableton_offline (state_of order w') = false) /\
  (forall now args order w,
     order_or_zero int_of_str args = Some order ->
     let w' := (dispatch int_of_str float_of_str now "/ablonline" args w).1 in
     last_ablonline (state_of order w') = now /\
     ableton_offline (state_of order w') = false) /\
  (forall now order deck w,
     get_deck_for_cs order w = Some deck ->
     let st := state_of order w in
     let st' := state_of order (monitor_round now w) in
     last_ablonline st' = last_ablonline st /\
     (ableton_offline st' = true <->
      ableton_offline st = true \/
      (0 < last_ablonline st /\
       OFFLINE_TIMEOUT < now - last_ablonline st)%Q)).
Proof.
  split; [done |]. split; [| split].
  - intros now a0 cells order deck w Ha Hd Hne.
    by apply (clip_info_heartbeat int_of_str float_of_str now a0 cells order
                deck w).
  - intros now args order w Ha.
    by apply (ablonline_heartbeat int_of_str now args order w).
  - intros now order deck w Hd.
    destruct (monitor_fold now order deck (get_active_display_orders w) w)
      as [H1 H2]; [| | exact Hd | ].
    + apply NoDup_fst_map_to_list.
    + unfold get_active_display_orders. apply list_elem_of_fmap.
      exists (order, deck). split; [done |]. by apply elem_of_map_to_list.
    + cbv zeta in H1, H2. unfold monitor_round. cbv zeta.
      split; [exact H1 |]. rewrite H2, orb_true_iff, andb_true_iff.
      by rewrite !Qltb_lt.
Qed.

(** C3 (code bug): [/structural_mismatch] and [/track_stopped] do not
    record the heartbeat.  Window 0, bound to a unit, heard [/ablonline]
    at time 1, so that its heartbeat is 1 and it is online.  A
    [/structural_mismatch] received at time 3 leaves the heartbeat at 1,
    and the liveness check at time 3.1 marks the window offline although
    a message arrived 0.1 s before; a [/track_stopped] received at time 3
    does the same.  A [/clip_info] received at time 3 instead moves the
    heartbeat to 3, and the same check leaves the window online. *)
Theorem mismatch_and_stop_skip_the_heartbeat :
  let w := Examples.heard_ablonline_at_1 in
  let mismatch := Examples.mismatch_after_heartbeat in
  let stopped := Examples.stopped_after_heartbeat in
  let snapshot := Examples.snapshot_after_heartbeat in
  get_deck_for_cs 0 w = Some Examples.xl /\
  (last_ablonline (state_of 0 w) = 1%Q /\
   ableton_offline (state_of 0 w) = false) /\
  (last_ablonline (state_of 0 mismatch) = 1%Q /\
   ableton_offline (state_of 0 mismatch) = false /\
   ableton_offline (state_of 0 (monitor_round (31 # 10) mismatch)) = true) /\
  (last_ablonline (state_of 0 stopped) = 1%Q /\
   ableton_offline (state_of 0 stopped) = false /\
   ableton_offline (state_of 0 (monitor_round (31 # 10) stopped)) = true) /\
  (last_ablonline (state_of 0 snapshot) = 3%Q /\
   ableton_offline (state_of 0 (monitor_round (31 # 10) snapshot)) = false).
Proof.
  cbv zeta.
  split; [by vm_compute |].
  split; [split; by vm_compute |].
  split; [split; [| split]; by vm_compute |].
  split; [split; [| split]; by vm_compute |].
  split; by vm_compute.
Qed.

(** *** Key presses *)

(** A key without overlay role sends a clip trigger with its column and
    row. *)
Lemma on_key_change_plain (k o : Z) (w : World) :
  overlay_key (scroll_mode w) (menu_active (state_of o w)) k = false ->
  osc_out (on_key_change k o w)
  = osc_out w ++
    (9001 + o * 10, "/trigger_clip"%string, [OInt (k mod 8); OInt (k / 8)])
    :: (if debug_mode w
        then [(9001 + o * 10 + 1000, "/trigger_clip"%string,
               [OInt (k mod 8); OInt (k / 8)])]
        else []).
Proof.
  assert (Hinit : forall x,
    osc_out (send_osc_message o "/trigger_clip" x (init_cs_state o w))
    = osc_out (send_osc_message o "/trigger_clip" x w)).
  { intros x. unfold send_osc_message, init_cs_state.
    by destruct (deck_states w !! o). }
  unfold on_key_change, overlay_key, get_cs_state.
  rewrite state_of_init.
  destruct (String.eqb (scroll_mode w) SCROLL_VERTICAL).
  - destruct (k =? 30); [done |]. by destruct (k =? 31).
  - destruct (String.eqb (scroll_mode w) SCROLL_BOTH);
      [| destruct (String.eqb (scroll_mode w) SCROLL_BOTH_RESET)];
      cbn [orb]; [| | done];
      destruct (menu_active (state_of o w)); cbn [andb];
      destruct (k =? KEY_ARROW_UP), (k =? KEY_ARROW_DOWN),
        (k =? KEY_ARROW_LEFT), (k =? KEY_ARROW_RIGHT), (k =? KEY_BURGER),
        (k =? KEY_BRIGHTNESS); cbn [orb]; try done;
      intros _; apply Hinit.
Qed.

(** A key with an overlay role sends a scroll command or nothing. *)
Lemma on_key_change_overlay (k o : Z) (w : World) :
  overlay_key (scroll_mode w) (menu_active (state_of o w)) k = true ->
  exists l,
    osc_out (on_key_change k o w) = osc_out w ++ l /\
    Forall (fun m : Z * string * list osc_arg => m.1.2 = "/scroll"%string) l.
Proof.
  assert (Hsend : forall x w0,
    osc_out w0 = osc_out w -> debug_mode w0 = debug_mode w ->
    exists l,
      osc_out (send_osc_message o "/scroll" x w0) = osc_out w ++ l /\
      Forall (fun m : Z * string * list osc_arg => m.1.2 = "/scroll"%string)
        l).
  { intros x w0 Ho Hd. unfold send_osc_message. cbn [osc_out set_osc_out].
    rewrite Ho, Hd. eexists. split; [reflexivity |].
    destruct (debug_mode w); repeat constructor. }
  assert (Hi : osc_out (init_cs_state o w) = osc_out w /\
               debug_mode (init_cs_state o w) = debug_mode w)
    by (unfold init_cs_state; by destruct (deck_states w !! o)).
  destruct Hi as [Hi1 Hi2].
  assert (Hnil : exists l,
    osc_out (init_cs_state o w) = osc_out w ++ l /\
    Forall (fun m : Z * string * list osc_arg => m.1.2 = "/scroll"%string) l)
    by (exists []; rewrite app_nil_r; split; [exact Hi1 | constructor]).
  unfold on_key_change, overlay_key, get_cs_state.
  rewrite state_of_init.
  destruct (String.eqb (scroll_mode w) SCROLL_VERTICAL).
  - destruct (k =? 30); [intros _; by apply Hsend |].
    destruct (k =? 31); [intros _; by apply Hsend | done].
  - destruct (String.eqb (scroll_mode w) SCROLL_BOTH);
      [| destruct (String.eqb (scroll_mode w) SCROLL_BOTH_RESET)];
      cbn [orb]; [| | done];
      destruct (menu_active (state_of o w)); cbn [andb];
      destruct (k =? KEY_ARROW_UP), (k =? KEY_ARROW_DOWN),
        (k =? KEY_ARROW_LEFT), (k =? KEY_ARROW_RIGHT), (k =? KEY_BURGER),
        (k =? KEY_BRIGHTNESS); cbn [orb]; try done;
      intros _; (by apply Hsend) || exact Hnil.
Qed.

(** *** Timed restores *)

(** The restore scheduled on release of a key draws what the cache holds
    when it fires. *)
Lemma flash_restore_draws_current_cache (k : Z) (d : Deck) (o : Z)
  (w : World) (label : string) (color : Z) (prog : spec_float) :
  0 <= k < key_count d ->
  cache o k w = Some (label, color, prog) ->
  exists img,
    drawn k (run_timer (FlashRestore k d o) w)
    = drawn k w ++ [(serial_number d, img)] /\
    img_label img = label /\
    img_color img
    = if negb (color =? 0) then ableton_color_to_rgb color else (0, 0, 0).
Proof.
  intros Hk Hc. unfold cache in Hc.
  assert (G : (0 <=? k) && (k <? key_count d) && (k =? k) = true).
  { rewrite Z.eqb_refl, andb_true_r. apply andb_true_iff.
    rewrite Z.leb_le, Z.ltb_lt. lia. }
  unfold run_timer, restore_key_image, redraw_key. cbv zeta.
  cbn [key_states set_flash_until]. rewrite Hc.
  destruct (SFleb (Float.of_Z 0) prog);
    [| destruct (SFeqb prog (Float.of_Z (-1)));
       [| destruct (SFeqb prog (Float.of_Z (-3)))]];
    rewrite drawn_update_key_image, G; eexists; (split; [reflexivity |]);
    split; reflexivity.
Qed.

(** The restore scheduled by [/track_stopped] draws the values its lambda
    captured, whatever the cache holds when it fires. *)
Lemma stop_restore_draws_captured_values (k : Z) (lt : string) (c : rgb)
  (p : option spec_float) (d : Deck) (o : Z) (w : World) :
  0 <= k < key_count d ->
  exists img,
    drawn k (run_timer (StopRestore k lt c p d o) w)
    = drawn k w ++ [(serial_number d, img)] /\
    img_label img = lt /\ img_color img = c /\ img_progress img = p /\
    cache o k (run_timer (StopRestore k lt c p d o) w) = cache o k w.
Proof.
  intros Hk.
  assert (G : (0 <=? k) && (k <? key_count d) && (k =? k) = true).
  { rewrite Z.eqb_refl, andb_true_r. apply andb_true_iff.
    rewrite Z.leb_le, Z.ltb_lt. lia. }
  unfold run_timer, cache. cbv zeta.
  rewrite drawn_update_key_image, G, state_of_update_key_image, state_of_put.
  eexists. repeat split; reflexivity.
Qed.

(** C6 (code bug): the restore scheduled by [/track_stopped] draws the
    values captured when it was scheduled.  Key 2 of window 0 showed clip
    "A"; the track was stopped at time 1; a snapshot at time 2 renamed
    the clip to "B" in the cache; when the timer fires at time 5 the
    cache still holds "B" and the key is drawn with the label and color
    of "A". *)
Theorem stop_restore_draws_stale_values :
  let w := Examples.stopped_then_updated in
  let w' := fire_timer 5 0 w in
  timers w !! 0%nat
  = Some (5%Q,
          StopRestore 2 "A" (0, 0, 255) (Some (Float.of_Z (-2))) Examples.xl
            0) /\
  cache 0 2 w = Some ("B"%string, 65280, Float.of_Z (-3)) /\
  cache 0 2 w' = Some ("B"%string, 65280, Float.of_Z (-3)) /\
  exists img,
    last (drawn 2 w') = Some ("XL"%string, img) /\
    img_label img = "A"%string /\ img_color img = (0, 0, 255).
Proof.
  cbv zeta. split; [by vm_compute |]. split; [by vm_compute |].
  split; [by vm_compute |].
  eexists. split; [by vm_compute |]. split; reflexivity.
Qed.

(** *** Unconfigured orders *)

(** C9 (code bug): [/ablonline 7] arrives while only window 0 has a
    unit.  The handler returns, and it has created a state record for
    order 7 and written the heartbeat and the offline flag into it; with
    an argument that is no number the handler raises. *)
Theorem ablonline_creates_record_for_unconfigured_order :
  let w := Examples.one_deck in
  let r := osc_ablonline_handler Examples.int_of_str 7 [OInt 7] w in
  get_deck_for_cs 7 w = None /\
  deck_states w !! 7 = None /\
  r.2 = Returned /\
  deck_states r.1 !! 7
  = Some (set_ableton_offline false (set_last_ablonline 7 new_state)) /\
  (osc_ablonline_handler Examples.int_of_str 7 [OStr "seven"] w).2 = Raised.
Proof. cbv zeta. repeat split; by vm_compute. Qed.

End HardwareProofs.

(** ** Key presses and snapshot cells *)

Module ProtocolProofs.

(** C10: a press of key [k] of the 32 that has no overlay role sends
    [/trigger_clip] with track offset [k mod 8] and scene offset
    [k / 8]; the session resolves this to the absolute slot
    [(hOffset + k mod 8, vOffset + k / 8)] and fires or stops there; the
    snapshot puts the state of that same slot at cell [k] (code -4, and
    no action, when the slot is outside the session); and the key-to-cell
    mapping inverts the cell index [scene * 8 + track]. *)
Theorem key_press_addresses_its_snapshot_cell
  (k order : Z) (w : Hardware.World)
  (song song' : Session.Song) (s : Session.ClipDeck) :
  0 <= k < 32 ->
  Hardware.overlay_key (Hardware.scroll_mode w)
    (Hardware.menu_active (Hardware.state_of order w)) k = false ->
  Session.song_ok song ->
  0 <= Session.h_offset s -> 0 <= Session.v_offset s ->
  let h := Session.h_offset s in
  let v := Session.v_offset s in
  let msg := [OInt (k mod 8); OInt (k / 8)] in
  (exists dup,
     Hardware.osc_out (Hardware.on_key_change k order w)
     = Hardware.osc_out w
       ++ (9001 + order * 10, "/trigger_clip"%string, msg) :: dup) /\
  Session.trigger_target s (k mod 8) (k / 8) = (h + k mod 8, v + k / 8) /\
  (exists cells cell,
     Session.snapshot song h v = Some cells /\
     cells !! Z.to_nat k = Some cell /\
     (h + k mod 8 < Session.len_tracks song ->
      v + k / 8 < Session.len_scenes song ->
      exists track slot rest,
        Py.index (Session.tracks song) (h + k mod 8) = Some track /\
        Py.index (Session.clip_slots track) (v + k / 8) = Some slot /\
        Session.code cell = Session.slot_code_spec track slot /\
        Session.out (Session.osc_trigger_clip_handler song song' msg s)
        = Session.out s ++
          match slot with
          | Some _ => Session.Fire (h + k mod 8) (v + k / 8)
          | None => Session.StopAllClips (h + k mod 8)
          end :: rest) /\
     (Session.len_tracks song <= h + k mod 8 \/
      Session.len_scenes song <= v + k / 8 ->
      Session.code cell = -4 /\
      Session.osc_trigger_clip_handler song song' msg s = s)) /\
  (k / 8 * 8 + k mod 8 = k /\
   forall si ti, 0 <= si < 4 -> 0 <= ti < 8 ->
     (si * 8 + ti) mod 8 = ti /\ (si * 8 + ti) / 8 = si).
Proof.
  intros Hk Hplain Hok Hh Hv h v msg.
  assert (Hti : 0 <= k mod 8 < 8) by (apply Z.mod_pos_bound; lia).
  assert (Hsi : 0 <= k / 8 < 4)
    by (split; [apply Z.div_pos; lia | apply Z.div_lt_upper_bound; lia]).
  assert (Hidx : k / 8 * 8 + k mod 8 = k)
    by (pose proof (Z.div_mod k 8); lia).
  split; [| split; [reflexivity | split]].
  - eexists. apply HardwareProofs.on_key_change_plain. exact Hplain.
  - destruct (SessionProofs.snapshot_total song h v Hok Hh Hv)
      as [cells Hcells].
    destruct (SessionProofs.snapshot_lookup song h v cells (k / 8) (k mod 8)
                Hcells Hsi Hti) as (_ & m & cell & Hm & Hl & Hc).
    rewrite Hidx in Hl.
    destruct (SessionProofs.build_track_is_playing_total song h Hh)
      as (m' & Hm' & Hlook).
    assert (m' = m) by congruence. subst m'.
    exists cells, cell. split; [exact Hcells |]. split; [exact Hl |]. split.
    + intros Ht Hs.
      destruct (SessionProofs.cell_for_in_range song h v m (k / 8) (k mod 8))
        as (track & slot & cell' & Htr & Hsl & Hc' & Hcode);
        try assumption; try lia; [apply Hlook; exact Hti |].
      assert (cell' = cell) by congruence. subst cell'.
      destruct (SessionProofs.handle_trigger_clip_acts song song' (k mod 8)
                  (k / 8) s track slot) as [rest Hrest];
        try assumption; try (fold h v; lia).
      exists track, slot, rest. auto.
    + intros Hout.
      rewrite SessionProofs.cell_for_out_of_range in Hc by exact Hout.
      injection Hc as <-. split; [reflexivity |].
      apply SessionProofs.handle_trigger_clip_outside. exact Hout.
  - split; [exact Hidx |]. intros si ti Hs Ht. split.
    + rewrite Z.add_comm, Z.mod_add by lia. apply Z.mod_small. lia.
    + rewrite Z.add_comm, Z.div_add by lia. rewrite Z.div_small by lia. lia.
Qed.

Lemma key_press_addresses_its_snapshot_cell_witness :
  let s := Session.set_config_received true (Session.init 0) in
  Hardware.osc_out (Hardware.on_key_change 10 0 Examples.one_deck)
  = [(9001, "/trigger_clip"%string, [OInt 2; OInt 1])] /\
  Session.trigger_target s (10 mod 8) (10 / 8) = (2, 1).
Proof.
  cbv zeta.
  destruct (key_press_addresses_its_snapshot_cell 10 0 Examples.one_deck
              Examples.scenario_song Examples.scenario_song
              (Session.set_config_received true (Session.init 0))
              ltac:(lia) eq_refl SessionProofs.scenario_song_ok
              ltac:(simpl; lia) ltac:(simpl; lia))
    as ((dup & Hsend) & Htarget & _).
  split; [by vm_compute | exact Htarget].
Defined.

End ProtocolProofs.

(** ** Further properties of the session adapter *)

Module SessionExtras.
Import Session.

(** *** Structural validity *)

(** X1: [_check_structural_validity] answers whether the window starts
    inside the session, leaves the mismatch flag equal to the condition,
    changes nothing when the flag already agrees with the condition,
    sends exactly one [/structural_mismatch] message (mirrored in debug
    mode) when it does not, and a repeated call on the same session is
    silent. *)
Theorem structural_validity_is_edge_triggered (song : Song) (s : ClipDeck) :
  let unreachable := len_tracks song <=? h_offset s in
  let r := check_structural_validity song s in
  r.1 = negb unreachable /\
  structural_mismatch r.2 = unreachable /\
  (structural_mismatch s = unreachable -> r.2 = s) /\
  (structural_mismatch s <> unreachable ->
   r.2 = osc_send "/structural_mismatch"
           [OInt (display_order s); OInt (int_of_bool unreachable)]
           (set_structural_mismatch unreachable s)) /\
  check_structural_validity song r.2 = r.
Proof.
  cbv zeta. unfold check_structural_validity.
  destruct (len_tracks song <=? h_offset s) eqn:E;
    destruct (structural_mismatch s) eqn:F; cbn [fst snd negb];
    repeat split; try congruence; try reflexivity;
    cbn [h_offset send_message osc_send emit set_structural_mismatch
         structural_mismatch]; rewrite ?E, ?F; reflexivity.
Qed.

(** *** Scrolling *)

Lemma handle_scroll_cases (song : Song) (d : string) (s : ClipDeck) :
  let s' := handle_scroll song d s in
  s' = s \/
  ((h_offset s' <> h_offset s \/ v_offset s' <> v_offset s) /\
   out s' = out s ++ [RingSetOffsets (h_offset s') (v_offset s')] /\
   last_applied_h_offset s' = h_offset s' /\
   last_applied_v_offset s' = v_offset s' /\
   debug_mode s' = debug_mode s /\ debug_client s' = debug_client s).
Proof.
  unfold handle_scroll. destruct (scroll_step d) as [dir st].
  destruct s as [cr dm dc o h ih v lh lv sm port log].
  cbn [h_offset v_offset initial_h_offset].
  SessionProofs.scroll_cases;
    cbn [h_offset v_offset set_h_offset set_v_offset];
    match goal with
    | |- context [if negb (?a =? ?b) || negb (?c =? ?e) then _ else _] =>
        destruct (Z.eqb_spec a b) as [Hh | Hh];
        destruct (Z.eqb_spec c e) as [Hv | Hv]; cbn [negb orb]
    end;
    try (left; unfold set_h_offset, set_v_offset;
         cbn [config_received debug_mode debug_client display_order h_offset
              initial_h_offset v_offset last_applied_h_offset
              last_applied_v_offset structural_mismatch osc_send_port out];
         f_equal; assumption);
    right; cbn; repeat split; auto.
Qed.

(** X2: a scroll that leaves both offsets as they were changes nothing
    and calls nothing; a scroll that changes an offset makes exactly one
    [set_offsets] call with the new offsets and records them as applied. *)
Theorem scroll_moves_ring_only_on_change (song : Song) (d : string)
  (s : ClipDeck) :
  let s' := handle_scroll song d s in
  (h_offset s' = h_offset s /\ v_offset s' = v_offset s -> s' = s) /\
  (h_offset s' <> h_offset s \/ v_offset s' <> v_offset s ->
   out s' = out s ++ [RingSetOffsets (h_offset s') (v_offset s')] /\
   last_applied_h_offset s' = h_offset s' /\
   last_applied_v_offset s' = v_offset s').
Proof.
  cbv zeta. destruct (handle_scroll_cases song d s) as [E | (Hne & H)].
  - rewrite E. split; [reflexivity |]. intros [? | ?]; congruence.
  - split; [intros [? ?]; destruct Hne; congruence |].
    intros _. tauto.
Qed.

(** *** Waiting for Live *)

Lemma wait_loop_spec (probe : nat -> bool) (n c : nat) :
  match wait_loop probe n c with
  | Some k =>
      (c <= k < c + n)%nat /\ probe k = true /\
      forall j, (c <= j < k)%nat -> probe j = false
  | None => forall j, (c <= j < c + n)%nat -> probe j = false
  end.
Proof.
  revert c. induction n as [| n IH]; intros c; cbn [wait_loop].
  - intros j Hj. lia.
  - destruct (probe c) eqn:E.
    + repeat split; [lia | lia | exact E | intros j Hj; lia].
    + specialize (IH (S c)). destruct (wait_loop probe n (S c)) as [k |].
      * destruct IH as (Hk & Hp & Hj). repeat split; [lia | lia | exact Hp |].
        intros j Hlt. destruct (Nat.eq_dec j c) as [-> | Hne]; [exact E |].
        apply Hj. lia.
      * intros j Hlt. destruct (Nat.eq_dec j c) as [-> | Hne]; [exact E |].
        apply IH. lia.
Qed.

(** X3: [_wait_for_live] returns at the first probe that finds Live
    ready, provided it is among the first hundred, and raises exactly
    when the first hundred probes all fail; it never probes more than a
    hundred times. *)
Theorem wait_for_live_is_bounded (probe : nat -> bool) :
  (forall k, wait_for_live probe = Some k <->
     (k < 100)%nat /\ probe k = true /\
     forall j, (j < k)%nat -> probe j = false) /\
  (wait_for_live probe = None <->
     forall j, (j < 100)%nat -> probe j = false).
Proof.
  unfold wait_for_live, max_retries.
  pose proof (wait_loop_spec probe 100 0) as H.
  destruct (wait_loop probe 100 0) as [k0 |].
  - destruct H as (Hk & Hp & Hj). split.
    + intros k. split.
      * intros [= <-]. repeat split; [lia | exact Hp |].
        intros j Hlt. apply Hj. lia.
      * intros (Hk' & Hp' & Hj'). f_equal.
        destruct (Nat.lt_trichotomy k0 k) as [Hlt | [-> | Hlt]];
          [| reflexivity |].
        -- rewrite Hj' in Hp by exact Hlt. discriminate.
        -- rewrite Hj in Hp' by lia. discriminate.
    + split; [discriminate |]. intros Hall.
      rewrite Hall in Hp by lia. discriminate.
  - split.
    + intros k. split; [discriminate |]. intros (Hk' & Hp' & _).
      rewrite H in Hp' by lia. discriminate.
    + split; [| reflexivity]. intros _ j Hj. apply H. lia.
Qed.

(** *** Invariants of the adapter *)

Lemma last_ring_app (l l' : list action) :
  last_ring (l ++ l')
  = match last_ring l' with Some hv => Some hv | None => last_ring l end.
Proof.
  induction l as [| a l IH]; cbn [app last_ring].
  - by destruct (last_ring l').
  - rewrite IH. by destruct (last_ring l').
Qed.

Lemma only_logged_refl (s : ClipDeck) : only_logged s s.
Proof.
  split; [apply SessionProofs.same_window_refl |]. split; [done |].
  split; [done |]. exists []. by rewrite app_nil_r.
Qed.

Lemma only_logged_trans (s1 s2 s3 : ClipDeck) :
  only_logged s1 s2 -> only_logged s2 s3 -> only_logged s1 s3.
Proof.
  intros (W1 & A1 & B1 & l1 & O1 & R1 & C1) (W2 & A2 & B2 & l2 & O2 & R2 & C2).
  split; [eapply SessionProofs.same_window_trans; eassumption |].
  split; [congruence |]. split; [congruence |].
  exists (l1 ++ l2). split; [by rewrite O2, O1, app_assoc |].
  split; [by rewrite last_ring_app, R2, R1 |].
  intros Hc. apply Forall_app. split; [by apply C1 |].
  apply C2. destruct W1 as (-> & _). exact Hc.
Qed.

Lemma osc_send_logged (a : string) (args : list osc_arg) (s : ClipDeck) :
  String.eqb a "/clip_info" = false -> only_logged s (osc_send a args s).
Proof.
  intros Ha. split; [apply SessionProofs.osc_send_window |].
  split; [done |]. split; [done |]. eexists. split; [reflexivity |].
  destruct (debug_mode s), (debug_client s); cbn; rewrite ?Ha;
    split; try done; intros _; repeat constructor; cbn; by rewrite Ha.
Qed.

Lemma emit_logged (acts : list action) (s : ClipDeck) :
  last_ring acts = None ->
  Forall (fun a => is_clip_info a = false) acts ->
  only_logged s (emit acts s).
Proof.
  intros Hr Hc. split; [done |]. split; [done |]. split; [done |].
  exists acts. auto.
Qed.

Lemma check_structural_validity_logged (song : Song) (s : ClipDeck) :
  only_logged s (check_structural_validity song s).2.
Proof.
  unfold check_structural_validity.
  destruct (len_tracks song <=? h_offset s), (structural_mismatch s);
    cbn [snd negb]; try apply only_logged_refl;
    (eapply only_logged_trans; [| by apply osc_send_logged]);
    (split; [done |]); (split; [done |]); (split; [done |]);
    exists []; by rewrite app_nil_r.
Qed.

Lemma prepare_and_send_clip_info_logged (song : Song) (s : ClipDeck) :
  only_logged s (prepare_and_send_clip_info song s).
Proof.
  unfold prepare_and_send_clip_info.
  destruct (config_received s) eqn:Hc; cbn [negb];
    [| apply only_logged_refl].
  destruct (len_tracks song <=? h_offset s); [apply only_logged_refl |].
  destruct (snapshot song (h_offset s) (v_offset s));
    [| apply only_logged_refl].
  split; [apply SessionProofs.send_message_window |].
  split; [done |]. split; [done |]. eexists. split; [reflexivity |].
  split; [by destruct (debug_mode s), (debug_client s) |]. congruence.
Qed.

Lemma handle_trigger_clip_logged (song song' : Song) (t sc : Z)
  (s : ClipDeck) :
  only_logged s (handle_trigger_clip song song' t sc s).
Proof.
  unfold handle_trigger_clip, trigger_target.
  destruct (_ && _); [| apply only_logged_refl].
  destruct (_ ≫= _) as [[track slot] |]; [| apply only_logged_refl].
  set (s1 := match slot with Some _ => _ | None => _ end).
  assert (H1 : only_logged s s1).
  { subst s1. destruct slot.
    - apply emit_logged; [done | by repeat constructor].
    - eapply only_logged_trans; [| by apply osc_send_logged].
      apply emit_logged; [done | by repeat constructor]. }
  pose proof (check_structural_validity_logged song' s1) as H2.
  destruct (check_structural_validity song' s1) as [valid s2].
  cbn [snd] in H2. destruct valid.
  - eapply only_logged_trans; [| apply prepare_and_send_clip_info_logged].
    eapply only_logged_trans; eassumption.
  - eapply only_logged_trans; eassumption.
Qed.

Lemma handle_scroll_nonneg (song : Song) (d : string) (s : ClipDeck) :
  let s' := handle_scroll song d s in
  (0 <= v_offset s -> 0 <= v_offset s') /\
  (0 <= h_offset s -> 0 <= initial_h_offset s -> 0 <= h_offset s').
Proof.
  unfold handle_scroll.
  pose proof (SessionProofs.scroll_step_cases d) as Hs.
  destruct (scroll_step d) as [dir st]. cbn [snd] in Hs.
  SessionProofs.scroll_cases; SessionProofs.bool_cases;
    cbn [h_offset v_offset set_h_offset set_v_offset set_last_applied emit];
    split; intros; unfold num_scenes, num_tracks; lia.
Qed.

Lemma inv_logged (order : Z) (s s' : ClipDeck) :
  adapter_inv order s -> only_logged s s' -> adapter_inv order s'.
Proof.
  intros (I1 & I2 & I3 & I4 & I5 & I6 & I7)
         ((W1 & W2 & W3 & W4 & W5 & W6 & W7 & W8) & A & B & l & O & R & C).
  unfold adapter_inv. rewrite W1, W2, W3, W4, W5, W7, W8, A, B, O.
  repeat split; try assumption; try (by apply I7).
  - intros Hc. apply Forall_app. auto.
  - rewrite last_ring_app, R. by rewrite app_nil_r || exact I6.
Qed.

Section Traces.

Variable int_of_str : string -> option Z.

Local Abbreviation step := (step int_of_str).
Local Abbreviation run := (run int_of_str).

Lemma step_logged (s : ClipDeck) (e : event) :
  match e with EvConfig _ _ | EvScroll _ _ => False | _ => True end ->
  only_logged s (step s e).
Proof.
  destruct e as [g a | g a | g g' a | g a | | g | g |]; intros He;
    cbv beta iota delta [Session.step]; try (simpl in He; contradiction).
  - unfold osc_trigger_clip_handler.
    destruct a as [| [t | |] [| [sc | |] [|]]]; try apply only_logged_refl.
    apply handle_trigger_clip_logged.
  - unfold osc_refresh_handler.
    destruct (match a with [] => _ | _ => _ end) as [o |];
      [| apply only_logged_refl].
    destruct (o =? display_order s); [| apply only_logged_refl].
    eapply only_logged_trans;
      [apply prepare_and_send_clip_info_logged | by apply osc_send_logged].
  - unfold osc_pyonline_handler. by apply osc_send_logged.
  - unfold on_offset_changed.
    eapply only_logged_trans;
      [apply check_structural_validity_logged
      | apply prepare_and_send_clip_info_logged].
  - apply prepare_and_send_clip_info_logged.
  - unfold send_ablonline_round, send_message.
    destruct (structural_mismatch _).
    + eapply only_logged_trans; by apply osc_send_logged.
    + by apply osc_send_logged.
Qed.

Lemma inv_scroll (order : Z) (song : Song) (d : string) (s : ClipDeck) :
  adapter_inv order s -> adapter_inv order (handle_scroll song d s).
Proof.
  intros (I1 & I2 & I3 & I4 & I5 & I6 & I7).
  destruct (SessionProofs.handle_scroll_frame song d s) as (F1 & F2 & F3 & F4).
  destruct (handle_scroll_nonneg song d s) as [N1 _].
  destruct (handle_scroll_cases song d s)
    as [E | (_ & O & A & B & D1 & D2)].
  - rewrite E. repeat split; try assumption; by apply I7.
  - unfold adapter_inv. rewrite F1, F2, F4, O, A, B, D1, D2.
    repeat split; auto.
    + intros Hc. apply Forall_app. split; [auto | by repeat constructor].
    + left. by rewrite last_ring_app.
Qed.

Lemma inv_config (order : Z) (song : Song) (args : list osc_arg)
  (s : ClipDeck) :
  adapter_inv order s ->
  adapter_inv order (osc_config_handler int_of_str song args s).
Proof.
  intros Hinv. pose proof Hinv as (I1 & I2 & I3 & I4 & I5 & I6 & I7).
  destruct (accepted int_of_str (display_order s) args) as [[h d] |] eqn:Ha;
    [| by rewrite SessionProofs.config_rejected].
  destruct (config_received s) eqn:Hc.
  - rewrite (SessionProofs.config_again int_of_str song args h d s Hc Ha).
    assert (Hd : adapter_inv order (with_debug d s)).
    { unfold with_debug. destruct d; cbn;
        (repeat split; try assumption; try by apply I7); try done;
        intros Hdm; cbn in *; congruence. }
    eapply inv_logged; [exact Hd | by apply osc_send_logged].
  - unfold accepted in Ha. unfold osc_config_handler.
    destruct (config_args int_of_str args) as [[[o h'] d'] |]; [| done].
    destruct (o =? display_order s); [| done].
    injection Ha as -> ->. rewrite Hc. cbn [negb andb].
    set (s1 := if d then _ else _).
    assert (H1 : display_order s1 = order /\
                 osc_send_port s1 = OSC_BASE_SEND_PORT + order * 10 /\
                 v_offset s1 = v_offset s /\ h_offset s1 = h /\
                 config_received s1 = true /\
                 (debug_mode s1 = true ->
                  debug_client s1 = Some (osc_send_port s1 + 1000)) /\
                 out s1 = out s /\
                 last_applied_h_offset s1 = last_applied_h_offset s /\
                 last_applied_v_offset s1 = last_applied_v_offset s).
    { subst s1. destruct d; cbn; repeat split; auto; done. }
    destruct H1 as (J1 & J2 & J3 & J4 & J5 & J6 & J7 & J8 & J9).
    eapply inv_logged; [| by apply osc_send_logged].
    destruct (negb (h_offset s1 =? last_applied_h_offset s1)
              || negb (v_offset s1 =? last_applied_v_offset s1)) eqn:Hch.
    + eapply inv_logged; [| apply prepare_and_send_clip_info_logged].
      unfold adapter_inv. cbn. rewrite J1, J2, J3, J5, J7.
      repeat split; auto; try done.
      * intros Hdm. rewrite <- J2. by apply J6.
      * left. by rewrite last_ring_app.
    + apply orb_false_iff in Hch as [Hh Hv].
      apply negb_false_iff, Z.eqb_eq in Hh, Hv.
      unfold adapter_inv. rewrite J1, J2, J3, J5, J7, J8, J9.
      repeat split; auto; try done; try lia; try congruence.
      intros Hdm. rewrite <- J2. by apply J6.
Qed.

(** Every state the adapter reaches from [__init__] satisfies the
    invariant. *)
Lemma run_inv (order : Z) (es : list event) :
  adapter_inv order (run (init order) es).
Proof.
  assert (H0 : adapter_inv order (init order)).
  { unfold adapter_inv. cbn. repeat split; auto; try done. }
  revert H0. generalize (init order). induction es as [| e es IH];
    intros s Hs; [exact Hs |].
  cbn [Session.run List.fold_left]. apply IH.
  destruct e as [g a | g a | g g' a | g a | | g | g |];
    try (eapply inv_logged; [exact Hs | by apply step_logged]).
  - by apply inv_config.
  - cbn [Session.step]. unfold osc_scroll_handler.
    destruct a as [| [z | q | d] a]; try exact Hs. by apply inv_scroll.
Qed.

(** X4: until a config is accepted the adapter sends no snapshot,
    whatever it is asked to do. *)
Theorem no_snapshot_before_config (order : Z) (pre : list event) :
  Forall (fun e => is_accepted_config int_of_str order e = false) pre ->
  Forall (fun a => is_clip_info a = false) (out (run (init order) pre)).
Proof.
  intros Hpre.
  destruct (SessionProofs.run_before_config int_of_str order pre (init order)
              eq_refl eq_refl Hpre) as [_ Hc].
  destruct (run_inv order pre) as (_ & _ & _ & _ & I5 & _).
  by apply I5.
Qed.

(** X5: once a config was accepted, the last [set_offsets] call the
    adapter made carries exactly its current offsets: the session ring
    follows the window through every config, scroll and other event. *)
Theorem ring_follows_window (order : Z) (es : list event) :
  config_received (run (init order) es) = true ->
  last_ring (out (run (init order) es))
  = Some (h_offset (run (init order) es), v_offset (run (init order) es)).
Proof.
  intros Hc.
  destruct (run_inv order es) as (_ & _ & I3 & _ & _ & I6 & I7).
  destruct (I7 Hc) as [E1 E2]. rewrite <- E1, <- E2.
  destruct I6 as [I6 | (_ & Hv & _)]; [exact I6 | lia].
Qed.

(** X6: in every state the adapter reaches, a message goes to port
    [9000 + 10 * order] and, exactly when debug mode is on, a verbatim
    copy goes to the port 1000 above. *)
Theorem sends_are_mirrored_in_debug_mode (order : Z) (es : list event)
  (address : string) (args : list osc_arg) :
  let s := run (init order) es in
  out (osc_send address args s)
  = out s ++
    OscSend (9000 + order * 10) address args
    :: (if debug_mode s
        then [OscSend (9000 + order * 10 + 1000) address args]
        else []).
Proof.
  cbv zeta. destruct (run_inv order es) as (_ & I2 & _ & I4 & _).
  unfold osc_send, emit. cbn [out]. rewrite I2.
  destruct (debug_mode _); [| reflexivity].
  rewrite I4 by reflexivity. by rewrite I2.
Qed.

(** The offsets stay non-negative along a run. *)
Lemma run_nonneg (order : Z) (es : list event) (s : ClipDeck) :
  display_order s = order ->
  0 <= h_offset s -> 0 <= v_offset s -> 0 <= initial_h_offset s ->
  Forall (fun e => config_offset_ok int_of_str order e = true) es ->
  0 <= h_offset (run s es) /\ 0 <= v_offset (run s es) /\
  0 <= initial_h_offset (run s es).
Proof.
  revert s. induction es as [| e es IH]; intros s Ho Hh Hv Hi Hall;
    [auto |].
  inversion Hall as [| ? ? He Hall']; subst.
  cbn [Session.run List.fold_left].
  assert (H : display_order (step s e) = display_order s /\
              0 <= h_offset (step s e) /\ 0 <= v_offset (step s e) /\
              0 <= initial_h_offset (step s e)).
  { destruct e as [g a | g a | g g' a | g a | | g | g |];
      try (match goal with
           | |- context [Session.step _ s ?e] =>
               destruct (step_logged s e I)
                 as ((_ & _ & _ & -> & -> & -> & -> & _) & _)
           end; auto; fail).
    - cbn [Session.step]. cbn [config_offset_ok] in He.
      destruct (accepted int_of_str (display_order s) a) as [[h d] |] eqn:Ha;
        [| by rewrite SessionProofs.config_rejected].
      apply Z.leb_le in He.
      destruct (config_received s) eqn:Hc.
      + rewrite (SessionProofs.config_again int_of_str g a h d s Hc Ha).
        unfold with_debug. by destruct d.
      + destruct (SessionProofs.config_first int_of_str g a h d s Hc Ha)
          as (-> & -> & -> & _ & ->). auto.
    - cbn [Session.step]. unfold osc_scroll_handler.
      destruct a as [| [z | q | d] a]; auto.
      destruct (SessionProofs.handle_scroll_frame g d s)
        as (_ & -> & -> & _).
      destruct (handle_scroll_nonneg g d s) as [N1 N2]. auto. }
  destruct H as (H1 & H2 & H3 & H4). by apply IH.
Qed.

(** X7: as long as every accepted config carries a non-negative offset,
    the horizontal offset, the vertical offset and the reset target are
    never negative, whatever the session looks like at each event. *)
Theorem offsets_never_negative (order : Z) (es : list event) :
  Forall (fun e => config_offset_ok int_of_str order e = true) es ->
  0 <= h_offset (run (init order) es) /\
  0 <= v_offset (run (init order) es) /\
  0 <= initial_h_offset (run (init order) es).
Proof.
  intros Hall. by apply (run_nonneg order es (init order)).
Qed.

End Traces.

Lemma no_snapshot_before_config_witness :
  Forall (fun a => is_clip_info a = false)
    (out (run Examples.int_of_str (init 0) Examples.before_config)).
Proof.
  apply no_snapshot_before_config. repeat constructor.
Defined.

Lemma ring_follows_window_witness :
  last_ring
    (out (run Examples.int_of_str (init 0) Examples.configured_and_scrolled))
  = Some (7, 4).
Proof.
  exact (ring_follows_window Examples.int_of_str 0
           Examples.configured_and_scrolled eq_refl).
Defined.

Lemma offsets_never_negative_witness :
  0 <= h_offset
         (run Examples.int_of_str (init 0) Examples.configured_and_scrolled)
  /\ 0 <= v_offset
            (run Examples.int_of_str (init 0)
               Examples.configured_and_scrolled)
  /\ 0 <= initial_h_offset
            (run Examples.int_of_str (init 0)
               Examples.configured_and_scrolled).
Proof.
  apply offsets_never_negative. repeat constructor.
Defined.

End SessionExtras.

(** ** Further properties of the hardware side *)

Module HardwareExtras.
Import Hardware.

Lemma byte_of_low_bits (c k : Z) :
  0 <= k <= 16 ->
  Z.land (Z.shiftr (c mod 16777216) k) 255 = Z.land (Z.shiftr c k) 255.
Proof.
  intros Hk. change 255 with (Z.ones 8). change 16777216 with (2 ^ 24).
  apply Z.bits_inj'. intros n Hn.
  rewrite !Z.land_spec, !Z.shiftr_spec by lia.
  destruct (Z.ltb_spec n 8) as [Hlt | Hge].
  - rewrite Z.mod_pow2_bits_low by lia. reflexivity.
  - rewrite Z.ones_spec_high by lia. by rewrite !andb_false_r.
Qed.

(** X8: [ableton_color_to_rgb] yields three components in 0..255, looks
    only at the low 24 bits of its argument, and on a colour of 0..2^24-1
    the components recompose to the colour: red * 65536 + green * 256 +
    blue. *)
Theorem color_components_recompose (c : Z) :
  let '(r, g, b) := ableton_color_to_rgb c in
  0 <= r <= 255 /\ 0 <= g <= 255 /\ 0 <= b <= 255 /\
  ableton_color_to_rgb (c mod 16777216) = (r, g, b) /\
  (0 <= c < 16777216 -> r * 65536 + g * 256 + b = c).
Proof.
  unfold ableton_color_to_rgb.
  rewrite !byte_of_low_bits by lia.
  rewrite <- (Z.shiftr_0_r (c mod 16777216)), byte_of_low_bits by lia.
  rewrite Z.shiftr_0_r.
  change 255 with (Z.ones 8).
  rewrite !Z.land_ones, !Z.shiftr_div_pow2 by lia.
  change (2 ^ 8) with 256. change (2 ^ 16) with 65536.
  change (Z.ones 8) with 255.
  pose proof (Z.mod_pos_bound (c / 65536) 256 ltac:(lia)).
  pose proof (Z.mod_pos_bound (c / 256) 256 ltac:(lia)).
  pose proof (Z.mod_pos_bound c 256 ltac:(lia)).
  do 4 (split; [lia || reflexivity |]).
  intros Hc.
  assert (E : c / 65536 = c / 256 / 256) by (rewrite Z.div_div by lia; done).
  rewrite (Z.mod_small (c / 65536))
    by (split; [apply Z.div_pos; lia | apply Z.div_lt_upper_bound; lia]).
  pose proof (Z.div_mod c 256 ltac:(lia)).
  pose proof (Z.div_mod (c / 256) 256 ltac:(lia)). lia.
Qed.

(** *** What the building blocks leave alone *)

Lemma init_cs_state_frame (o : Z) (w : World) :
  images (init_cs_state o w) = images w /\
  timers (init_cs_state o w) = timers w /\
  osc_out (init_cs_state o w) = osc_out w /\
  order_to_deck (init_cs_state o w) = order_to_deck w /\
  config_decks (init_cs_state o w) = config_decks w /\
  config_scroll_mode (init_cs_state o w) = config_scroll_mode w /\
  debug_mode (init_cs_state o w) = debug_mode w.
Proof. unfold init_cs_state. by destruct (deck_states w !! o). Qed.

Lemma images_init (o : Z) (w : World) :
  images (init_cs_state o w) = images w.
Proof. apply init_cs_state_frame. Qed.

Lemma timers_init (o : Z) (w : World) :
  timers (init_cs_state o w) = timers w.
Proof. apply init_cs_state_frame. Qed.

Lemma order_to_deck_init (o : Z) (w : World) :
  order_to_deck (init_cs_state o w) = order_to_deck w.
Proof. apply init_cs_state_frame. Qed.

Lemma osc_out_init (o : Z) (w : World) :
  osc_out (init_cs_state o w) = osc_out w.
Proof. apply init_cs_state_frame. Qed.

Lemma scroll_mode_init (o : Z) (w : World) :
  scroll_mode (init_cs_state o w) = scroll_mode w.
Proof. unfold scroll_mode. by rewrite (proj1 (proj2 (proj2 (proj2 (proj2 (proj2 (init_cs_state_frame o w))))))). Qed.

Lemma debug_mode_init (o : Z) (w : World) :
  debug_mode (init_cs_state o w) = debug_mode w.
Proof. apply init_cs_state_frame. Qed.

Lemma update_key_image_frame d k l c p b sk f m ma (w : World) :
  let w' := update_key_image d k l c p b sk f m ma w in
  deck_states w' = deck_states w /\
  timers w' = timers w /\
  osc_out w' = osc_out w /\
  order_to_deck w' = order_to_deck w /\
  config_decks w' = config_decks w /\
  config_scroll_mode w' = config_scroll_mode w /\
  debug_mode w' = debug_mode w.
Proof. unfold update_key_image. by destruct (_ || _). Qed.

Lemma timers_update_key_image d k l c p b sk f m ma (w : World) :
  timers (update_key_image d k l c p b sk f m ma w) = timers w.
Proof. apply update_key_image_frame. Qed.

Lemma osc_out_update_key_image d k l c p b sk f m ma (w : World) :
  osc_out (update_key_image d k l c p b sk f m ma w) = osc_out w.
Proof. apply update_key_image_frame. Qed.

Lemma scroll_mode_update_key_image d k l c p b sk f m ma (w : World) :
  scroll_mode (update_key_image d k l c p b sk f m ma w) = scroll_mode w.
Proof. unfold update_key_image. by destruct (_ || _). Qed.




Lemma images_update_key_image d k l c p b sk f m ma (w : World) :
  images (update_key_image d k l c p b sk f m ma w)
  = images w ++
    if has_key d k then [(serial_number d, mkImage k l c p b sk f m ma)]
    else [].
Proof.
  unfold update_key_image, has_key.
  destruct (Z.ltb_spec k 0), (Z.leb_spec (key_count d) k),
    (Z.leb_spec 0 k), (Z.ltb_spec k (key_count d));
    cbn [orb andb]; try lia; by rewrite ?app_nil_r.
Qed.

Lemma on_key_change_frame (k o : Z) (w : World) :
  images (on_key_change k o w) = images w /\
  timers (on_key_change k o w) = timers w /\
  order_to_deck (on_key_change k o w) = order_to_deck w /\
  forall o', state_of o' (on_key_change k o w) = state_of o' w.
Proof.
  unfold on_key_change, get_cs_state.
  repeat case_match;
    cbn [images timers order_to_deck send_osc_message set_osc_out];
    rewrite ?images_init, ?timers_init, ?order_to_deck_init;
    do 3 (split; [done |]);
    intros o'; unfold state_of; cbn [deck_states send_osc_message set_osc_out];
    try done; apply HardwareProofs.state_of_init_any.
Qed.


Lemma color_of_zero : ableton_color_to_rgb 0 = (0, 0, 0).
Proof. reflexivity. Qed.

(** The one image [redraw_key] draws. *)
Lemma images_redraw_key (d : Deck) (k : Z) (st : cs_state) (mode : string)
  (menu : bool) (w : World) :
  exists img,
    images (redraw_key d k st mode menu w)
    = images w ++ (if has_key d k then [(serial_number d, img)] else []) /\
    img_key img = k /\ img_flash img = false /\
    img_scroll_mode img = Some mode /\ img_menu_active img = menu /\
    img_label img
    = match key_states st !! k with Some t => t.1.1 | None => EmptyString end /\
    img_color img
    = match key_states st !! k with
      | Some t => ableton_color_to_rgb t.1.2
      | None => (0, 0, 0)
      end.
Proof.
  unfold redraw_key.
  destruct (key_states st !! k) as [[[label color] prog] |]; cbn [fst snd].
  - assert (Hc : (if negb (color =? 0) then ableton_color_to_rgb color
                  else (0, 0, 0)) = ableton_color_to_rgb color).
    { destruct (Z.eqb_spec color 0) as [-> | _]; reflexivity. }
    rewrite Hc.
    destruct (SFleb (Float.of_Z 0) prog);
      [| destruct (SFeqb prog (Float.of_Z (-1)));
       [| destruct (SFeqb prog (Float.of_Z (-3)))]];
      rewrite images_update_key_image; eexists;
      (split; [reflexivity |]); repeat split.
  - rewrite images_update_key_image. eexists.
    split; [reflexivity |]. repeat split.
Qed.

Lemma redraw_key_frame (d : Deck) (k : Z) (st : cs_state) (mode : string)
  (menu : bool) (w : World) :
  let w' := redraw_key d k st mode menu w in
  deck_states w' = deck_states w /\
  timers w' = timers w /\
  osc_out w' = osc_out w /\
  order_to_deck w' = order_to_deck w /\
  config_decks w' = config_decks w /\
  config_scroll_mode w' = config_scroll_mode w /\
  debug_mode w' = debug_mode w.
Proof.
  unfold redraw_key. repeat case_match; apply update_key_image_frame.
Qed.

Lemma state_of_redraw_key (o : Z) d k st mode menu (w : World) :
  state_of o (redraw_key d k st mode menu w) = state_of o w.
Proof.
  unfold state_of. by rewrite (proj1 (redraw_key_frame d k st mode menu w)).
Qed.

(** *** Key presses and the flash *)

(** The record of a window after a key went down. *)
Lemma key_pressed_state (now : Q) (deck : Deck) (order key : Z) (w : World) :
  state_of order (key_pressed now deck order key w)
  = set_flash_until
      (<[key := (now + FLASH_DURATION)%Q]> (flash_until (state_of order w)))
      (set_pressed_keys ({[key]} ∪ pressed_keys (state_of order w))
         (state_of order w)).
Proof.
  unfold key_pressed, get_cs_state.
  match goal with
  | |- context [on_key_change key order ?x] =>
      destruct (on_key_change_frame key order x) as (_ & _ & _ & Hs)
  end.
  rewrite Hs, HardwareProofs.state_of_update_key_image,
    HardwareProofs.state_of_put.
  by rewrite HardwareProofs.state_of_init.
Qed.

Lemma key_pressed_frame (now : Q) (deck : Deck) (order key : Z) (w : World) :
  let w' := key_pressed now deck order key w in
  timers w' = timers w /\
  images w'
  = images w ++
    (if has_key deck key
     then [(serial_number deck,
            mkImage key EmptyString (0, 0, 0) None None None true None false)]
     else []) /\
  order_to_deck w' = order_to_deck w.
Proof.
  unfold key_pressed, get_cs_state.
  match goal with
  | |- context [on_key_change key order ?x] =>
      destruct (on_key_change_frame key order x) as (Hi & Ht & Hd & _)
  end.
  rewrite Hi, Ht, Hd, timers_update_key_image, images_update_key_image.
  rewrite (proj1 (proj2 (proj2 (proj2 (update_key_image_frame _ _ _ _ _ _ _ _
             _ _ _))))).
  cbn [timers images order_to_deck put_state set_deck_states].
  by destruct (init_cs_state_frame order w) as (-> & -> & _ & -> & _).
Qed.

(** X9: a key that goes down is added to the pressed keys, its flash
    time is set to 0.2 s after the press, the cache stays as it is, no
    timer is started, and exactly one image is drawn: the flash image on
    that key (nothing on a unit without the key).  From then on the key
    counts as flashing at every time, for as long as it is held. *)
Theorem key_press_starts_flash (now : Q) (deck : Deck) (order key : Z)
  (w : World) :
  let st := state_of order w in
  let w' := key_pressed now deck order key w in
  let st' := state_of order w' in
  pressed_keys st' = {[key]} ∪ pressed_keys st /\
  flash_until st' !! key = Some (now + (2 # 10))%Q /\
  key_states st' = key_states st /\
  (forall t, held_or_flashing st' t key) /\
  timers w' = timers w /\
  exists img,
    images w'
    = images w ++ (if has_key deck key then [(serial_number deck, img)]
                   else []) /\
    img_key img = key /\ img_flash img = true /\
    background_fill img = Fill (170, 170, 170).
Proof.
  cbv zeta. rewrite key_pressed_state.
  destruct (key_pressed_frame now deck order key w) as (-> & -> & _).
  cbn [pressed_keys flash_until key_states set_flash_until set_pressed_keys].
  split; [done |]. split; [by rewrite lookup_insert_eq |]. split; [done |].
  split.
  { intros t. left. cbn. apply elem_of_union. left.
    by apply elem_of_singleton. }
  split; [done |].
  eexists. split; [reflexivity |]. repeat split.
Qed.

(** The three ways a release ends. *)
Lemma key_released_none (now : Q) (deck : Deck) (order key : Z) (w : World) :
  flash_until (state_of order w) !! key = None ->
  key_released now deck order key w
  = put_state order
      (set_pressed_keys (pressed_keys (state_of order w) ∖ {[key]})
         (state_of order w))
      (init_cs_state order w).
Proof.
  intros Hf. unfold key_released, get_cs_state.
  rewrite HardwareProofs.state_of_init. cbn [flash_until set_pressed_keys].
  by rewrite Hf.
Qed.

Lemma key_released_early (now until : Q) (deck : Deck) (order key : Z)
  (w : World) :
  flash_until (state_of order w) !! key = Some until ->
  (now < until)%Q ->
  key_released now deck order key w
  = set_timers
      (timers w ++
       [((now + (until - now))%Q, FlashRestore key deck order)])
      (put_state order
         (set_pressed_keys (pressed_keys (state_of order w) ∖ {[key]})
            (state_of order w))
         (init_cs_state order w)).
Proof.
  intros Hf Hlt. unfold key_released, get_cs_state.
  rewrite HardwareProofs.state_of_init. cbn [flash_until set_pressed_keys].
  rewrite Hf.
  replace (Py.Qltb 0 (until - now)) with true
    by (symmetry; apply HardwareProofs.Qltb_lt;
        by apply (Qlt_minus_iff now until)).
  cbn [timers put_state set_deck_states]. by rewrite timers_init.
Qed.

Lemma key_released_late (now until : Q) (deck : Deck) (order key : Z)
  (w : World) :
  flash_until (state_of order w) !! key = Some until ->
  (until <= now)%Q ->
  let st :=
    set_flash_until (delete key (flash_until (state_of order w)))
      (set_pressed_keys (pressed_keys (state_of order w) ∖ {[key]})
         (state_of order w)) in
  key_released now deck order key w
  = restore_key_image deck key st
      (put_state order st
         (put_state order
            (set_pressed_keys (pressed_keys (state_of order w) ∖ {[key]})
               (state_of order w))
            (init_cs_state order w))).
Proof.
  intros Hf Hle. unfold key_released, get_cs_state.
  rewrite HardwareProofs.state_of_init. cbn [flash_until set_pressed_keys].
  rewrite Hf.
  replace (Py.Qltb 0 (until - now)) with false; [done |].
  symmetry. apply not_true_is_false. intros Hr.
  apply HardwareProofs.Qltb_lt in Hr.
  apply (Qlt_minus_iff now until) in Hr. by apply Qle_not_lt in Hle.
Qed.

(** X10: a key that goes up leaves the pressed keys; the cache stays and
    nothing is sent.  Without a flash time nothing else happens.  Before
    the flash time has passed nothing is drawn and one restore is
    scheduled for the flash time.  From the flash time on the flash time
    is forgotten and the key is redrawn at once from the cache, with the
    cached label and colour (blank when the cache holds nothing). *)
Theorem key_release_restores_or_defers (now : Q) (deck : Deck)
  (order key : Z) (w : World) :
  let st := state_of order w in
  let w' := key_released now deck order key w in
  let st' := state_of order w' in
  pressed_keys st' = pressed_keys st ∖ {[key]} /\
  key_states st' = key_states st /\
  osc_out w' = osc_out w /\
  match flash_until st !! key with
  | None =>
      images w' = images w /\ timers w' = timers w /\
      flash_until st' = flash_until st
  | Some until =>
      ((now < until)%Q ->
       images w' = images w /\ flash_until st' = flash_until st /\
       exists due,
         timers w' = timers w ++ [(due, FlashRestore key deck order)] /\
         (due == until)%Q) /\
      ((until <= now)%Q ->
       timers w' = timers w /\
       flash_until st' = delete key (flash_until st) /\
       exists img,
         images w'
         = images w ++ (if has_key deck key then [(serial_number deck, img)]
                        else []) /\
         img_key img = key /\ img_flash img = false /\
         img_label img
         = match key_states st !! key with
           | Some t => t.1.1
           | None => EmptyString
           end /\
         img_color img
         = match key_states st !! key with
           | Some t => ableton_color_to_rgb t.1.2
           | None => (0, 0, 0)
           end)
  end.
Proof.
  cbv zeta.
  destruct (flash_until (state_of order w) !! key) as [until |] eqn:Hf.
  - destruct (Qlt_le_dec now until) as [Hlt | Hle].
    + rewrite (key_released_early now until deck order key w Hf Hlt).
      unfold state_of.
      cbn [deck_states set_timers put_state set_deck_states osc_out images
           timers].
      rewrite lookup_insert_eq. cbn [default].
      rewrite osc_out_init, images_init.
      do 3 (split; [done |]). split.
      * intros _. do 2 (split; [done |]). eexists.
        split; [reflexivity |]. cbn. ring.
      * intros Hle. by apply Qle_not_lt in Hle.
    + rewrite (key_released_late now until deck order key w Hf Hle).
      cbv zeta. unfold restore_key_image.
      match goal with
      | |- context [redraw_key ?d ?k ?s ?m ?me ?x] =>
          destruct (redraw_key_frame d k s m me x)
            as (_ & Ht & Ho & _);
          destruct (images_redraw_key d k s m me x)
            as (img & Hi & I1 & I2 & _ & _ & I3 & I4);
          rewrite (state_of_redraw_key order d k s m me x)
      end.
      cbv zeta in Ht, Ho. rewrite Ht, Ho, Hi.
      rewrite HardwareProofs.state_of_put.
      cbn [pressed_keys key_states flash_until set_flash_until
           set_pressed_keys timers osc_out images put_state set_deck_states].
      rewrite osc_out_init, images_init, timers_init.
      do 3 (split; [done |]). split.
      * intros Hlt. by apply Qle_not_lt in Hle.
      * intros _. do 2 (split; [done |]). exists img. done.
  - rewrite (key_released_none now deck order key w Hf).
    rewrite HardwareProofs.state_of_put.
    cbn [pressed_keys key_states flash_until set_pressed_keys timers osc_out
         images put_state set_deck_states].
    by rewrite osc_out_init, images_init, timers_init.
Qed.


(** *** Snapshots while a key flashes *)

Lemma state_of_put_cases (o o' : Z) (st : cs_state) (w : World) :
  state_of o (put_state o' st w)
  = if decide (o = o') then st else state_of o w.
Proof.
  destruct (decide (o = o')) as [-> | Hne];
    [apply HardwareProofs.state_of_put
    | by apply HardwareProofs.state_of_put_ne].
Qed.

Lemma draw_cell_frame (d : Deck) (i : Z) (t : key_state) (st : cs_state)
  (mode : string) (menu : bool) (w : World) :
  let w' := draw_cell d i t st mode menu w in
  deck_states w' = deck_states w /\
  timers w' = timers w /\
  osc_out w' = osc_out w /\
  order_to_deck w' = order_to_deck w /\
  config_decks w' = config_decks w /\
  config_scroll_mode w' = config_scroll_mode w /\
  debug_mode w' = debug_mode w.
Proof.
  destruct t as [[name color] prog]. unfold draw_cell.
  repeat case_match; apply update_key_image_frame.
Qed.

(** The fields of a window record a snapshot does not write. *)
Local Abbreviation keys_kept st st' :=
  (pressed_keys st' = pressed_keys st /\
   flash_until st' = flash_until st /\
   stopped_keys st' = stopped_keys st /\
   menu_active st' = menu_active st /\
   structural_mismatch st' = structural_mismatch st).

Section SnapshotFrame.

Variable int_of_str : string -> option Z.
Variable float_of_str : string -> option spec_float.

Lemma clip_info_cell_frame (deck : Deck) (order : Z) (pressed : gset Z)
  (flash : gmap Z Q) (now : Q) (mode : string) (menu : bool) (i : Z)
  (info : osc_arg) (w : World) :
  let w' := (clip_info_cell int_of_str float_of_str deck order pressed flash
               now mode menu i info w).1 in
  timers w' = timers w /\ osc_out w' = osc_out w /\
  order_to_deck w' = order_to_deck w /\
  config_scroll_mode w' = config_scroll_mode w /\
  forall o, keys_kept (state_of o w) (state_of o w').
Proof.
  unfold clip_info_cell.
  repeat case_match; cbn [fst]; try done;
    try match goal with
        | |- context [draw_cell ?d ?j ?t ?st ?m ?me ?x] =>
            destruct (draw_cell_frame d j t st m me x)
              as (_ & -> & -> & -> & _ & -> & _)
        end;
    (do 4 (split; [done |])); intros o;
    rewrite ?HardwareProofs.state_of_draw_cell, state_of_put_cases;
    destruct (decide (o = order)) as [-> | _]; done.
Qed.

Lemma clip_info_loop_frame (deck : Deck) (order : Z) (pressed : gset Z)
  (flash : gmap Z Q) (now : Q) (mode : string) (menu : bool)
  (cells : list osc_arg) (i : Z) (w : World) :
  let w' := (clip_info_loop int_of_str float_of_str deck order pressed flash
               now mode menu i cells w).1 in
  timers w' = timers w /\ osc_out w' = osc_out w /\
  order_to_deck w' = order_to_deck w /\
  config_scroll_mode w' = config_scroll_mode w /\
  forall o, keys_kept (state_of o w) (state_of o w').
Proof.
  revert i w. induction cells as [| info cells IH]; intros i w; [done |].
  cbn [clip_info_loop].
  pose proof (clip_info_cell_frame deck order pressed flash now mode menu i
                info w) as Hc. cbv zeta in Hc.
  destruct (clip_info_cell int_of_str float_of_str deck order pressed flash
              now mode menu i info w) as [w1 [|]]; cbn [fst] in *;
    [| exact Hc].
  destruct Hc as (C1 & C2 & C3 & C4 & C5).
  destruct (IH (i + 1) w1) as (I1 & I2 & I3 & I4 & I5).
  rewrite I1, I2, I3, I4. do 4 (split; [done |]). intros o.
  destruct (C5 o) as (<- & <- & <- & <- & <-). apply I5.
Qed.

Lemma clip_info_handler_frame (now : Q) (args : list osc_arg) (w : World) :
  let w' := (osc_clip_info_handler int_of_str float_of_str now args w).1 in
  timers w' = timers w /\ osc_out w' = osc_out w /\
  order_to_deck w' = order_to_deck w /\
  config_scroll_mode w' = config_scroll_mode w /\
  forall o, keys_kept (state_of o w) (state_of o w').
Proof.
  unfold osc_clip_info_handler, get_cs_state.
  destruct args as [| a0 [| c cells]]; try done.
  destruct (Osc.py_int int_of_str a0) as [order |]; [| done].
  destruct (get_deck_for_cs order w) as [deck |]; [| done].
  match goal with
  | |- context [clip_info_loop _ _ ?d ?o ?p ?f ?t ?m ?me ?i ?l ?w0] =>
      destruct (clip_info_loop_frame d o p f t m me l i w0)
        as (-> & -> & -> & -> & H)
  end.
  cbn [timers osc_out order_to_deck config_scroll_mode put_state
       set_deck_states].
  destruct (init_cs_state_frame order w) as (_ & -> & -> & -> & _ & -> & _).
  do 4 (split; [done |]). intros o.
  destruct (H o) as (-> & -> & -> & -> & ->). clear H.
  rewrite state_of_put_cases. destruct (decide (o = order)) as [-> | _].
  - rewrite HardwareProofs.state_of_init.
    by destruct (ableton_offline _).
  - by rewrite HardwareProofs.state_of_init_any.
Qed.

(** What a snapshot does with the cell of key [i]. *)
Lemma clip_info_at_key (now : Q) (order : Z) (deck : Deck)
  (a0 : osc_arg) (cells : list osc_arg) (w : World) (i : Z) (info : string)
  (t : key_state) :
  Osc.py_int int_of_str a0 = Some order ->
  get_deck_for_cs order w = Some deck ->
  0 <= i < 32 ->
  Forall (fun c => exists s, c = OStr s) cells ->
  cells !! Z.to_nat i = Some (OStr info) ->
  parse_cell int_of_str float_of_str info = Some t ->
  let st := state_of order w in
  let r := osc_clip_info_handler int_of_str float_of_str now (a0 :: cells) w in
  if is_flashing (pressed_keys st) (flash_until st) now i then
    cache order i r.1 = Some t /\ drawn i r.1 = drawn i w
  else if cached_is (cache order i w) t then
    cache order i r.1 = cache order i w /\ drawn i r.1 = drawn i w
  else
    cache order i r.1 = Some t /\
    exists img,
      img_key img = i /\ img_label img = t.1.1 /\ img_flash img = false /\
      drawn i r.1
      = drawn i w ++
        if i <? key_count deck then [(serial_number deck, img)] else [].
Proof.
  intros Ha Hd Hi Hall Hl Hp st r. subst r.
  unfold osc_clip_info_handler.
  destruct cells as [| c cells']; [done |].
  rewrite Ha. unfold get_cs_state.
  replace (get_deck_for_cs order w) with (Some deck).
  set (st1 := state_of order (init_cs_state order w)).
  assert (Est : st1 = st) by apply HardwareProofs.state_of_init.
  set (st2 := if ableton_offline (set_last_ablonline now st1)
              then set_waiting_cleared true
                     (set_ableton_offline false (set_last_ablonline now st1))
              else set_last_ablonline now st1).
  assert (E2 : pressed_keys st2 = pressed_keys st /\
               flash_until st2 = flash_until st /\
               key_states st2 = key_states st).
  { subst st2. rewrite <- Est.
    destruct (ableton_offline (set_last_ablonline now st1)); done. }
  destruct E2 as (Ep & Ef & Ek).
  set (w2 := put_state order st2 (init_cs_state order w)).
  assert (Ec : cache order i w2 = cache order i w).
  { unfold cache. subst w2. rewrite HardwareProofs.state_of_put.
    by rewrite Ek. }
  assert (Ed : drawn i w2 = drawn i w).
  { subst w2. unfold drawn, put_state, init_cs_state.
    by destruct (deck_states w !! order). }
  rewrite Ep, Ef.
  pose proof (HardwareProofs.clip_info_loop_at int_of_str float_of_str deck
                order (pressed_keys st) (flash_until st) now (scroll_mode w2)
                (menu_active st2) i info t (c :: cells') 0 w2 ltac:(lia)
                ltac:(lia) Hall
                ltac:(by replace (i - 0) with i by lia) Hp) as H.
  cbv zeta in H. destruct H as [_ H].
  rewrite Ec, Ed in H. exact H.
Qed.

End SnapshotFrame.


Lemma drawn_images (k : Z) (w w' : World) (new : list (string * image)) :
  images w' = images w ++ new ->
  drawn k w'
  = drawn k w ++ List.filter (fun e : string * image => img_key e.2 =? k) new.
Proof. intros H. unfold drawn. rewrite H. apply List.filter_app. Qed.

(** X11: a key of a configured window goes down, a snapshot arrives while
    it is held, and the key goes up.  The snapshot is stored and not
    drawn; a release after the flash time draws the stored cell at once;
    a release before it draws nothing and schedules one restore for the
    flash time, and that restore draws the stored cell. *)
Theorem snapshot_during_flash_is_shown_afterwards
  (int_of_str : string -> option Z) (float_of_str : string -> option spec_float)
  (t0 t1 t2 : Q) (order : Z) (deck : Deck) (a0 : osc_arg)
  (cells : list osc_arg) (w : World) (key : Z) (info : string)
  (t : key_state) :
  Osc.py_int int_of_str a0 = Some order ->
  get_deck_for_cs order w = Some deck ->
  0 <= key < 32 -> key < key_count deck ->
  Forall (fun c => exists s, c = OStr s) cells ->
  cells !! Z.to_nat key = Some (OStr info) ->
  parse_cell int_of_str float_of_str info = Some t ->
  let w1 := key_pressed t0 deck order key w in
  let w2 := (osc_clip_info_handler int_of_str float_of_str t1 (a0 :: cells)
               w1).1 in
  let w3 := key_released t2 deck order key w2 in
  drawn key w2 = drawn key w1 /\
  cache order key w2 = Some t /\
  ((t0 + FLASH_DURATION <= t2)%Q ->
   exists img,
     drawn key w3 = drawn key w2 ++ [(serial_number deck, img)] /\
     img_flash img = false /\ img_label img = t.1.1 /\
     img_color img = ableton_color_to_rgb t.1.2) /\
  ((t2 < t0 + FLASH_DURATION)%Q ->
   drawn key w3 = drawn key w2 /\
   exists due,
     timers w3 = timers w ++ [(due, FlashRestore key deck order)] /\
     (due == t0 + FLASH_DURATION)%Q /\
     exists img,
       drawn key (run_timer (FlashRestore key deck order) w3)
       = drawn key w3 ++ [(serial_number deck, img)] /\
       img_label img = t.1.1 /\
       img_color img = ableton_color_to_rgb t.1.2).
Proof.
  intros Ha Hd Hk Hkc Hall Hl Hp w1 w2 w3.
  pose proof (key_pressed_state t0 deck order key w) as Hs1. fold w1 in Hs1.
  destruct (key_pressed_frame t0 deck order key w) as (Ht1 & _ & Hd1).
  fold w1 in Ht1, Hd1.
  assert (Hdeck1 : get_deck_for_cs order w1 = Some deck)
    by (unfold get_deck_for_cs; by rewrite Hd1).
  assert (Hheld : held_or_flashing (state_of order w1) t1 key).
  { left. rewrite Hs1. cbn. apply elem_of_union. left.
    by apply elem_of_singleton. }
  apply HardwareProofs.is_flashing_iff in Hheld.
  pose proof (clip_info_at_key int_of_str float_of_str t1 order deck a0 cells
                w1 key info t Ha Hdeck1 Hk Hall Hl Hp) as H2.
  cbv zeta in H2. rewrite Hheld in H2. destruct H2 as [Hc2 Hdr2].
  fold w2 in Hc2, Hdr2.
  destruct (clip_info_handler_frame int_of_str float_of_str t1 (a0 :: cells)
              w1) as (Ht2 & _ & _ & _ & Hkept).
  fold w2 in Ht2, Hkept. destruct (Hkept order) as (Hp2 & Hf2 & _).
  assert (Hfl : flash_until (state_of order w2) !! key
                = Some (t0 + FLASH_DURATION)%Q).
  { rewrite Hf2, Hs1. cbn. by rewrite lookup_insert_eq. }
  assert (Hhas : has_key deck key = true).
  { unfold has_key. apply andb_true_iff. rewrite Z.leb_le, Z.ltb_lt. lia. }
  split; [exact Hdr2 |]. split; [exact Hc2 |]. split.
  - intros Hle. subst w3.
    rewrite (key_released_late t2 _ deck order key w2 Hfl Hle). cbv zeta.
    unfold restore_key_image.
    match goal with
    | |- context [redraw_key ?d ?k ?s ?m ?me ?x] =>
        destruct (images_redraw_key d k s m me x)
          as (img & Hi & I1 & I2 & _ & _ & I3 & I4)
    end.
    rewrite Hhas in Hi. cbn [key_states set_flash_until set_pressed_keys] in I3, I4.
    unfold cache in Hc2. rewrite Hc2 in I3, I4.
    exists img. split; [| done].
    rewrite (drawn_images key _ _ _ Hi). cbn [List.filter snd].
    rewrite I1, Z.eqb_refl. f_equal.
    unfold drawn. cbn [images put_state set_deck_states].
    by rewrite images_init.
  - intros Hlt. subst w3.
    rewrite (key_released_early t2 _ deck order key w2 Hfl Hlt).
    split.
    { unfold drawn. cbn [images set_timers put_state set_deck_states].
      by rewrite images_init. }
    eexists. split;
      [cbn [timers set_timers put_state set_deck_states];
       rewrite Ht2, Ht1; reflexivity |].
    split; [cbn; ring |].
    destruct t as [[label color] prog].
    destruct (HardwareProofs.flash_restore_draws_current_cache key deck order
                (set_timers
                   (timers w2 ++
                    [((t2 + (t0 + FLASH_DURATION - t2))%Q,
                      FlashRestore key deck order)])
                   (put_state order
                      (set_pressed_keys
                         (pressed_keys (state_of order w2) ∖ {[key]})
                         (state_of order w2))
                      (init_cs_state order w2)))
                label color prog ltac:(lia))
      as (img & Hdr & Hlab & Hcol).
    { unfold cache, state_of.
      cbn [deck_states set_timers put_state set_deck_states].
      rewrite lookup_insert_eq. cbn [default key_states set_pressed_keys].
      exact Hc2. }
    exists img. split; [exact Hdr |]. split; [exact Hlab |].
    rewrite Hcol. cbn [fst snd].
    destruct (Z.eqb_spec color 0) as [-> | _]; reflexivity.
Qed.


(** *** Clearing a unit *)

Lemma range_has_key (d : Deck) :
  Forall (fun k => has_key d k = true) (Py.range (Z.to_nat (key_count d))).
Proof.
  unfold Py.range. apply List.Forall_forall. intros k Hin.
  apply List.in_map_iff in Hin as (n & <- & Hn). apply List.in_seq in Hn.
  unfold has_key. apply andb_true_iff. rewrite Z.leb_le, Z.ltb_lt. lia.
Qed.

Lemma images_clear_keys (d : Deck) (w : World) :
  images (clear_keys d w)
  = images w ++
    List.map (fun k => (serial_number d, blank_image k))
      (Py.range (Z.to_nat (key_count d))).
Proof.
  unfold clear_keys. pose proof (range_has_key d) as H. revert w H.
  generalize (Py.range (Z.to_nat (key_count d))). intros l.
  induction l as [| k l IH]; intros w H; cbn [List.fold_left List.map].
  - by rewrite app_nil_r.
  - inversion H as [| ? ? Hk Hl]; subst. rewrite IH by exact Hl.
    rewrite images_update_key_image, Hk. by rewrite <- app_assoc.
Qed.

Lemma clear_keys_world (d : Deck) (w : World) :
  let w' := clear_keys d w in
  deck_states w' = deck_states w /\
  timers w' = timers w /\
  osc_out w' = osc_out w /\
  order_to_deck w' = order_to_deck w /\
  config_decks w' = config_decks w /\
  config_scroll_mode w' = config_scroll_mode w /\
  debug_mode w' = debug_mode w.
Proof.
  unfold clear_keys. generalize (Py.range (Z.to_nat (key_count d))).
  intros l. revert w. induction l as [| k l IH]; intros w; [done |].
  cbn [List.fold_left].
  destruct (IH (update_key_image d k EmptyString (0, 0, 0) None None None
                  false None false w)) as (-> & -> & -> & -> & -> & -> & ->).
  apply update_key_image_frame.
Qed.

(** The blank of key [i] among the blanks of a whole unit. *)
Lemma filter_blanks (ser : string) (i : Z) (n : nat) :
  0 <= i < Z.of_nat n ->
  List.filter (fun e : string * image => img_key e.2 =? i)
    (List.map (fun k => (ser, blank_image k)) (Py.range n))
  = [(ser, blank_image i)].
Proof.
  unfold Py.range.
  assert (H : forall s, (Z.of_nat s <= i < Z.of_nat (s + n)) ->
    List.filter (fun e : string * image => img_key e.2 =? i)
      (List.map (fun k => (ser, blank_image k))
         (List.map Z.of_nat (List.seq s n)))
    = [(ser, blank_image i)]).
  { induction n as [| n IH]; intros s Hs; [lia |].
    cbn [List.seq List.map List.filter snd img_key blank_image].
    destruct (Z.eqb_spec (Z.of_nat s) i) as [<- | Hne].
    - f_equal.
      assert (G : forall m s', (s < s')%nat ->
        List.filter (fun e : string * image => img_key e.2 =? Z.of_nat s)
          (List.map (fun k => (ser, blank_image k))
             (List.map Z.of_nat (List.seq s' m))) = []).
      { clear. induction m as [| m IH]; intros s' Hs; [done |].
        cbn [List.seq List.map List.filter snd img_key blank_image].
        destruct (Z.eqb_spec (Z.of_nat s') (Z.of_nat s)); [lia |].
        apply IH. lia. }
      apply G. lia.
    - apply IH. lia. }
  intros Hi. apply (H 0%nat). lia.
Qed.

Section Closing.

Variable int_of_str : string -> option Z.

(** X12: [/document_closing] empties the cache of its window, resets the
    heartbeat to "never" and the waiting flag, keeps every other field of
    the record, blanks every key of the window's unit, starts no timer and
    sends nothing; and from then on no liveness check changes anything
    for the window, whatever the time. *)
Theorem document_closing_clears_window (args : list osc_arg) (order : Z)
  (w : World) :
  order_or_zero int_of_str args = Some order ->
  let st := state_of order w in
  let r := osc_document_closing_handler int_of_str args w in
  r.2 = Returned /\
  state_of order r.1
  = set_waiting_cleared false (set_last_ablonline 0 (set_key_states ∅ st)) /\
  images r.1
  = images w ++
    match get_deck_for_cs order w with
    | Some deck =>
        List.map (fun k => (serial_number deck, blank_image k))
          (Py.range (Z.to_nat (key_count deck)))
    | None => []
    end /\
  timers r.1 = timers w /\ osc_out r.1 = osc_out w /\
  forall t, monitor_order t r.1 order = r.1.
Proof.
  intros Ha. cbv zeta. unfold osc_document_closing_handler, get_cs_state.
  rewrite Ha. cbn [fst snd]. rewrite HardwareProofs.deck_of_init.
  rewrite HardwareProofs.state_of_put, HardwareProofs.state_of_init.
  split; [done |]. split; [done |].
  set (st' := set_waiting_cleared false _).
  set (w1 := match get_deck_for_cs order w with
             | Some deck => clear_keys deck (init_cs_state order w)
             | None => init_cs_state order w
             end).
  assert (H1 : images w1
               = images w ++
                 match get_deck_for_cs order w with
                 | Some deck =>
                     List.map (fun k => (serial_number deck, blank_image k))
                       (Py.range (Z.to_nat (key_count deck)))
                 | None => []
                 end /\
               timers w1 = timers w /\ osc_out w1 = osc_out w).
  { subst w1. destruct (get_deck_for_cs order w) as [deck |].
    - rewrite images_clear_keys.
      destruct (clear_keys_world deck (init_cs_state order w))
        as (_ & -> & -> & _).
      by rewrite images_init, timers_init, osc_out_init.
    - by rewrite images_init, timers_init, osc_out_init, app_nil_r. }
  destruct H1 as (Hi & Ht & Ho).
  cbn [images timers osc_out put_state set_deck_states].
  do 3 (split; [done |]).
  intros t. unfold monitor_order, get_cs_state.
  assert (Hinit : init_cs_state order (put_state order st' w1)
                  = put_state order st' w1).
  { unfold init_cs_state, put_state. cbn [deck_states set_deck_states].
    by rewrite lookup_insert_eq. }
  rewrite Hinit, HardwareProofs.state_of_put.
  destruct (get_deck_for_cs order (put_state order st' w1)); done.
Qed.

End Closing.

(** *** The offline monitor *)

Lemma monitor_order_world (t : Q) (order : Z) (deck : Deck) (w : World) :
  get_deck_for_cs order w = Some deck ->
  let st := state_of order w in
  monitor_order t w order
  = if goes_offline st t then
      update_key_image deck 0 "Ableton Offline" (255, 80, 0) None None None
        false None false
        (clear_keys deck
           (put_state order
              (set_waiting_cleared false (set_ableton_offline true st))
              (init_cs_state order w)))
    else init_cs_state order w.
Proof.
  intros Hd. unfold monitor_order, get_cs_state.
  rewrite HardwareProofs.deck_of_init, Hd, HardwareProofs.state_of_init.
  cbv zeta. unfold goes_offline. destruct (_ && _); [| done].
  by destruct (negb _).
Qed.

(** The effect of the liveness check of a configured window. *)
Lemma monitor_order_effect (t : Q) (order : Z) (deck : Deck) (w : World) :
  get_deck_for_cs order w = Some deck ->
  let st := state_of order w in
  let w' := monitor_order t w order in
  state_of order w'
  = (if goes_offline st t
     then set_waiting_cleared false (set_ableton_offline true st)
     else st) /\
  images w'
  = images w ++
    (if goes_offline st t
     then List.map (fun k => (serial_number deck, blank_image k))
            (Py.range (Z.to_nat (key_count deck)))
          ++ (if has_key deck 0
              then [(serial_number deck,
                     notice_image "Ableton Offline" (255, 80, 0))]
              else [])
     else []) /\
  timers w' = timers w /\ osc_out w' = osc_out w /\
  order_to_deck w' = order_to_deck w.
Proof.
  intros Hd. cbv zeta.
  rewrite (monitor_order_world t order deck w Hd). cbv zeta.
  set (st := state_of order w).
  destruct (goes_offline st t) eqn:Hgo.
  - set (w1 := put_state order
                 (set_waiting_cleared false (set_ableton_offline true st))
                 (init_cs_state order w)).
    rewrite HardwareProofs.state_of_update_key_image,
      images_update_key_image, images_clear_keys, timers_update_key_image,
      osc_out_update_key_image.
    rewrite (proj1 (proj2 (proj2 (proj2 (update_key_image_frame _ _ _ _ _ _ _
               _ _ _ _))))).
    destruct (HardwareProofs.clear_keys_frame order deck w1) as [-> _].
    destruct (clear_keys_world deck w1) as (_ & -> & -> & -> & _).
    subst w1. rewrite HardwareProofs.state_of_put.
    cbn [images timers osc_out order_to_deck put_state set_deck_states].
    rewrite images_init, timers_init, osc_out_init, order_to_deck_init.
    by rewrite <- app_assoc.
  - by rewrite HardwareProofs.state_of_init, images_init, timers_init,
      osc_out_init, order_to_deck_init, app_nil_r.
Qed.

(** X13: the liveness check of a configured window.  When the heartbeat
    has timed out and the window is not yet offline, the window is marked
    offline, its waiting flag is reset, every key of its unit is blanked
    and the notice is drawn on key 0, while the cache keeps its entries;
    in every other case nothing is drawn and the record stays.  Once the
    window is offline a further check at any time changes nothing. *)
Theorem offline_transition_is_drawn_once (t : Q) (order : Z) (deck : Deck)
  (w : World) :
  get_deck_for_cs order w = Some deck ->
  let st := state_of order w in
  let w' := monitor_order t w order in
  state_of order w'
  = (if goes_offline st t
     then set_waiting_cleared false (set_ableton_offline true st)
     else st) /\
  images w'
  = images w ++
    (if goes_offline st t
     then List.map (fun k => (serial_number deck, blank_image k))
            (Py.range (Z.to_nat (key_count deck)))
          ++ (if has_key deck 0
              then [(serial_number deck,
                     notice_image "Ableton Offline" (255, 80, 0))]
              else [])
     else []) /\
  timers w' = timers w /\ osc_out w' = osc_out w /\
  (ableton_offline (state_of order w') = true ->
   forall t', state_of order (monitor_order t' w' order) = state_of order w' /\
              images (monitor_order t' w' order) = images w').
Proof.
  intros Hd. cbv zeta.
  destruct (monitor_order_effect t order deck w Hd) as (Hs & Hi & Ht & Ho & Hk).
  do 4 (split; [assumption |]). intros Hoff t'.
  assert (Hd' : get_deck_for_cs order (monitor_order t w order) = Some deck)
    by (unfold get_deck_for_cs; by rewrite Hk).
  destruct (monitor_order_effect t' order deck _ Hd') as (Hs' & Hi' & _).
  cbv zeta in Hs', Hi'. unfold goes_offline in Hs', Hi'.
  rewrite Hoff, andb_false_r in Hs', Hi'.
  split; [exact Hs' | by rewrite Hi', app_nil_r].
Qed.

(** X14: the offline transition blanks the keys and keeps the cache, and
    a snapshot redraws only cells that differ from the cache.  So when a
    window went offline and the next snapshot carries, for a key that is
    not flashing, the cell the cache already holds, the window is online
    again and the key still shows what the transition drew: the notice on
    key 0, a blank elsewhere. *)
Theorem snapshot_after_offline_skips_cached_cells
  (int_of_str : string -> option Z) (float_of_str : string -> option spec_float)
  (t t1 : Q) (order : Z) (deck : Deck) (a0 : osc_arg)
  (cells : list osc_arg) (w : World) (i : Z) (info : string)
  (c : key_state) :
  Osc.py_int int_of_str a0 = Some order ->
  get_deck_for_cs order w = Some deck ->
  0 <= i < 32 -> i < key_count deck ->
  Forall (fun c => exists s, c = OStr s) cells ->
  cells !! Z.to_nat i = Some (OStr info) ->
  parse_cell int_of_str float_of_str info = Some c ->
  goes_offline (state_of order w) t = true ->
  cached_is (cache order i w) c = true ->
  ~ held_or_flashing (state_of order w) t1 i ->
  let w1 := monitor_order t w order in
  let w2 := (osc_clip_info_handler int_of_str float_of_str t1 (a0 :: cells)
               w1).1 in
  ableton_offline (state_of order w1) = true /\
  ableton_offline (state_of order w2) = false /\
  drawn i w2 = drawn i w1 /\
  last (drawn i w1)
  = Some (serial_number deck,
          if i =? 0 then notice_image "Ableton Offline" (255, 80, 0)
          else blank_image i).
Proof.
  intros Ha Hd Hi Hkc Hall Hl Hp Hgo Hcached Hfree w1 w2.
  destruct (monitor_order_effect t order deck w Hd) as (Hs & Him & _ & _ & Hk).
  fold w1 in Hs, Him, Hk. cbv zeta in Hs, Him. rewrite Hgo in Hs, Him.
  assert (Hd1 : get_deck_for_cs order w1 = Some deck)
    by (unfold get_deck_for_cs; by rewrite Hk).
  assert (Hne : cells <> []) by (intros ->; done).
  destruct (HardwareProofs.clip_info_heartbeat int_of_str float_of_str t1 a0
              cells order deck w1 Ha Hd1 Hne) as [_ Hon]. fold w2 in Hon.
  pose proof (clip_info_at_key int_of_str float_of_str t1 order deck a0 cells
                w1 i info c Ha Hd1 Hi Hall Hl Hp) as H2.
  cbv zeta in H2. fold w2 in H2.
  assert (Hfl : is_flashing (pressed_keys (state_of order w1))
                  (flash_until (state_of order w1)) t1 i = false).
  { rewrite Hs. cbn [pressed_keys flash_until set_waiting_cleared
                     set_ableton_offline].
    apply not_true_is_false. intros Hf. apply Hfree.
    by apply HardwareProofs.is_flashing_iff. }
  assert (Hc1 : cache order i w1 = cache order i w)
    by (unfold cache; by rewrite Hs).
  rewrite Hfl, Hc1, Hcached in H2. destruct H2 as [_ Hdr].
  split; [by rewrite Hs |]. split; [exact Hon |]. split; [exact Hdr |].
  rewrite (drawn_images i w w1 _ Him), List.filter_app.
  rewrite filter_blanks by lia.
  unfold has_key. replace (0 <? key_count deck) with true
    by (symmetry; apply Z.ltb_lt; lia).
  change ((0 <=? 0) && true) with true. cbv iota.
  cbn [List.filter snd notice_image img_key].
  destruct (Z.eqb_spec 0 i) as [<- | Hne0].
  - rewrite !app_assoc. by rewrite last_snoc.
  - replace (i =? 0) with false by (symmetry; apply Z.eqb_neq; lia).
    rewrite app_nil_r. by rewrite last_snoc.
Qed.


(** *** Heartbeats and the notices on key 0 *)

Section Notices.

Variable int_of_str : string -> option Z.

(** What [/ablonline] does to a configured window. *)
Lemma ablonline_effect (now : Q) (args : list osc_arg) (order : Z)
  (deck : Deck) (w : World) :
  order_or_zero int_of_str args = Some order ->
  get_deck_for_cs order w = Some deck ->
  let st := state_of order w in
  let r := osc_ablonline_handler int_of_str now args w in
  r.2 = Returned /\
  waiting_cleared (state_of order r.1) = true /\
  key_states (state_of order r.1) = key_states st /\
  structural_mismatch (state_of order r.1) = structural_mismatch st /\
  order_to_deck r.1 = order_to_deck w /\
  images r.1
  = images w ++
    if waiting_cleared st then []
    else if has_key deck 0 then
      [(serial_number deck,
        mkImage 0 EmptyString (0, 0, 0) None None (Some (stopped_keys st))
          false None false)]
    else [].
Proof.
  intros Ha Hd. cbv zeta. unfold osc_ablonline_handler, get_cs_state.
  rewrite Ha, HardwareProofs.deck_of_init, Hd, HardwareProofs.state_of_init.
  set (st := state_of order w).
  set (st1 := if ableton_offline (set_last_ablonline now st)
              then set_ableton_offline false (set_last_ablonline now st)
              else set_last_ablonline now st).
  assert (E : waiting_cleared st1 = waiting_cleared st /\
              key_states st1 = key_states st /\
              structural_mismatch st1 = structural_mismatch st /\
              stopped_keys st1 = stopped_keys st).
  { subst st1. by destruct (ableton_offline (set_last_ablonline now st)). }
  destruct E as (E1 & E2 & E3 & E4). rewrite E1, E4.
  destruct (waiting_cleared st) eqn:Hw; cbn [negb fst snd].
  - rewrite HardwareProofs.state_of_put.
    cbn [order_to_deck images put_state set_deck_states].
    rewrite order_to_deck_init, images_init, app_nil_r. by rewrite E1.
  - rewrite HardwareProofs.state_of_put.
    cbn [order_to_deck images put_state set_deck_states waiting_cleared
         key_states structural_mismatch set_waiting_cleared].
    rewrite images_update_key_image.
    rewrite (proj1 (proj2 (proj2 (proj2 (update_key_image_frame _ _ _ _ _ _ _
               _ _ _ _))))).
    cbn [order_to_deck images put_state set_deck_states].
    by rewrite order_to_deck_init, images_init.
Qed.

(** X15: [/ablonline] for a configured window draws at most one image:
    a blank on key 0, and only when the waiting flag was not set.  It
    sets the flag, keeps the cache, and a further [/ablonline] draws
    nothing. *)
Theorem heartbeat_blanks_key_zero_once (now now' : Q)
  (args args' : list osc_arg) (order : Z) (deck : Deck) (w : World) :
  order_or_zero int_of_str args = Some order ->
  order_or_zero int_of_str args' = Some order ->
  get_deck_for_cs order w = Some deck ->
  let st := state_of order w in
  let r := osc_ablonline_handler int_of_str now args w in
  let r' := osc_ablonline_handler int_of_str now' args' r.1 in
  (exists img,
     images r.1
     = images w ++
       (if waiting_cleared st || negb (has_key deck 0) then []
        else [(serial_number deck, img)]) /\
     img_key img = 0 /\ img_label img = EmptyString /\
     img_color img = (0, 0, 0)) /\
  waiting_cleared (state_of order r.1) = true /\
  key_states (state_of order r.1) = key_states st /\
  images r'.1 = images r.1.
Proof.
  intros Ha Ha' Hd. cbv zeta.
  destruct (ablonline_effect now args order deck w Ha Hd)
    as (_ & Hw & Hk & _ & Ho & Hi).
  split.
  { exists (mkImage 0 EmptyString (0, 0, 0) None None
              (Some (stopped_keys (state_of order w))) false None false).
    split; [| done]. rewrite Hi.
    by destruct (waiting_cleared (state_of order w)), (has_key deck 0). }
  do 2 (split; [assumption |]).
  assert (Hd' : get_deck_for_cs order
                  (osc_ablonline_handler int_of_str now args w).1 = Some deck)
    by (unfold get_deck_for_cs; by rewrite Ho).
  destruct (ablonline_effect now' args' order deck _ Ha' Hd')
    as (_ & _ & _ & _ & _ & Hi').
  rewrite Hi', Hw. by rewrite app_nil_r.
Qed.

(** What [/structural_mismatch] does to a configured window. *)
Lemma mismatch_effect (a0 a1 : osc_arg) (rest : list osc_arg) (order : Z)
  (deck : Deck) (w : World) :
  Osc.py_int int_of_str a0 = Some order ->
  get_deck_for_cs order w = Some deck ->
  let st := state_of order w in
  let r := osc_structural_mismatch_handler int_of_str (a0 :: a1 :: rest) w in
  r.2 = Returned /\
  state_of order r.1
  = set_waiting_cleared (Osc.py_bool a1)
      (set_structural_mismatch (Osc.py_bool a1) st) /\
  order_to_deck r.1 = order_to_deck w /\
  images r.1
  = images w ++
    if has_key deck 0 then
      [(serial_number deck,
        if Osc.py_bool a1
        then notice_image "Wrong Channel Number" (255, 125, 0)
        else blank_image 0)]
    else [].
Proof.
  intros Ha Hd. cbv zeta.
  unfold osc_structural_mismatch_handler, get_cs_state.
  rewrite Ha, HardwareProofs.deck_of_init, Hd, HardwareProofs.state_of_init.
  destruct (Osc.py_bool a1); cbn [fst snd];
    rewrite HardwareProofs.state_of_put;
    cbn [order_to_deck images put_state set_deck_states];
    rewrite images_update_key_image;
    rewrite (proj1 (proj2 (proj2 (proj2 (update_key_image_frame _ _ _ _ _ _ _
               _ _ _ _)))));
    cbn [order_to_deck images put_state set_deck_states];
    by rewrite order_to_deck_init, images_init.
Qed.

(** X16: [/structural_mismatch] for a configured window stores the flag,
    draws the notice on key 0 when the flag is set and a blank when it is
    cleared, leaves the heartbeat and the offline flag as they are, and
    sets the waiting flag with the notice: a heartbeat that follows the
    notice draws nothing over it. *)
Theorem mismatch_notice_survives_heartbeat (now : Q) (a0 a1 : osc_arg)
  (rest args : list osc_arg) (order : Z) (deck : Deck) (w : World) :
  Osc.py_int int_of_str a0 = Some order ->
  order_or_zero int_of_str args = Some order ->
  get_deck_for_cs order w = Some deck ->
  let st := state_of order w in
  let r := osc_structural_mismatch_handler int_of_str (a0 :: a1 :: rest) w in
  let st' := state_of order r.1 in
  structural_mismatch st' = Osc.py_bool a1 /\
  waiting_cleared st' = Osc.py_bool a1 /\
  last_ablonline st' = last_ablonline st /\
  ableton_offline st' = ableton_offline st /\
  images r.1
  = images w ++
    (if has_key deck 0 then
       [(serial_number deck,
         if Osc.py_bool a1
         then notice_image "Wrong Channel Number" (255, 125, 0)
         else blank_image 0)]
     else []) /\
  (Osc.py_bool a1 = true ->
   images (osc_ablonline_handler int_of_str now args r.1).1 = images r.1).
Proof.
  intros Ha Ha' Hd. cbv zeta.
  destruct (mismatch_effect a0 a1 rest order deck w Ha Hd)
    as (_ & Hs & Ho & Hi).
  rewrite Hs. do 4 (split; [done |]). split; [exact Hi |]. intros Hshow.
  assert (Hd' : get_deck_for_cs order
                  (osc_structural_mismatch_handler int_of_str
                     (a0 :: a1 :: rest) w).1 = Some deck)
    by (unfold get_deck_for_cs; by rewrite Ho).
  destruct (ablonline_effect now args order deck _ Ha' Hd')
    as (_ & _ & _ & _ & _ & Hi').
  rewrite Hi', Hs. cbn [waiting_cleared set_waiting_cleared].
  by rewrite Hshow, app_nil_r.
Qed.

End Notices.


(** *** Stopped tracks *)

(** The background of the image [/track_stopped] draws for a key whose
    captured values are [v]. *)
Local Abbreviation stop_fill v :=
  (match snd v with
   | Some p =>
       if SFleb (Float.of_Z 0) p && SFleb p (Float.of_Z 1)
       then Adjusted (snd (fst v))
       else Fill (255, 0, 0)
   | None => Fill (255, 0, 0)
   end).

Lemma track_stopped_key_world (now : Q) (deck : Deck) (order track : Z)
  (dt : Q) (w : World) (scene : Z) :
  let key := scene * 8 + track in
  let st := state_of order w in
  let v := stop_values st key in
  let st' := set_stopped_keys ({[key]} ∪ stopped_keys st) st in
  track_stopped_key now deck order track dt w scene
  = set_timers
      (timers w ++ [((now + dt)%Q, StopRestore key v.1.1 v.1.2 v.2 deck order)])
      (update_key_image deck key v.1.1 v.1.2 v.2 (Some (255, 0, 0))
         (Some (stopped_keys st')) false None false
         (put_state order st' w)).
Proof.
  cbv zeta. unfold track_stopped_key, stop_values.
  destruct (key_states (state_of order w) !! (scene * 8 + track))
    as [[[l c] p] |]; cbn [fst snd];
    by rewrite timers_update_key_image.
Qed.

Lemma stop_image_fill (key : Z) (l : string) (c : rgb)
  (p : option spec_float) (sk : gset Z) :
  background_fill
    (mkImage key l c p (Some (255, 0, 0)) (Some ({[key]} ∪ sk)) false None
       false)
  = stop_fill (l, c, p).
Proof.
  unfold background_fill.
  cbn [img_flash img_background img_progress img_stopped_keys img_key
       img_color fmap option_fmap option_map fst snd].
  destruct p as [p |]; [| reflexivity].
  rewrite bool_decide_eq_true_2
    by (apply elem_of_union; left; by apply elem_of_singleton).
  by destruct (SFeqb p (Float.of_Z (-2))),
       (SFleb (Float.of_Z 0) p && SFleb p (Float.of_Z 1)).
Qed.

(** The loop over the scenes in [osc_track_stopped_handler]. *)
Lemma track_stopped_fold (now : Q) (deck : Deck) (order track : Z) (dt : Q)
  (scenes : list Z) (w : World) :
  let keys := List.map (fun scene => scene * 8 + track) scenes in
  let st := state_of order w in
  let w' :=
    List.fold_left (track_stopped_key now deck order track dt) scenes w in
  state_of order w'
  = set_stopped_keys (list_to_set keys ∪ stopped_keys st) st /\
  timers w'
  = timers w ++
    List.map
      (fun key =>
         ((now + dt)%Q,
          StopRestore key (stop_values st key).1.1 (stop_values st key).1.2
            (stop_values st key).2 deck order)) keys /\
  osc_out w' = osc_out w /\
  order_to_deck w' = order_to_deck w /\
  exists imgs,
    images w' = images w ++ imgs /\
    List.map (fun e : string * image => img_key e.2) imgs
    = List.filter (has_key deck) keys /\
    Forall
      (fun e : string * image =>
         e.1 = serial_number deck /\
         img_label e.2 = (stop_values st (img_key e.2)).1.1 /\
         img_color e.2 = (stop_values st (img_key e.2)).1.2 /\
         img_flash e.2 = false /\
         background_fill e.2 = stop_fill (stop_values st (img_key e.2)))
      imgs.
Proof.
  revert w. induction scenes as [| scene scenes IH]; intros w.
  - cbn. rewrite !app_nil_r. split.
    { rewrite (left_id_L ∅ (∪)). by destruct (state_of order w). }
    do 3 (split; [done |]). exists []. by rewrite app_nil_r.
  - cbn [List.fold_left List.map].
    rewrite track_stopped_key_world. cbv zeta.
    set (key := scene * 8 + track).
    set (st := state_of order w).
    set (st1 := set_stopped_keys ({[key]} ∪ stopped_keys st) st).
    set (w1 := set_timers _ _).
    assert (Hs1 : state_of order w1 = st1).
    { subst w1. unfold state_of. cbn [deck_states set_timers].
      rewrite (proj1 (update_key_image_frame _ _ _ _ _ _ _ _ _ _ _)).
      cbn [deck_states put_state set_deck_states].
      by rewrite lookup_insert_eq. }
    specialize (IH w1). cbv zeta in IH. rewrite Hs1 in IH.
    destruct IH as (I1 & I2 & I3 & I4 & imgs & I5 & I6 & I7).
    split.
    { rewrite I1. subst st1. unfold set_stopped_keys.
      cbn [key_states stopped_keys last_ablonline waiting_cleared
           structural_mismatch pressed_keys flash_until menu_active
           ableton_offline list_to_set].
      f_equal. rewrite (assoc_L (∪)). f_equal. apply (comm_L (∪)). }
    split.
    { rewrite I2. subst w1. cbn [timers set_timers].
      by rewrite <- app_assoc. }
    split.
    { rewrite I3. subst w1. cbn [osc_out set_timers].
      by rewrite osc_out_update_key_image. }
    split.
    { rewrite I4. subst w1. cbn [order_to_deck set_timers].
      by rewrite (proj1 (proj2 (proj2 (proj2 (update_key_image_frame _ _ _ _
                    _ _ _ _ _ _ _))))). }
    assert (Him : images w1
                  = images w ++
                    if has_key deck key then
                      [(serial_number deck,
                        mkImage key (stop_values st key).1.1
                          (stop_values st key).1.2 (stop_values st key).2
                          (Some (255, 0, 0))
                          (Some ({[key]} ∪ stopped_keys st)) false None
                          false)]
                    else []).
    { subst w1. cbn [images set_timers].
      by rewrite images_update_key_image. }
    rewrite I5, Him, <- app_assoc. eexists. split; [reflexivity |].
    cbn [List.filter]. destruct (has_key deck key); cbn [app List.map].
    + split; [by rewrite I6 |]. constructor.
      * cbn [fst snd img_key img_label img_color img_flash].
        do 4 (split; [done |]).
        rewrite stop_image_fill. by destruct (stop_values st key) as [[? ?] ?].
      * exact I7.
    + split; [exact I6 |]. exact I7.
Qed.


(** The restores of a list of keys clear their stop marks. *)
Lemma run_stop_restores (order : Z) (deck : Deck) (due : Q)
  (v : Z -> string * rgb * option spec_float) (keys : list Z) (w : World) :
  let w' :=
    List.fold_left (fun w (e : Q * timer) => run_timer e.2 w)
      (List.map
         (fun key =>
            (due, StopRestore key (v key).1.1 (v key).1.2 (v key).2 deck
                    order)) keys) w in
  stopped_keys (state_of order w')
  = stopped_keys (state_of order w) ∖ list_to_set keys /\
  key_states (state_of order w') = key_states (state_of order w).
Proof.
  revert w. induction keys as [| key keys IH]; intros w.
  - cbn [List.map List.fold_left list_to_set]. split; [| done].
    by rewrite difference_empty_L.
  - cbn [List.map List.fold_left snd]. cbv zeta in IH.
    destruct (IH (run_timer
                    (StopRestore key (v key).1.1 (v key).1.2 (v key).2 deck
                       order) w)) as [-> ->].
    unfold run_timer. rewrite HardwareProofs.state_of_update_key_image,
      HardwareProofs.state_of_put.
    cbn [stopped_keys key_states set_stopped_keys list_to_set].
    split; [| done]. apply set_eq. intros x.
    rewrite !elem_of_difference, elem_of_union, elem_of_singleton. tauto.
Qed.

Section Stopped.

Variable int_of_str : string -> option Z.

(** What [/track_stopped] does to a configured window. *)
Lemma track_stopped_effect (now : Q) (a0 a1 a2 : osc_arg)
  (rest : list osc_arg) (order track : Z) (deck : Deck) (w : World) :
  Osc.py_int int_of_str a0 = Some order ->
  Osc.py_int int_of_str a1 = Some track ->
  get_deck_for_cs order w = Some deck ->
  let st := state_of order w in
  let r :=
    osc_track_stopped_handler int_of_str now (a0 :: a1 :: a2 :: rest) w in
  let due := (now + (if Osc.py_bool a2 then 4 else 1 # 2))%Q in
  let restores :=
    List.map
      (fun key =>
         (due,
          StopRestore key (stop_values st key).1.1 (stop_values st key).1.2
            (stop_values st key).2 deck order)) (column_keys track) in
  r.1
  = List.fold_left
      (track_stopped_key now deck order track
         (if Osc.py_bool a2 then 4 else 1 # 2)%Q)
      (Py.range 4) (init_cs_state order w) /\
  r.2 = Returned /\
  state_of order r.1
  = set_stopped_keys (list_to_set (column_keys track) ∪ stopped_keys st) st /\
  timers r.1 = timers w ++ restores /\
  osc_out r.1 = osc_out w /\
  exists imgs,
    images r.1 = images w ++ imgs /\
    List.map (fun e : string * image => img_key e.2) imgs
    = List.filter (has_key deck) (column_keys track) /\
    Forall
      (fun e : string * image =>
         e.1 = serial_number deck /\
         img_label e.2 = (stop_values st (img_key e.2)).1.1 /\
         img_color e.2 = (stop_values st (img_key e.2)).1.2 /\
         img_flash e.2 = false /\
         background_fill e.2 = stop_fill (stop_values st (img_key e.2)))
      imgs.
Proof.
  intros Ha0 Ha1 Hd. cbv zeta.
  unfold osc_track_stopped_handler, get_cs_state.
  rewrite Ha0, Ha1, HardwareProofs.deck_of_init, Hd. cbn [fst snd].
  set (dt := if Osc.py_bool a2 then 4%Q else (1 # 2)%Q).
  destruct (track_stopped_fold now deck order track dt (Py.range 4)
              (init_cs_state order w))
    as (Hs & Ht & Ho & _ & imgs & Hi & Hk & Hall).
  rewrite HardwareProofs.state_of_init in Hs, Ht, Hall.
  rewrite timers_init in Ht. rewrite osc_out_init in Ho.
  rewrite images_init in Hi. fold (column_keys track) in Hs, Ht, Hk.
  do 2 (split; [done |]). split; [exact Hs |]. split; [exact Ht |].
  split; [exact Ho |]. by exists imgs.
Qed.

(** X17: [/track_stopped] for a configured window marks the four keys of
    the column as stopped and keeps the cache; on each of those keys the
    unit has it draws one image with the cached label and colour on a
    red background (on the dimmed clip colour when the cached progress
    lies in 0..1); it schedules one restore per key, 4 s later when the
    track was playing and 0.5 s later otherwise; and once these restores
    have run none of the four keys is marked any more. *)
Theorem track_stopped_marks_column (now : Q) (a0 a1 a2 : osc_arg)
  (rest : list osc_arg) (order track : Z) (deck : Deck) (w : World) :
  Osc.py_int int_of_str a0 = Some order ->
  Osc.py_int int_of_str a1 = Some track ->
  get_deck_for_cs order w = Some deck ->
  let st := state_of order w in
  let r :=
    osc_track_stopped_handler int_of_str now (a0 :: a1 :: a2 :: rest) w in
  let due := (now + (if Osc.py_bool a2 then 4 else 1 # 2))%Q in
  let restores :=
    List.map
      (fun key =>
         (due,
          StopRestore key (stop_values st key).1.1 (stop_values st key).1.2
            (stop_values st key).2 deck order)) (column_keys track) in
  r.2 = Returned /\
  stopped_keys (state_of order r.1)
  = list_to_set (column_keys track) ∪ stopped_keys st /\
  key_states (state_of order r.1) = key_states st /\
  timers r.1 = timers w ++ restores /\
  osc_out r.1 = osc_out w /\
  (exists imgs,
     images r.1 = images w ++ imgs /\
     List.map (fun e : string * image => img_key e.2) imgs
     = List.filter (has_key deck) (column_keys track) /\
     Forall
       (fun e : string * image =>
          e.1 = serial_number deck /\
          img_label e.2 = (stop_values st (img_key e.2)).1.1 /\
          img_color e.2 = (stop_values st (img_key e.2)).1.2 /\
          img_flash e.2 = false /\
          background_fill e.2 = stop_fill (stop_values st (img_key e.2)))
       imgs) /\
  stopped_keys
    (state_of order
       (List.fold_left (fun w (e : Q * timer) => run_timer e.2 w) restores
          r.1))
  = stopped_keys st ∖ list_to_set (column_keys track).
Proof.
  intros Ha0 Ha1 Hd. cbv zeta.
  destruct (track_stopped_effect now a0 a1 a2 rest order track deck w Ha0 Ha1
              Hd) as (_ & Hr & Hs & Ht & Ho & Hi).
  split; [exact Hr |]. rewrite Hs. do 2 (split; [done |]).
  split; [exact Ht |]. split; [exact Ho |]. split; [exact Hi |].
  destruct (run_stop_restores order deck
              (now + (if Osc.py_bool a2 then 4 else 1 # 2))%Q
              (stop_values (state_of order w)) (column_keys track)
              (osc_track_stopped_handler int_of_str now
                 (a0 :: a1 :: a2 :: rest) w).1) as [Hrun _].
  cbv zeta in Hrun. rewrite Hrun, Hs.
  cbn [stopped_keys set_stopped_keys]. apply set_eq. intros x.
  rewrite !elem_of_difference, elem_of_union. tauto.
Qed.

End Stopped.


(** *** The menu overlay *)

(** What an image redrawn from the record [st] carries. *)
Local Abbreviation redrawn_from st d mode show :=
  (fun e : string * image =>
     fst e = serial_number d /\
     img_menu_active (snd e) = show /\
     img_flash (snd e) = false /\
     img_scroll_mode (snd e) = Some mode /\
     img_label (snd e)
     = match key_states st !! img_key (snd e) with
       | Some t => fst (fst t)
       | None => EmptyString
       end /\
     img_color (snd e)
     = match key_states st !! img_key (snd e) with
       | Some t => ableton_color_to_rgb (snd (fst t))
       | None => (0, 0, 0)
       end).

Lemma redraw_fold (d : Deck) (st : cs_state) (show : bool) (keys : list Z)
  (w : World) :
  let w' :=
    List.fold_left
      (fun w key => redraw_key d key st (scroll_mode w) show w) keys w in
  deck_states w' = deck_states w /\
  timers w' = timers w /\
  osc_out w' = osc_out w /\
  exists imgs,
    images w' = images w ++ imgs /\
    List.map (fun e : string * image => img_key e.2) imgs
    = List.filter (has_key d) keys /\
    Forall (redrawn_from st d (scroll_mode w) show) imgs.
Proof.
  revert w. induction keys as [| key keys IH]; intros w.
  - cbn. do 3 (split; [done |]). exists []. by rewrite app_nil_r.
  - cbn [List.fold_left List.filter]. cbv zeta in IH.
    set (w1 := redraw_key d key st (scroll_mode w) show w).
    destruct (redraw_key_frame d key st (scroll_mode w) show w)
      as (F1 & F2 & F3 & _ & _ & F4 & _). fold w1 in F1, F2, F3, F4.
    destruct (images_redraw_key d key st (scroll_mode w) show w)
      as (img & Hi & I1 & I2 & I3 & I4 & I5 & I6). fold w1 in Hi.
    destruct (IH w1) as (J1 & J2 & J3 & imgs & J4 & J5 & J6).
    assert (Hm : scroll_mode w1 = scroll_mode w)
      by (unfold scroll_mode; by rewrite F4).
    rewrite Hm in J6.
    rewrite J1, J2, J3, J4, Hi, <- app_assoc.
    do 3 (split; [done |]). eexists. split; [reflexivity |].
    destruct (has_key d key); cbn [app List.map snd].
    + split; [by rewrite J5, I1 |]. constructor; [| exact J6].
      cbv beta. cbn [fst snd]. rewrite I1. done.
    + by split.
Qed.

(** X18: a change of the burger key stores the new menu flag, sends
    nothing, starts no timer, keeps the cache, and redraws exactly the
    five overlay keys the unit has, in the order up, down, left, right,
    brightness, each with its cached label and colour and with the menu
    flag of the image equal to the new state of the key. *)
Theorem burger_toggles_menu_overlay (deck : Deck) (order : Z)
  (pressed : bool) (w : World) :
  let st := state_of order w in
  let w' := burger_changed deck order pressed w in
  state_of order w' = set_menu_active pressed st /\
  timers w' = timers w /\
  osc_out w' = osc_out w /\
  exists imgs,
    images w' = images w ++ imgs /\
    List.map (fun e : string * image => img_key e.2) imgs
    = List.filter (has_key deck) menu_keys /\
    Forall (redrawn_from st deck (scroll_mode w) pressed) imgs.
Proof.
  cbv zeta. unfold burger_changed, show_menu_arrows, get_cs_state.
  rewrite !HardwareProofs.state_of_init, HardwareProofs.state_of_put.
  set (st := state_of order w).
  set (w1 := init_cs_state order
               (put_state order (set_menu_active pressed st)
                  (init_cs_state order w))).
  destruct (redraw_fold deck (set_menu_active pressed st) pressed menu_keys
              w1) as (H1 & H2 & H3 & imgs & H4 & H5 & H6).
  fold menu_keys. cbv zeta in H1, H2, H3, H4.
  assert (Hs : state_of order w1 = set_menu_active pressed st).
  { subst w1.
    by rewrite HardwareProofs.state_of_init, HardwareProofs.state_of_put. }
  split; [unfold state_of; rewrite H1; exact Hs |].
  subst w1. rewrite H2, H3, H4.
  rewrite !timers_init, !osc_out_init, !images_init, scroll_mode_init in *.
  cbn [timers osc_out images put_state set_deck_states].
  rewrite timers_init, osc_out_init, images_init.
  do 2 (split; [done |]). exists imgs.
  split; [done |]. split; [exact H5 |].
  unfold scroll_mode in H6 |- *.
  cbn [config_scroll_mode put_state set_deck_states] in H6.
  by rewrite (proj1 (proj2 (proj2 (proj2 (proj2 (proj2
               (init_cs_state_frame order w))))))) in H6.
Qed.


(** *** The brightness key *)

(** The level in force: the current one, else the saved one, else 3. *)
Local Abbreviation level_of d :=
  (default (default 3 (brightness d)) (current_brightness d)).

Lemma brightness_click_short (d : Dimmer) (p : Q * Q) :
  (p.2 - p.1 < 1 # 2)%Q ->
  brightness_key p.2 false true (brightness_key p.1 true false d).1
  = (mkDimmer (brightness d) (Some ((level_of d + 1) mod 11)) None,
     Some ((level_of d + 1) mod 11)).
Proof.
  intros Hs. unfold brightness_key.
  cbn [andb negb fst brightness current_brightness brightness_press_start].
  replace (Qle_bool LONG_PRESS_DURATION (p.2 - p.1)) with false; [done |].
  symmetry. apply not_true_is_false. intros H.
  apply Qle_bool_iff in H. by apply Qle_not_lt in H.
Qed.

Lemma brightness_click_long (d : Dimmer) (p : Q * Q) :
  (1 # 2 <= p.2 - p.1)%Q ->
  brightness_key p.2 false true (brightness_key p.1 true false d).1
  = (mkDimmer (brightness d) (Some (default 3 (brightness d))) None,
     Some (default 3 (brightness d))).
Proof.
  intros Hl. unfold brightness_key.
  cbn [andb negb fst brightness current_brightness brightness_press_start].
  replace (Qle_bool LONG_PRESS_DURATION (p.2 - p.1)) with true; [done |].
  symmetry. by apply Qle_bool_iff.
Qed.

Lemma short_clicks (d : Dimmer) (p : Q * Q) (clicks : list (Q * Q)) :
  Forall (fun p : Q * Q => (p.2 - p.1 < 1 # 2)%Q) (p :: clicks) ->
  List.fold_left brightness_click (p :: clicks) d
  = mkDimmer (brightness d)
      (Some ((level_of d + Z.of_nat (List.length (p :: clicks))) mod 11))
      None.
Proof.
  revert d p. induction clicks as [| q clicks IH]; intros d p Hall;
    inversion Hall as [| ? ? Hp Hrest]; subst.
  - cbn [List.fold_left]. unfold brightness_click.
    by rewrite (brightness_click_short d p Hp).
  - change (List.fold_left brightness_click (p :: q :: clicks) d)
      with (List.fold_left brightness_click (q :: clicks)
              (brightness_click d p)).
    rewrite (IH _ q Hrest). unfold brightness_click.
    rewrite (brightness_click_short d p Hp).
    cbn [fst brightness current_brightness default]. unfold id.
    rewrite Zplus_mod_idemp_l. do 3 f_equal.
    change (List.length (p :: q :: clicks))
      with (S (List.length (q :: clicks))). lia.
Qed.

(** X19: the brightness key while the menu is open.  A release less than
    half a second after the press raises the level in force by one
    modulo 11, so any number of short presses keeps it in 0..10, every
    such level is handed to the units as a percentage in 0..100, and
    eleven short presses bring a level of 0..10 back to itself.  A
    release half a second or more after the press restores the saved
    level.  In both cases the level handed to the units is the stored
    one.  A release without a recorded press changes nothing; in the two
    menu modes a round with the menu closed forgets a recorded press and
    applies nothing, and in the other modes the key has no brightness
    role. *)
Theorem brightness_key_cycles_and_resets (d : Dimmer) :
  (forall p clicks,
     Forall (fun p : Q * Q => (p.2 - p.1 < 1 # 2)%Q) (p :: clicks) ->
     let n := Z.of_nat (List.length (p :: clicks)) in
     let level := (level_of d + n) mod 11 in
     current_brightness (List.fold_left brightness_click (p :: clicks) d)
     = Some level /\
     0 <= level <= 10 /\
     (exists percent,
        set_brightness level = Some percent /\ 0 <= percent <= 100) /\
     (n = 11 -> 0 <= level_of d <= 10 -> level = level_of d)) /\
  (forall p,
     (1 # 2 <= p.2 - p.1)%Q ->
     current_brightness (brightness_click d p)
     = Some (default 3 (brightness d))) /\
  (forall p,
     (brightness_key p.2 false true (brightness_key p.1 true false d).1).2
     = current_brightness (brightness_click d p)) /\
  (forall t,
     brightness_press_start d = None ->
     brightness_key t false true d = (d, None)) /\
  (forall mode menu t pressed was_pressed,
     let r := poll_brightness mode menu t pressed was_pressed d in
     if String.eqb mode SCROLL_BOTH || String.eqb mode SCROLL_BOTH_RESET
     then menu = false -> brightness_press_start r.1 = None /\ r.2 = None
     else r = (d, None)).
Proof.
  split; [| split; [| split; [| split]]].
  - intros p clicks Hall n level. rewrite (short_clicks d p clicks Hall).
    cbn [current_brightness]. fold n. fold level.
    assert (Hl : 0 <= level <= 10)
      by (subst level; pose proof (Z.mod_pos_bound (level_of d + n) 11); lia).
    split; [done |]. split; [exact Hl |]. split.
    + exists (level * 10). split; [| lia]. unfold set_brightness.
      replace (0 <=? level) with true by (symmetry; apply Z.leb_le; lia).
      by replace (level <=? 10) with true by (symmetry; apply Z.leb_le; lia).
    + intros Hn Hd. subst level. rewrite Hn.
      rewrite <- (Z.mul_1_l 11) at 1. rewrite Z.mod_add by lia.
      apply Z.mod_small. lia.
  - intros p Hl. unfold brightness_click.
    by rewrite (brightness_click_long d p Hl).
  - intros p. unfold brightness_click.
    destruct (Qlt_le_dec (p.2 - p.1) (1 # 2)) as [Hs | Hl].
    + by rewrite (brightness_click_short d p Hs).
    + by rewrite (brightness_click_long d p Hl).
  - intros t Hn. unfold brightness_key. cbn [andb negb]. by rewrite Hn.
  - intros mode menu t pressed was_pressed. cbv zeta.
    unfold poll_brightness.
    destruct (String.eqb mode SCROLL_BOTH || String.eqb mode SCROLL_BOTH_RESET);
      [| done].
    by intros ->.
Qed.


(** *** Start-up *)

(** The loop body of [configure_from_config]. *)
Local Abbreviation configure_step :=
  (fun (w : World) (e : Deck * Z * Z) =>
     let '(deck, display_order, h_offset) := e in
     init_cs_state display_order
       {| deck_states := deck_states w;
          order_to_deck := <[display_order := deck]> (order_to_deck w);
          config_decks :=
            config_decks w
            ++ [(serial_number deck, (display_order, h_offset))];
          config_scroll_mode := config_scroll_mode w;
          debug_mode := debug_mode w; images := images w;
          osc_out := osc_out w; timers := timers w |}).

Lemma configure_fold (decks : list (Deck * Z * Z)) (w0 : World) :
  let w := List.fold_left configure_step decks w0 in
  images w = images w0 /\ osc_out w = osc_out w0 /\ timers w = timers w0 /\
  config_decks w
  = config_decks w0
    ++ ((fun e : Deck * Z * Z => (serial_number e.1.1, (e.1.2, e.2)))
          <$> decks) /\
  (forall o, o ∉ (fun e : Deck * Z * Z => e.1.2) <$> decks ->
     order_to_deck w !! o = order_to_deck w0 !! o /\
     deck_states w !! o = deck_states w0 !! o) /\
  (NoDup ((fun e : Deck * Z * Z => e.1.2) <$> decks) ->
   forall deck o h, (deck, o, h) ∈ decks ->
     order_to_deck w !! o = Some deck /\
     deck_states w !! o = Some (default new_state (deck_states w0 !! o))).
Proof.
  revert w0. induction decks as [| [[d o'] h'] decks IH]; intros w0.
  - cbn. rewrite app_nil_r. do 5 (split; [done |]).
    intros _ deck o h Hin. by apply elem_of_nil in Hin.
  - cbn [List.fold_left]. cbv zeta in IH.
    set (w1 := init_cs_state o' _).
    assert (H1 : images w1 = images w0 /\ osc_out w1 = osc_out w0 /\
                 timers w1 = timers w0 /\
                 config_decks w1
                 = config_decks w0 ++ [(serial_number d, (o', h'))] /\
                 order_to_deck w1 = <[o' := d]> (order_to_deck w0) /\
                 (forall o, o <> o' ->
                    deck_states w1 !! o = deck_states w0 !! o) /\
                 deck_states w1 !! o'
                 = Some (default new_state (deck_states w0 !! o'))).
    { subst w1. unfold init_cs_state. cbn [deck_states].
      destruct (deck_states w0 !! o') as [st |] eqn:E; cbn.
      - by rewrite E.
      - do 5 (split; [done |]). split.
        + intros o Hne. by rewrite lookup_insert_ne.
        + by rewrite lookup_insert_eq. }
    destruct H1 as (A1 & A2 & A3 & A4 & A5 & A6 & A7).
    destruct (IH w1) as (I1 & I2 & I3 & I4 & I5 & I6).
    rewrite I1, I2, I3, I4, A1, A2, A3, A4. cbn [fmap list_fmap].
    do 3 (split; [done |]). split; [by rewrite <- app_assoc |]. split.
    + intros o Hnin. apply not_elem_of_cons in Hnin as [Hne Hnin].
      cbn [fst snd] in Hne. destruct (I5 o Hnin) as [-> ->].
      rewrite A5, A6 by done. by rewrite lookup_insert_ne.
    + intros Hnd deck o h Hin. apply NoDup_cons in Hnd as [Hnin Hnd].
      cbn [fst snd] in Hnin.
      apply elem_of_cons in Hin as [Heq | Hin].
      * injection Heq as -> -> ->. destruct (I5 o' Hnin) as [-> ->].
        rewrite A5, A7. by rewrite lookup_insert_eq.
      * destruct (I6 Hnd deck o h Hin) as [-> ->].
        assert (Hne : o <> o').
        { intros ->. apply Hnin. apply list_elem_of_fmap.
          by exists (deck, o', h). }
        by rewrite A6.
Qed.

(** X20: [configure_from_config] for units with pairwise different
    display orders: every unit is found under its order, the order has a
    fresh record (no heartbeat, offline, empty cache) and answers config
    requests with the unit's offset; the active orders are exactly the
    configured ones; and nothing has been drawn, sent or scheduled. *)
Theorem configure_binds_every_unit (decks : list (Deck * Z * Z))
  (mode : option string) (debug : bool) :
  NoDup ((fun e : Deck * Z * Z => e.1.2) <$> decks) ->
  let w := configure decks mode debug in
  (forall deck o h, (deck, o, h) ∈ decks ->
     get_deck_for_cs o w = Some deck /\
     deck_states w !! o = Some new_state /\
     get_config_for_order o w = Some (o, h)) /\
  (forall o, o ∈ get_active_display_orders w <->
             o ∈ (fun e : Deck * Z * Z => e.1.2) <$> decks) /\
  images w = [] /\ osc_out w = [] /\ timers w = [].
Proof.
  intros Hnd. cbv zeta. unfold configure.
  match goal with
  | |- context [List.fold_left _ decks ?w0] =>
      destruct (configure_fold decks w0) as (H1 & H2 & H3 & H4 & H5 & H6)
  end.
  cbv zeta in H1, H2, H3, H4, H5, H6.
  cbn [images osc_out timers config_decks order_to_deck deck_states app]
    in H1, H2, H3, H4, H5, H6.
  split; [| split; [| done]].
  - intros deck o h Hin. destruct (H6 Hnd deck o h Hin) as [Hd Hs].
    split; [exact Hd |]. split; [by rewrite Hs, lookup_empty |].
    unfold get_config_for_order. rewrite H4.
    clear -Hnd Hin. induction decks as [| [[d' o'] h'] decks IH];
      [by apply elem_of_nil in Hin |].
    apply NoDup_cons in Hnd as [Hnin Hnd]. cbn [fst snd] in Hnin.
    cbn [fmap list_fmap List.find fst snd].
    apply elem_of_cons in Hin as [Heq | Hin].
    + injection Heq as -> -> ->. by rewrite Z.eqb_refl.
    + destruct (Z.eqb_spec o' o) as [-> | Hne]; [| by apply IH].
      exfalso. apply Hnin. apply list_elem_of_fmap. by exists (deck, o, h).
  - intros o. unfold get_active_display_orders. split.
    + intros Hin. apply list_elem_of_fmap in Hin as ([o1 d1] & -> & Hin).
      apply elem_of_map_to_list in Hin. cbn [fst].
      destruct (decide (o1 ∈ (fun e : Deck * Z * Z => e.1.2) <$> decks))
        as [Hyes | Hno]; [exact Hyes |].
      destruct (H5 o1 Hno) as [Ho _]. rewrite Ho, lookup_empty in Hin.
      discriminate.
    + intros Hin. apply list_elem_of_fmap in Hin as ([[d1 o1] h1] & -> & Hin).
      destruct (H6 Hnd d1 o1 h1 Hin) as [Hd _]. cbn [fst snd].
      apply list_elem_of_fmap. exists (o1, d1). split; [done |].
      by apply elem_of_map_to_list.
Qed.


(** *** Restored images and snapshot images *)

(** Rounding keeps the sign. *)
Lemma round_sign (s : bool) (m e : Z) (l : location) :
  let y := binary_round_aux Float.prec Float.emax s m e l in
  y = S754_nan \/ y = S754_zero s \/ y = S754_infinity s \/
  exists m' e', y = S754_finite s m' e'.
Proof.
  cbv zeta. unfold binary_round_aux.
  destruct (shr_fexp _ _ _ _ _) as [mrs e1].
  destruct (shr_fexp _ _ _ _ _) as [mrs' e2].
  destruct (shr_m mrs') as [| m' | m']; [auto | | auto].
  destruct (e2 <=? _); [| auto]. right. right. right. eauto.
Qed.

Lemma SFeqb_zero (x : spec_float) :
  SFeqb x (Float.of_Z 0) = true <-> exists s, x = S754_zero s.
Proof.
  change (Float.of_Z 0) with (S754_zero false). split.
  - destruct x as [s | s | | s m e]; try discriminate; eauto.
    + by destruct s.
    + by destruct s.
  - by intros [s ->].
Qed.

(** The sixteenth of a progress that is not below zero is not below
    zero. *)
Lemma sixteenth_not_negative (p : spec_float) :
  SFleb (Float.of_Z 0) p = true ->
  let f := Float.div p (Float.of_Z 16) in
  SFeqb f (Float.of_Z (-2)) = false /\
  (SFeqb f (Float.of_Z 0) = false -> SFltb (Float.of_Z 0) p = true).
Proof.
  intros Hp. cbv zeta.
  change (Float.of_Z 0) with (S754_zero false) in *.
  change (Float.of_Z 16) with (S754_finite false 4503599627370496 (-48)).
  change (Float.of_Z (-2)) with (S754_finite true 4503599627370496 (-51)).
  destruct p as [s | s | | s m e]; try discriminate.
  - by destruct s.
  - by destruct s.
  - destruct s; [discriminate |]. split; [| done].
    unfold Float.div, SFdiv.
    destruct (SFdiv_core_binary _ _ _ _ _ _) as [[mz ez] lz]. cbn [xorb].
    destruct (round_sign false mz ez lz)
      as [-> | [-> | [-> | (m' & e' & ->)]]]; reflexivity.
Qed.

Example smallest_progress_underflows :
  underflows (S754_finite false 1 (-1074)) = true /\
  underflows (S754_finite false 8 (-1074)) = true /\
  underflows (S754_finite false 9 (-1074)) = false.
Proof. by vm_compute. Qed.

(** The codes the adapter sends do not underflow. *)
Lemma codes_do_not_underflow (c : Z) :
  -4 <= c <= 16 -> underflows (Float.of_Z c) = false.
Proof.
  intros Hc.
  assert (C : c = -4 \/ c = -3 \/ c = -2 \/ c = -1 \/ c = 0 \/ c = 1 \/ c = 2
              \/ c = 3 \/ c = 4 \/ c = 5 \/ c = 6 \/ c = 7 \/ c = 8 \/ c = 9
              \/ c = 10 \/ c = 11 \/ c = 12 \/ c = 13 \/ c = 14 \/ c = 15
              \/ c = 16) by lia.
  clear Hc. repeat (destruct C as [-> | C]; [by vm_compute |]).
  subst. by vm_compute.
Qed.

(** X21: the image [restore_key_image] and [show_menu_arrows] draw for a
    cached cell and the image a snapshot draws for the same cell carry
    the same label, colour, scroll mode and menu flag.  They carry the
    same progress unless the cached progress underflows (it is above
    zero and its sixteenth is rounded to zero): then the restored image
    carries that zero and the snapshot image 1.  No code from -4 to 16
    underflows.  The snapshot image never has a red background.  The
    restored image has the same background as the snapshot image, except
    that it is red for a cell that is neither playing nor triggered while
    its key is marked as stopped. *)
Theorem restore_matches_snapshot_up_to_stop_mark (d : Deck) (k : Z)
  (t : key_state) (st : cs_state) (mode : string) (menu : bool)
  (w : World) :
  key_states st !! k = Some t ->
  has_key d k = true ->
  (exists img img',
    images (redraw_key d k st mode menu w)
    = images w ++ [(serial_number d, img)] /\
    images (draw_cell d k t st mode menu w)
    = images w ++ [(serial_number d, img')] /\
    img_label img = img_label img' /\
    img_color img = img_color img' /\
    (underflows t.2 = false -> img_progress img = img_progress img') /\
    (underflows t.2 = true ->
     img_progress img = Some (Float.div t.2 (Float.of_Z 16)) /\
     Float.same_number (Float.div t.2 (Float.of_Z 16)) (Float.of_Z 0) /\
     img_progress img' = Some (Float.of_Z 1)) /\
    img_scroll_mode img = img_scroll_mode img' /\
    img_menu_active img = img_menu_active img' /\
    img_flash img = false /\ img_flash img' = false /\
    background_fill img' <> Fill (255, 0, 0) /\
    background_fill img
    = if negb (SFleb (Float.of_Z 0) t.2)
         && negb (SFeqb t.2 (Float.of_Z (-1)))
         && bool_decide (k ∈ stopped_keys st)
      then Fill (255, 0, 0)
      else background_fill img') /\
  (forall c, -4 <= c <= 16 -> underflows (Float.of_Z c) = false).
Proof.
  intros Hl Hk. split; [| exact codes_do_not_underflow].
  destruct t as [[l c] p]. unfold redraw_key, draw_cell.
  rewrite Hl. cbn [fst snd].
  assert (Hc : (if negb (c =? 0) then ableton_color_to_rgb c
                else (0, 0, 0)) = ableton_color_to_rgb c).
  { destruct (Z.eqb_spec c 0) as [-> | _]; reflexivity. }
  rewrite Hc. unfold underflows.
  destruct (SFleb (Float.of_Z 0) p) eqn:E0;
    [| destruct (SFeqb p (Float.of_Z (-1))) eqn:E1;
       [| destruct (SFeqb p (Float.of_Z (-3)))]];
    rewrite !images_update_key_image, Hk; cbn [negb andb].
  - destruct (sixteenth_not_negative p E0) as [Hm2 Hpos]. cbv zeta in *.
    set (q := Float.div p (Float.of_Z 16)) in *.
    eexists. eexists. do 2 (split; [reflexivity |]).
    do 2 (split; [reflexivity |]).
    cbn [img_progress img_scroll_mode img_menu_active img_flash].
    destruct (SFeqb q (Float.of_Z 0)) eqn:Eq0.
    + destruct (SFeqb_zero q) as [Hz _].
      destruct (Hz Eq0) as [sz Hq].
      destruct (SFltb (Float.of_Z 0) p) eqn:Elt; cbn [andb].
      * split; [discriminate |].
        split; [intros _; split; [reflexivity | split; [| reflexivity]] |].
        { rewrite Hq. reflexivity. }
        do 4 (split; [reflexivity |]).
        unfold background_fill.
        cbn [img_flash img_background img_progress img_stopped_keys img_key
             img_color fmap option_fmap option_map].
        rewrite Hq. split; [by destruct sz | by destruct sz].
      * split; [reflexivity |]. split; [discriminate |].
        do 4 (split; [reflexivity |]).
        unfold background_fill.
        cbn [img_flash img_background img_progress img_stopped_keys img_key
             img_color fmap option_fmap option_map].
        split; [by vm_compute | reflexivity].
    + rewrite (Hpos eq_refl). cbn [andb].
      split; [reflexivity |]. split; [discriminate |].
      do 4 (split; [reflexivity |]).
      unfold background_fill.
      cbn [img_flash img_background img_progress img_stopped_keys img_key
           img_color fmap option_fmap option_map].
      rewrite Hm2. split; [| reflexivity].
      by destruct (SFleb (Float.of_Z 0) q && SFleb q (Float.of_Z 1)).
  - assert (Hlt : SFltb (Float.of_Z 0) p = false).
    { unfold SFltb, SFleb in *.
      by destruct (SFcompare (Float.of_Z 0) p) as [[] |]. }
    rewrite Hlt. cbn [andb].
    eexists. eexists. do 2 (split; [reflexivity |]).
    do 2 (split; [reflexivity |]).
    split; [reflexivity |]. split; [discriminate |].
    do 4 (split; [reflexivity |]). done.
  - assert (Hlt : SFltb (Float.of_Z 0) p = false).
    { unfold SFltb, SFleb in *.
      by destruct (SFcompare (Float.of_Z 0) p) as [[] |]. }
    rewrite Hlt. cbn [andb].
    eexists. eexists. do 2 (split; [reflexivity |]).
    do 2 (split; [reflexivity |]).
    split; [reflexivity |]. split; [discriminate |].
    do 4 (split; [reflexivity |]). split; [done |].
    unfold background_fill.
    cbn [img_flash img_background img_progress img_stopped_keys img_key
         img_color fmap option_fmap option_map].
    by destruct (bool_decide (k ∈ stopped_keys st)).
  - assert (Hlt : SFltb (Float.of_Z 0) p = false).
    { unfold SFltb, SFleb in *.
      by destruct (SFcompare (Float.of_Z 0) p) as [[] |]. }
    rewrite Hlt. cbn [andb].
    eexists. eexists. do 2 (split; [reflexivity |]).
    do 2 (split; [reflexivity |]).
    split; [reflexivity |]. split; [discriminate |].
    do 4 (split; [reflexivity |]). split; [done |].
    unfold background_fill.
    cbn [img_flash img_background img_progress img_stopped_keys img_key
         img_color fmap option_fmap option_map].
    by destruct (bool_decide (k ∈ stopped_keys st)).
Qed.

(** *** One window at a time *)

Lemma only_window_refl (o : Z) (ser : option string) (w : World) :
  only_window o ser w w.
Proof.
  do 5 (split; [done |]). exists []. by rewrite app_nil_r.
Qed.

Lemma only_window_trans (o : Z) (ser : option string) (w1 w2 w3 : World) :
  only_window o ser w1 w2 -> only_window o ser w2 w3 ->
  only_window o ser w1 w3.
Proof.
  intros (A1 & A2 & A3 & A4 & A5 & l1 & A6 & A7)
         (B1 & B2 & B3 & B4 & B5 & l2 & B6 & B7).
  unfold only_window. rewrite B1, B2, B3, B4, B6, A6.
  do 4 (split; [done |]). split.
  - intros o' Hne. by rewrite B5, A5.
  - exists (l1 ++ l2). split; [by rewrite app_assoc | by apply Forall_app].
Qed.

Lemma only_window_init (o : Z) (ser : option string) (w : World) :
  only_window o ser w (init_cs_state o w).
Proof.
  unfold only_window.
  destruct (init_cs_state_frame o w) as (Hi & _ & _ & -> & -> & -> & ->).
  rewrite Hi. do 4 (split; [done |]). split.
  - intros o' _. apply HardwareProofs.state_of_init_any.
  - exists []. by rewrite app_nil_r.
Qed.

Lemma only_window_put (o : Z) (ser : option string) (st : cs_state)
  (w : World) :
  only_window o ser w (put_state o st w).
Proof.
  do 4 (split; [done |]). split.
  - intros o' Hne. by apply HardwareProofs.state_of_put_ne.
  - exists []. by rewrite app_nil_r.
Qed.

Lemma only_window_timers (o : Z) (ser : option string)
  (ts : list (Q * timer)) (w : World) :
  only_window o ser w (set_timers ts w).
Proof.
  do 5 (split; [done |]). exists []. by rewrite app_nil_r.
Qed.

Lemma only_window_send (o o' : Z) (ser : option string) (a : string)
  (args : list osc_arg) (w : World) :
  only_window o ser w (send_osc_message o' a args w).
Proof.
  do 5 (split; [done |]). exists []. by rewrite app_nil_r.
Qed.

Lemma only_window_update (o : Z) (d : Deck) k l c p b sk f m ma (w : World) :
  only_window o (Some (serial_number d)) w
    (update_key_image d k l c p b sk f m ma w).
Proof.
  unfold only_window.
  destruct (update_key_image_frame d k l c p b sk f m ma w)
    as (Hs & _ & _ & -> & -> & -> & ->).
  do 4 (split; [done |]). split.
  - intros o' _. apply HardwareProofs.state_of_update_key_image.
  - rewrite images_update_key_image. eexists. split; [reflexivity |].
    destruct (has_key d k); by repeat constructor.
Qed.

(** Chains of such steps. *)
Ltac window_steps :=
  repeat first
    [ apply only_window_refl
    | apply only_window_update
    | apply only_window_put
    | apply only_window_init
    | apply only_window_timers
    | apply only_window_send
    | eapply only_window_trans; [| apply only_window_update]
    | eapply only_window_trans; [| apply only_window_put]
    | eapply only_window_trans; [| apply only_window_timers]
    | eapply only_window_trans; [| apply only_window_send]
    | eapply only_window_trans; [| apply only_window_init] ].

Lemma only_window_fold {A} (o : Z) (ser : option string)
  (f : World -> A -> World) (l : list A) (w : World) :
  (forall w a, only_window o ser w (f w a)) ->
  only_window o ser w (List.fold_left f l w).
Proof.
  intros Hf. revert w. induction l as [| a l IH]; intros w;
    [apply only_window_refl |].
  cbn [List.fold_left]. eapply only_window_trans; [apply Hf | apply IH].
Qed.

Lemma only_window_clear_keys (o : Z) (d : Deck) (w : World) :
  only_window o (Some (serial_number d)) w (clear_keys d w).
Proof.
  unfold clear_keys. apply only_window_fold. intros w0 k. window_steps.
Qed.

Lemma only_window_redraw (o : Z) (d : Deck) k st mode menu (w : World) :
  only_window o (Some (serial_number d)) w (redraw_key d k st mode menu w).
Proof. unfold redraw_key. repeat case_match; window_steps. Qed.

Section Isolation.

Variable int_of_str : string -> option Z.
Variable float_of_str : string -> option spec_float.

Lemma only_window_clip_info_loop (deck : Deck) (order : Z)
  (pressed : gset Z) (flash : gmap Z Q) (now : Q) (mode : string)
  (menu : bool) (cells : list osc_arg) (i : Z) (w : World) :
  only_window order (Some (serial_number deck)) w
    (clip_info_loop int_of_str float_of_str deck order pressed flash now
       mode menu i cells w).1.
Proof.
  revert i w. induction cells as [| info cells IH]; intros i w;
    [apply only_window_refl |].
  cbn [clip_info_loop].
  assert (Hc : only_window order (Some (serial_number deck)) w
                 (clip_info_cell int_of_str float_of_str deck order pressed
                    flash now mode menu i info w).1).
  { unfold clip_info_cell.
    repeat case_match; cbn [fst]; try apply only_window_refl;
      try apply only_window_put.
    unfold draw_cell.
    repeat case_match; window_steps. }
  destruct (clip_info_cell int_of_str float_of_str deck order pressed flash
              now mode menu i info w) as [w1 [|]]; cbn [fst] in *;
    [| exact Hc].
  eapply only_window_trans; [exact Hc | apply IH].
Qed.

(** X22: an inbound message concerns one window, the one its first
    argument names (window 0 when there is no argument): whatever the
    address and the arguments, the deck mapping and the configuration
    stay as they are, the record of every other window stays as it is,
    and every image drawn is drawn on the unit of that window; and when
    the first argument is no number nothing changes at all. *)
Theorem messages_touch_one_window (now : Q) (address : string)
  (args : list osc_arg) (w : World) :
  match order_or_zero int_of_str args with
  | Some order =>
      only_window order (serial_number <$> get_deck_for_cs order w) w
        (dispatch int_of_str float_of_str now address args w).1
  | None => (dispatch int_of_str float_of_str now address args w).1 = w
  end.
Proof.
  unfold dispatch.
  destruct (String.eqb address "/clip_info");
    [| destruct (String.eqb address "/ablonline");
       [| destruct (String.eqb address "/structural_mismatch");
          [| destruct (String.eqb address "/document_closing");
             [| destruct (String.eqb address "/track_stopped");
                [| destruct (String.eqb address "/config_request")]]]]].
  - unfold osc_clip_info_handler, order_or_zero, get_cs_state.
    destruct args as [| a0 [| c cells]];
      [apply only_window_refl
      | destruct (Osc.py_int int_of_str a0); [apply only_window_refl | done]
      |].
    destruct (Osc.py_int int_of_str a0) as [order |]; [| done].
    destruct (get_deck_for_cs order w) as [deck |] eqn:Hd;
      [| apply only_window_refl].
    cbn [fmap option_fmap option_map].
    eapply only_window_trans; [| apply only_window_clip_info_loop].
    window_steps.
  - unfold osc_ablonline_handler, get_cs_state.
    destruct (order_or_zero int_of_str args) as [order |]; [| done].
    rewrite HardwareProofs.deck_of_init.
    destruct (get_deck_for_cs order w) as [deck |]; cbn [fst];
      [| window_steps].
    destruct (negb _); cbn [fst fmap option_fmap option_map]; window_steps.
  - unfold osc_structural_mismatch_handler, order_or_zero, get_cs_state.
    destruct args as [| a0 [| a1 rest]];
      [apply only_window_refl
      | destruct (Osc.py_int int_of_str a0); [apply only_window_refl | done]
      |].
    destruct (Osc.py_int int_of_str a0) as [order |]; [| done].
    rewrite HardwareProofs.deck_of_init.
    destruct (get_deck_for_cs order w) as [deck |]; cbn [fst];
      [| window_steps].
    destruct (Osc.py_bool a1); cbn [fst fmap option_fmap option_map];
      window_steps.
  - unfold osc_document_closing_handler, get_cs_state.
    destruct (order_or_zero int_of_str args) as [order |]; [| done].
    rewrite HardwareProofs.deck_of_init. cbn [fst].
    destruct (get_deck_for_cs order w) as [deck |];
      cbn [fmap option_fmap option_map].
    + eapply only_window_trans; [| apply only_window_put].
      eapply only_window_trans; [| apply only_window_clear_keys].
      window_steps.
    + window_steps.
  - unfold osc_track_stopped_handler, order_or_zero, get_cs_state.
    destruct args as [| a0 [| a1 [| a2 rest]]];
      try (destruct (Osc.py_int int_of_str a0);
           [apply only_window_refl | done]);
      [apply only_window_refl |].
    destruct (Osc.py_int int_of_str a0) as [order |]; [| done].
    destruct (Osc.py_int int_of_str a1) as [track |];
      [| apply only_window_refl].
    rewrite HardwareProofs.deck_of_init.
    destruct (get_deck_for_cs order w) as [deck |]; cbn [fst];
      [| window_steps].
    cbn [fmap option_fmap option_map].
    eapply only_window_trans; [apply only_window_init |].
    apply only_window_fold. intros w0 scene.
    rewrite track_stopped_key_world. cbv zeta. window_steps.
  - unfold osc_config_request_handler, order_or_zero.
    destruct args as [| a0 rest]; [apply only_window_refl |].
    destruct (Osc.py_int int_of_str a0) as [order |]; [| done].
    destruct (get_config_for_order order w); cbn [fst]; window_steps.
  - destruct (order_or_zero int_of_str args); [apply only_window_refl | done].
Qed.

End Isolation.

(** *** The properties on the example unit *)

Lemma snapshot_during_flash_is_shown_afterwards_witness :
  let w1 := key_pressed 1 Examples.xl 0 3 Examples.one_deck in
  let w2 :=
    (osc_clip_info_handler Examples.int_of_str Examples.float_of_str
       (11 # 10) (OInt 0 :: Examples.four_cells) w1).1 in
  drawn 3 w2 = drawn 3 w1 /\
  cache 0 3 w2 = Some ("Lead"%string, 255, Float.of_Z 9).
Proof.
  cbv zeta.
  destruct (snapshot_during_flash_is_shown_afterwards Examples.int_of_str
              Examples.float_of_str 1 (11 # 10) (3 # 2) 0 Examples.xl
              (OInt 0) Examples.four_cells Examples.one_deck 3 "Lead|255|9"
              ("Lead"%string, 255, Float.of_Z 9) eq_refl eq_refl ltac:(lia)
              ltac:(cbn; lia)
              ltac:(repeat constructor; eexists; reflexivity) eq_refl
              eq_refl) as (H1 & H2 & _).
  split; [exact H1 | exact H2].
Defined.

Lemma document_closing_clears_window_witness :
  let r := osc_document_closing_handler Examples.int_of_str [OInt 0]
             Examples.heard_at_1 in
  r.2 = Returned /\ forall t, monitor_order t r.1 0 = r.1.
Proof.
  cbv zeta.
  destruct (document_closing_clears_window Examples.int_of_str [OInt 0] 0
              Examples.heard_at_1 eq_refl) as (H1 & _ & _ & _ & _ & H2).
  split; [exact H1 | exact H2].
Defined.

Lemma offline_transition_is_drawn_once_witness :
  ableton_offline (state_of 0 (monitor_order 4 Examples.heard_at_1 0))
  = true.
Proof.
  destruct (offline_transition_is_drawn_once 4 0 Examples.xl
              Examples.heard_at_1 eq_refl) as (H & _).
  rewrite H. by vm_compute.
Defined.

Lemma snapshot_after_offline_skips_cached_cells_witness :
  let w1 := monitor_order 4 Examples.heard_at_1 0 in
  let w2 :=
    (osc_clip_info_handler Examples.int_of_str Examples.float_of_str 5
       (OInt 0 :: Examples.four_cells) w1).1 in
  ableton_offline (state_of 0 w2) = false /\
  drawn 3 w2 = drawn 3 w1 /\
  last (drawn 3 w1) = Some ("XL"%string, blank_image 3).
Proof.
  cbv zeta.
  destruct (snapshot_after_offline_skips_cached_cells Examples.int_of_str
              Examples.float_of_str 4 5 0 Examples.xl (OInt 0)
              Examples.four_cells Examples.heard_at_1 3 "Lead|255|9"
              ("Lead"%string, 255, Float.of_Z 9) eq_refl eq_refl ltac:(lia)
              ltac:(cbn; lia)
              ltac:(repeat constructor; eexists; reflexivity) eq_refl
              eq_refl ltac:(by vm_compute) ltac:(by vm_compute))
    as (_ & H2 & H3 & H4).
  - intros H. apply HardwareProofs.is_flashing_iff in H.
    vm_compute in H. discriminate.
  - split; [exact H2 |]. split; [exact H3 | exact H4].
Defined.

Lemma heartbeat_blanks_key_zero_once_witness :
  let r := osc_ablonline_handler Examples.int_of_str 1 [OInt 0]
             Examples.one_deck in
  waiting_cleared (state_of 0 r.1) = true /\
  images (osc_ablonline_handler Examples.int_of_str 2 [OInt 0] r.1).1
  = images r.1.
Proof.
  cbv zeta.
  destruct (heartbeat_blanks_key_zero_once Examples.int_of_str 1 2 [OInt 0]
              [OInt 0] 0 Examples.xl Examples.one_deck eq_refl eq_refl
              eq_refl) as (_ & H1 & _ & H2).
  split; [exact H1 | exact H2].
Defined.

Lemma mismatch_notice_survives_heartbeat_witness :
  let r := osc_structural_mismatch_handler Examples.int_of_str
             [OInt 0; OInt 1] Examples.one_deck in
  structural_mismatch (state_of 0 r.1) = true /\
  images (osc_ablonline_handler Examples.int_of_str 2 [OInt 0] r.1).1
  = images r.1.
Proof.
  cbv zeta.
  destruct (mismatch_notice_survives_heartbeat Examples.int_of_str 2
              (OInt 0) (OInt 1) [] [OInt 0] 0 Examples.xl Examples.one_deck
              eq_refl eq_refl eq_refl) as (H1 & _ & _ & _ & _ & H2).
  split; [exact H1 | exact (H2 eq_refl)].
Defined.

Lemma track_stopped_marks_column_witness :
  let r := osc_track_stopped_handler Examples.int_of_str 1
             [OInt 0; OInt 2; OInt 1] Examples.heard_at_1 in
  r.2 = Returned /\
  stopped_keys (state_of 0 r.1)
  = list_to_set (column_keys 2) ∪ stopped_keys (state_of 0 Examples.heard_at_1).
Proof.
  cbv zeta.
  destruct (track_stopped_marks_column Examples.int_of_str 1 (OInt 0)
              (OInt 2) (OInt 1) [] 0 2 Examples.xl Examples.heard_at_1
              eq_refl eq_refl eq_refl) as (H1 & H2 & _).
  split; [exact H1 | exact H2].
Defined.

Lemma configure_binds_every_unit_witness :
  get_deck_for_cs 0 Examples.one_deck = Some Examples.xl /\
  deck_states Examples.one_deck !! 0 = Some new_state /\
  get_config_for_order 0 Examples.one_deck = Some (0, 0).
Proof.
  destruct (configure_binds_every_unit [(Examples.xl, 0, 0)] None false
              ltac:(apply NoDup_singleton)) as (H & _).
  apply (H Examples.xl 0 0). constructor.
Defined.

Lemma restore_matches_snapshot_up_to_stop_mark_witness :
  let st := state_of 0 Examples.heard_at_1 in
  exists img img',
    images (redraw_key Examples.xl 3 st "vertical" false Examples.heard_at_1)
    = images Examples.heard_at_1 ++ [("XL"%string, img)] /\
    images
      (draw_cell Examples.xl 3 ("Lead"%string, 255, Float.of_Z 9) st
         "vertical" false Examples.heard_at_1)
    = images Examples.heard_at_1 ++ [("XL"%string, img')] /\
    img_label img = img_label img' /\
    img_progress img = img_progress img' /\
    background_fill img = background_fill img'.
Proof.
  cbv zeta.
  destruct (restore_matches_snapshot_up_to_stop_mark Examples.xl 3
              ("Lead"%string, 255, Float.of_Z 9)
              (state_of 0 Examples.heard_at_1)
              "vertical" false Examples.heard_at_1 ltac:(by vm_compute)
              eq_refl)
    as ((img & img' & H1 & H2 & H3 & _ & H4 & _ & _ & _ & _ & _ & _ & H5)
        & _).
  exists img, img'. split; [exact H1 |]. split; [exact H2 |].
  split; [exact H3 |]. split; [apply H4; by vm_compute | exact H5].
Defined.

End HardwareExtras.

(** ** Further properties of the two processes together *)

Module ProtocolExtras.

(** *** Ports *)

(** X23: the adapter of a display order sends to the port the hardware
    listens on for that order, and the hardware sends to the port the
    adapter listens on, with a copy to the port 1000 above exactly in
    debug mode.  No listen port equals a reply port; each kind of port
    determines its order; and a debug port coincides with a regular port
    only of the order 100 above, and never with one of the other kind. *)
Theorem ports_pair_up (order : Z) :
  Session.osc_send_port (Session.init order) = Hardware.listen_port order /\
  (forall address args w,
     exists dup,
       Hardware.osc_out (Hardware.send_osc_message order address args w)
       = Hardware.osc_out w
         ++ (Session.osc_recv_port order, address, args) :: dup /\
       dup = (if Hardware.debug_mode w
              then [(Session.osc_recv_port order + 1000, address, args)]
              else [])) /\
  (forall o,
     Hardware.listen_port order <> Session.osc_recv_port o /\
     (Hardware.listen_port order = Hardware.listen_port o <-> order = o) /\
     (Session.osc_recv_port order = Session.osc_recv_port o <-> order = o) /\
     (Hardware.listen_port order + 1000 = Hardware.listen_port o
      <-> o = order + 100) /\
     (Session.osc_recv_port order + 1000 = Session.osc_recv_port o
      <-> o = order + 100) /\
     Hardware.listen_port order + 1000 <> Session.osc_recv_port o /\
     Session.osc_recv_port order + 1000 <> Hardware.listen_port o).
Proof.
  split; [reflexivity |]. split.
  - intros address args w. eexists. split; reflexivity.
  - intros o. unfold Hardware.listen_port, Session.osc_recv_port,
      Session.OSC_BASE_RECV_PORT. lia.
Qed.

(** *** Bars, numerals and the cell format *)

Lemma bars_app (a b : string) :
  Hardware.bars (String.append a b)
  = (Hardware.bars a + Hardware.bars b)%nat.
Proof.
  induction a as [| c a IH]; [reflexivity |].
  change (String.append (String c a) b) with (String c (String.append a b)).
  cbn [Hardware.bars]. rewrite IH. lia.
Qed.

Lemma bars_pretty_N_go (x : N) (s : string) :
  Hardware.bars (pretty_N_go x s) = Hardware.bars s.
Proof.
  revert s. induction (N.lt_wf_0 x) as [x _ IH]. intros s.
  destruct (decide (x = 0)%N) as [-> | Hx]; [by rewrite pretty_N_go_0 |].
  rewrite pretty_N_go_step by lia.
  rewrite IH by (apply N.div_lt; lia).
  cbn [Hardware.bars]. unfold pretty_N_char.
  by repeat case_match.
Qed.

Lemma bars_pretty_Z (z : Z) : Hardware.bars (pretty z) = 0%nat.
Proof.
  assert (HN : forall x : N, Hardware.bars (pretty x) = 0%nat).
  { intros x. unfold pretty, pretty_N. case_decide; [reflexivity |].
    apply bars_pretty_N_go. }
  destruct z as [| p | p]; [reflexivity | apply HN |].
  unfold pretty, pretty_Z. rewrite bars_app. cbn [Hardware.bars].
  apply (HN (Npos p)).
Qed.

Lemma split_once_bar_free (s : string) :
  Hardware.bars s = 0%nat -> Hardware.split_once s = None.
Proof.
  induction s as [| c s IH]; [reflexivity |].
  cbn [Hardware.bars Hardware.split_once].
  destruct (Ascii.eqb c "|"); [discriminate |].
  intros H. by rewrite IH.
Qed.

Lemma split_once_at_bar (a b : string) :
  Hardware.bars a = 0%nat ->
  Hardware.split_once (String.append a (String "|" b)) = Some (a, b).
Proof.
  induction a as [| c a IH]; [reflexivity |].
  change (String.append (String c a) (String "|" b))
    with (String c (String.append a (String "|" b))).
  cbn [Hardware.bars Hardware.split_once].
  destruct (Ascii.eqb c "|"); [discriminate |].
  intros H. by rewrite IH.
Qed.

Lemma split_once_some (s a r : string) :
  Hardware.split_once s = Some (a, r) ->
  Hardware.bars s = S (Hardware.bars r) /\ Hardware.bars a = 0%nat /\
  s = String.append a (String "|" r).
Proof.
  revert a. induction s as [| c s IH]; intros a; [discriminate |].
  cbn [Hardware.split_once Hardware.bars].
  destruct (Ascii.eqb_spec c "|") as [-> | Hne].
  - intros [= <- <-]. done.
  - destruct (Hardware.split_once s) as [[a' r'] |]; [| discriminate].
    intros [= <- <-]. destruct (IH a' eq_refl) as (H1 & H2 & H3).
    change (String.append (String c a') (String "|" r'))
      with (String c (String.append a' (String "|" r'))).
    cbn [Hardware.bars].
    replace (Ascii.eqb c "|") with false
      by (symmetry; by apply Ascii.eqb_neq).
    rewrite H1, H2, <- H3. done.
Qed.

Lemma split_once_has_bar (s : string) :
  Hardware.bars s <> 0%nat ->
  exists a r, Hardware.split_once s = Some (a, r).
Proof.
  induction s as [| c s IH]; [done |].
  cbn [Hardware.bars Hardware.split_once].
  destruct (Ascii.eqb c "|"); [by eexists _, _ |].
  intros H. destruct (IH H) as (a & r & ->). by eexists _, _.
Qed.

Lemma cell_wire_bars (c : Session.Cell) :
  Hardware.bars (Session.cell_wire c)
  = (Hardware.bars (Session.label c) + 2)%nat.
Proof.
  unfold Session.cell_wire. rewrite !bars_app, !bars_pretty_Z.
  cbn [Hardware.bars Ascii.eqb]. cbn. lia.
Qed.

Section Wire.

Variable int_of_str : string -> option Z.
Variable float_of_str : string -> option spec_float.

(** X24: the adapter formats a cell as name, colour and code separated
    by bars.  When the name holds no bar the hardware splits the text
    into exactly these three parts, and, given that its two conversions
    read the two numerals back, the cache entry it derives carries the
    name, the colour and the code of the cell. *)
Theorem snapshot_cell_survives_the_wire (c : Session.Cell) :
  Hardware.bars (Session.label c) = 0%nat ->
  Hardware.split_pipe2 (Session.cell_wire c)
  = [Session.label c; pretty (Session.cell_color c);
     pretty (Session.code c)] /\
  (int_of_str (pretty (Session.cell_color c)) = Some (Session.cell_color c) ->
   float_of_str (pretty (Session.code c))
   = Some (Float.of_Z (Session.code c)) ->
   Hardware.parse_cell int_of_str float_of_str (Session.cell_wire c)
   = Some (Session.label c, Session.cell_color c,
           Float.of_Z (Session.code c))).
Proof.
  intros Hb.
  assert (Hs : Hardware.split_pipe2 (Session.cell_wire c)
               = [Session.label c; pretty (Session.cell_color c);
                  pretty (Session.code c)]).
  { unfold Hardware.split_pipe2.
    change (Session.cell_wire c)
      with (String.append (Session.label c)
              (String "|"
                 (String.append (pretty (Session.cell_color c))
                    (String "|" (pretty (Session.code c)))))).
    rewrite (split_once_at_bar _ _ Hb).
    by rewrite (split_once_at_bar _ _ (bars_pretty_Z _)). }
  split; [exact Hs |]. intros Hi Hf. unfold Hardware.parse_cell.
  rewrite Hs, Hi. cbn [mbind option_bind]. by rewrite Hf.
Qed.

(** X25: when the name of a clip holds a bar, the hardware splits the
    cell text at the wrong places: the first part is not the name and the
    third part still holds a bar.  With a float conversion that rejects
    text with a bar the cell yields no cache entry, and the snapshot
    leaves the key of that cell as it was: nothing cached, nothing
    drawn. *)
Theorem clip_name_with_bar_drops_the_cell (c : Session.Cell) :
  Hardware.bars (Session.label c) <> 0%nat ->
  (forall s, Hardware.bars s <> 0%nat -> float_of_str s = None) ->
  (exists a b r,
     Hardware.split_pipe2 (Session.cell_wire c) = [a; b; r] /\
     a <> Session.label c /\ Hardware.bars r <> 0%nat) /\
  Hardware.parse_cell int_of_str float_of_str (Session.cell_wire c) = None /\
  forall deck order pressed flash now mode menu i w,
    Hardware.clip_info_cell int_of_str float_of_str deck order pressed flash
      now mode menu i (OStr (Session.cell_wire c)) w
    = (w, Hardware.Returned).
Proof.
  intros Hb Hfloat.
  pose proof (cell_wire_bars c) as Hn.
  destruct (split_once_has_bar (Session.cell_wire c)) as (a & r1 & H1);
    [lia |].
  destruct (split_once_some _ _ _ H1) as (B1 & A1 & E1).
  destruct (split_once_has_bar r1) as (b & r & H2); [lia |].
  destruct (split_once_some _ _ _ H2) as (B2 & A2 & E2).
  assert (Hr : Hardware.bars r <> 0%nat) by lia.
  assert (Hs : Hardware.split_pipe2 (Session.cell_wire c) = [a; b; r])
    by (unfold Hardware.split_pipe2; by rewrite H1, H2).
  assert (Hp : Hardware.parse_cell int_of_str float_of_str
                 (Session.cell_wire c) = None).
  { unfold Hardware.parse_cell. rewrite Hs.
    destruct (int_of_str b); cbn [mbind option_bind]; [| done].
    by rewrite (Hfloat r Hr). }
  split; [| split; [exact Hp |]].
  - exists a, b, r. split; [exact Hs |]. split; [| exact Hr].
    intros ->. lia.
  - intros deck order pressed flash now mode menu i w.
    unfold Hardware.clip_info_cell. rewrite Hp.
    by destruct (i <? 32), (Hardware.is_flashing pressed flash now i).
Qed.

End Wire.

(** *** The config handshake *)

Section Handshake.

Variable int_of_str : string -> option Z.

(** An accepted config sets the debug mode it carries. *)
Lemma config_sets_debug (song : Session.Song) (args : list osc_arg) (h : Z)
  (d : bool) (s : Session.ClipDeck) :
  Session.accepted int_of_str (Session.display_order s) args = Some (h, d) ->
  Session.debug_mode (Session.osc_config_handler int_of_str song args s) = d.
Proof.
  intros Ha. destruct (Session.config_received s) eqn:Hc.
  - rewrite (SessionProofs.config_again int_of_str song args h d s Hc Ha).
    unfold Session.with_debug. by destruct d.
  - unfold Session.accepted in Ha. unfold Session.osc_config_handler.
    destruct (Session.config_args int_of_str args) as [[[o h'] d'] |];
      [| discriminate].
    destruct (o =? Session.display_order s); [| discriminate].
    injection Ha as -> ->. rewrite Hc. cbn [negb andb].
    match goal with
    | |- context [Session.osc_send ?a ?l ?x] =>
        destruct (SessionProofs.osc_send_window a l x) as (_ & -> & _)
    end.
    match goal with
    | |- context [if ?c then Session.prepare_and_send_clip_info ?g ?x
                  else ?y] =>
        assert (Hp : Session.debug_mode
                       (if c then Session.prepare_and_send_clip_info g x
                        else y) = Session.debug_mode y)
    end.
    { destruct (_ || _); [| done].
      match goal with
      | |- context [Session.prepare_and_send_clip_info ?g ?x] =>
          destruct (SessionProofs.prepare_and_send_clip_info_window g x)
            as (_ & -> & _)
      end.
      by destruct d. }
    rewrite Hp. by destruct d.
Qed.

(** X26: the request loop of an adapter that has no config yet sends
    [/config_request] with its display order to the port the hardware
    listens on for that order; the hardware, when it has a deck configured
    for the order, answers with [/config order offset] on the port the
    adapter listens on; the adapter accepts that answer, takes the offset
    as its horizontal offset and reset target, leaves debug mode off, and
    its request loop sends nothing further. *)
Theorem config_request_is_answered_and_accepted (order : Z)
  (pre : list Session.event) (song : Session.Song) (w : Hardware.World)
  (cfg : Z * Z) :
  Forall (fun e => Session.is_accepted_config int_of_str order e = false)
    pre ->
  Hardware.get_config_for_order order w = Some cfg ->
  let s := Session.run int_of_str (Session.init order) pre in
  let s1 := Session.request_config_round s in
  let request := [OInt order] in
  let r := Hardware.osc_config_request_handler int_of_str request w in
  let reply := [OInt order; OInt cfg.2] in
  let s2 := Session.osc_config_handler int_of_str song reply s1 in
  (exists dup,
     Session.out s1
     = Session.out s
       ++ Session.OscSend (Hardware.listen_port order) "/config_request"
            request :: dup) /\
  r.2 = Hardware.Returned /\
  (exists dup,
     Hardware.osc_out r.1
     = Hardware.osc_out w
       ++ (Session.osc_recv_port order, "/config"%string, reply) :: dup) /\
  Session.config_received s2 = true /\
  Session.h_offset s2 = cfg.2 /\
  Session.initial_h_offset s2 = cfg.2 /\
  Session.debug_mode s2 = false /\
  Session.request_config_round s2 = s2.
Proof.
  intros Hpre Hcfg s s1 request r reply s2.
  destruct (SessionProofs.run_before_config int_of_str order pre
              (Session.init order) eq_refl eq_refl Hpre) as [Ho Hc].
  fold s in Ho, Hc.
  destruct (SessionExtras.run_inv int_of_str order pre) as (_ & Hport & _).
  fold s in Hport.
  assert (E1 : s1 = Session.osc_send "/config_request" request s).
  { subst s1 request. unfold Session.request_config_round.
    by rewrite Hc, Ho. }
  assert (Hc1 : Session.config_received s1 = false) by (by rewrite E1).
  assert (Ho1 : Session.display_order s1 = order) by (by rewrite E1).
  assert (Ha : Session.accepted int_of_str (Session.display_order s1) reply
               = Some (cfg.2, false)).
  { rewrite Ho1. subst reply. unfold Session.accepted, Session.config_args.
    cbn. by rewrite Z.eqb_refl. }
  destruct (SessionProofs.config_first int_of_str song reply cfg.2 false s1
              Hc1 Ha) as (H1 & H2 & _ & H3 & _).
  fold s2 in H1, H2, H3.
  split.
  { rewrite E1. eexists. unfold Session.osc_send, Session.emit.
    cbn [Session.out]. rewrite Hport. reflexivity. }
  split; [subst r request; cbn; by rewrite Hcfg |].
  split.
  { subst r request. cbn. rewrite Hcfg. cbn. eexists. reflexivity. }
  do 3 (split; [assumption |]).
  split; [apply (config_sets_debug song reply cfg.2 false s1 Ha) |].
  unfold Session.request_config_round. by rewrite H3.
Qed.

(** The config message the broadcast sends to a window. *)
Local Abbreviation config_message w order offset :=
  [OInt order; OInt offset; OInt (if Hardware.debug_mode w then 1 else 0)].

Lemma send_config_fold (l : list Z) (w0 : Hardware.World) :
  let w' := List.fold_left Hardware.send_config l w0 in
  Hardware.config_decks w' = Hardware.config_decks w0 /\
  Hardware.debug_mode w' = Hardware.debug_mode w0 /\
  exists msgs,
    Hardware.osc_out w' = Hardware.osc_out w0 ++ msgs /\
    Forall (fun m : Z * string * list osc_arg => m.1.2 = "/config"%string)
      msgs /\
    forall o cfg,
      o ∈ l -> Hardware.get_config_for_order o w0 = Some cfg ->
      (Session.osc_recv_port o, "/config"%string, config_message w0 o cfg.2)
      ∈ msgs.
Proof.
  revert w0. induction l as [| a l IH]; intros w0.
  - cbn. do 2 (split; [done |]). exists []. rewrite app_nil_r.
    split; [done |]. split; [constructor |].
    intros o cfg Hin. by apply elem_of_nil in Hin.
  - cbn [List.fold_left]. cbv zeta in IH.
    set (w1 := Hardware.send_config w0 a).
    assert (H1 : Hardware.config_decks w1 = Hardware.config_decks w0 /\
                 Hardware.debug_mode w1 = Hardware.debug_mode w0 /\
                 exists new,
                   Hardware.osc_out w1 = Hardware.osc_out w0 ++ new /\
                   Forall (fun m : Z * string * list osc_arg =>
                             m.1.2 = "/config"%string) new /\
                   forall cfg,
                     Hardware.get_config_for_order a w0 = Some cfg ->
                     (Session.osc_recv_port a, "/config"%string,
                      config_message w0 a cfg.2) ∈ new).
    { subst w1. unfold Hardware.send_config.
      destruct (Hardware.get_config_for_order a w0) as [cfg |].
      - do 2 (split; [done |]). eexists. split; [reflexivity |]. split.
        + destruct (Hardware.debug_mode w0); repeat constructor.
        + intros cfg' [= <-]. apply elem_of_cons. by left.
      - do 2 (split; [done |]). exists []. rewrite app_nil_r.
        split; [done |]. split; [constructor | done]. }
    destruct H1 as (A1 & A2 & new & A3 & A4 & A5).
    destruct (IH w1) as (I1 & I2 & msgs & I3 & I4 & I5).
    rewrite I1, I2, I3, A1, A2, A3. do 2 (split; [done |]).
    exists (new ++ msgs). split; [by rewrite app_assoc |].
    split; [by apply Forall_app |].
    intros o cfg Hin Hcfg. apply elem_of_app.
    apply elem_of_cons in Hin as [-> | Hin]; [left; by apply A5 |].
    right. rewrite <- A2. apply I5; [exact Hin |].
    unfold Hardware.get_config_for_order in *. by rewrite A1.
Qed.

(** X27: the config broadcast ([send_initial_config] and every round of
    the periodic sender) sends only [/config] messages; for every active
    window with a configured deck it sends, to the port the adapter of
    that window listens on, the window's order, its offset and the debug
    flag; and an adapter that has no config yet accepts this message,
    takes the offset and the debug mode, and stops requesting. *)
Theorem config_broadcast_reaches_every_window (w : Hardware.World) :
  let w' := Hardware.send_initial_config w in
  (exists msgs,
     Hardware.osc_out w' = Hardware.osc_out w ++ msgs /\
     Forall (fun m : Z * string * list osc_arg => m.1.2 = "/config"%string)
       msgs) /\
  forall order cfg,
    order ∈ Hardware.get_active_display_orders w ->
    Hardware.get_config_for_order order w = Some cfg ->
    let msg := config_message w order cfg.2 in
    (Session.osc_recv_port order, "/config"%string, msg)
    ∈ Hardware.osc_out w' /\
    forall song pre,
      Forall (fun e => Session.is_accepted_config int_of_str order e = false)
        pre ->
      let s' :=
        Session.osc_config_handler int_of_str song msg
          (Session.run int_of_str (Session.init order) pre) in
      Session.config_received s' = true /\
      Session.h_offset s' = cfg.2 /\
      Session.initial_h_offset s' = cfg.2 /\
      Session.debug_mode s' = Hardware.debug_mode w /\
      Session.request_config_round s' = s'.
Proof.
  cbv zeta. unfold Hardware.send_initial_config.
  destruct (send_config_fold (Hardware.get_active_display_orders w) w)
    as (_ & _ & msgs & Ho & Hall & Hin).
  split; [by exists msgs |].
  intros order cfg Hact Hcfg. split.
  { rewrite Ho. apply elem_of_app. right. by apply Hin. }
  intros song pre Hpre.
  destruct (SessionProofs.run_before_config int_of_str order pre
              (Session.init order) eq_refl eq_refl Hpre) as [Hord Hc].
  set (s := Session.run int_of_str (Session.init order) pre) in *.
  assert (Ha : Session.accepted int_of_str (Session.display_order s)
                 (config_message w order cfg.2)
               = Some (cfg.2, Hardware.debug_mode w)).
  { rewrite Hord. unfold Session.accepted, Session.config_args.
    cbn. rewrite Z.eqb_refl. by destruct (Hardware.debug_mode w). }
  destruct (SessionProofs.config_first int_of_str song _ _ _ s Hc Ha)
    as (H1 & H2 & _ & H3 & _).
  do 3 (split; [assumption |]).
  split; [by apply (config_sets_debug song _ cfg.2) |].
  unfold Session.request_config_round. by rewrite H3.
Qed.

End Handshake.

(** *** Notices and stop marks end to end *)

Section EndToEnd.

Variable int_of_str : string -> option Z.
Variable float_of_str : string -> option spec_float.

Local Abbreviation dispatch := (Hardware.dispatch int_of_str float_of_str).

(** X28: the announce round of an adapter whose window starts beyond the
    session sends [/ablonline] and then [/structural_mismatch] with flag
    1 to the hardware port; and whatever a configured window with a key
    0 showed before, after the hardware handled the two messages the
    window is online with the heartbeat of the first message, its
    mismatch flag is set, the last image drawn is the notice on key 0,
    and a further [/ablonline] draws nothing over it. *)
Theorem mismatch_round_leaves_the_notice (s : Session.ClipDeck)
  (w : Hardware.World) (now now' : Q) (order : Z) (deck : Hardware.Deck) :
  Session.display_order s = order ->
  Session.structural_mismatch s = true ->
  Hardware.get_deck_for_cs order w = Some deck ->
  Hardware.has_key deck 0 = true ->
  let s' := Session.send_ablonline_round s in
  let m1 := [OInt order] in
  let m2 := [OInt order; OInt 1] in
  let w1 := (dispatch now "/ablonline" m1 w).1 in
  let w2 := (dispatch now' "/structural_mismatch" m2 w1).1 in
  (exists d1 d2,
     Session.out s'
     = Session.out s
       ++ Session.OscSend (Session.osc_send_port s) "/ablonline" m1 :: d1
       ++ Session.OscSend (Session.osc_send_port s) "/structural_mismatch" m2
          :: d2) /\
  Hardware.last_ablonline (Hardware.state_of order w2) = now /\
  Hardware.ableton_offline (Hardware.state_of order w2) = false /\
  Hardware.structural_mismatch (Hardware.state_of order w2) = true /\
  last (Hardware.images w2)
  = Some (Hardware.serial_number deck,
          Hardware.notice_image "Wrong Channel Number" (255, 125, 0)) /\
  forall t args,
    Hardware.order_or_zero int_of_str args = Some order ->
    Hardware.images (dispatch t "/ablonline" args w2).1 = Hardware.images w2.
Proof.
  intros Ho Hm Hd Hk s' m1 m2 w1 w2.
  change w1 with (Hardware.osc_ablonline_handler int_of_str now m1 w).1
    in w2 |- *.
  change w2
    with (Hardware.osc_structural_mismatch_handler int_of_str m2
            (Hardware.osc_ablonline_handler int_of_str now m1 w).1).1.
  clear w1 w2.
  set (w1 := (Hardware.osc_ablonline_handler int_of_str now m1 w).1).
  destruct (HardwareExtras.ablonline_effect int_of_str now m1 order deck w
              eq_refl Hd) as (_ & _ & _ & _ & Hod & _).
  destruct (HardwareProofs.ablonline_heartbeat int_of_str now m1 order w
              eq_refl) as [Hb1 Hb2].
  fold w1 in Hod, Hb1, Hb2.
  assert (Hd1 : Hardware.get_deck_for_cs order w1 = Some deck)
    by (unfold Hardware.get_deck_for_cs; by rewrite Hod).
  destruct (HardwareExtras.mismatch_effect int_of_str (OInt order) (OInt 1)
              [] order deck w1 eq_refl Hd1) as (_ & Hs2 & Hod2 & Hi2).
  fold m2 in Hs2, Hod2, Hi2.
  set (w2 := (Hardware.osc_structural_mismatch_handler int_of_str m2 w1).1)
    in *.
  split.
  { subst s'. clear -Ho Hm.
    destruct s as [cr dm dc o h ih v lh lv sm port log].
    cbn in Ho, Hm. subst. subst m1 m2.
    unfold Session.send_ablonline_round, Session.send_message,
      Session.osc_send, Session.emit.
    cbn [Session.structural_mismatch Session.out Session.osc_send_port
         Session.display_order Session.debug_mode Session.debug_client
         Session.int_of_bool].
    eexists _, _. rewrite <- app_assoc. reflexivity. }
  rewrite Hs2. cbn [Hardware.last_ablonline Hardware.ableton_offline
    Hardware.structural_mismatch Hardware.set_waiting_cleared
    Hardware.set_structural_mismatch].
  do 3 (split; [done |]). split.
  { rewrite Hi2, Hk. cbn [Osc.py_bool Z.eqb negb]. by rewrite last_snoc. }
  intros t args Ha.
  change (dispatch t "/ablonline" args w2)
    with (Hardware.osc_ablonline_handler int_of_str t args w2).
  assert (Hd2 : Hardware.get_deck_for_cs order w2 = Some deck)
    by (unfold Hardware.get_deck_for_cs; by rewrite Hod2, Hod).
  destruct (HardwareExtras.ablonline_effect int_of_str t args order deck w2
              Ha Hd2) as (_ & _ & _ & _ & _ & Hi3).
  rewrite Hi3, Hs2. cbn [Hardware.waiting_cleared
    Hardware.set_waiting_cleared Osc.py_bool Z.eqb negb].
  by rewrite app_nil_r.
Qed.

(** The trigger of an empty slot inside the session: the track is
    stopped and [/track_stopped] is sent before anything else. *)
Lemma trigger_on_empty_slot (song song' : Session.Song) (t sc : Z)
  (s : Session.ClipDeck) (track : Session.Track) :
  0 <= Session.h_offset s + t < Session.len_tracks song ->
  0 <= Session.v_offset s + sc < Session.len_scenes song ->
  Py.index (Session.tracks song) (Session.h_offset s + t) = Some track ->
  Py.index (Session.clip_slots track) (Session.v_offset s + sc) = Some None ->
  exists rest,
    Session.out (Session.handle_trigger_clip song song' t sc s)
    = Session.out s
      ++ Session.StopAllClips (Session.h_offset s + t)
      :: Session.OscSend (Session.osc_send_port s) "/track_stopped"
           [OInt (Session.display_order s); OInt t;
            OInt (Session.int_of_bool (Session.any_slot_active track))]
      :: rest.
Proof.
  intros Ht Hs Htr Hsl.
  unfold Session.handle_trigger_clip, Session.trigger_target.
  replace ((0 <=? Session.h_offset s + t)
           && (Session.h_offset s + t <? Session.len_tracks song)
           && (0 <=? Session.v_offset s + sc)
           && (Session.v_offset s + sc <? Session.len_scenes song))
    with true
    by (symmetry; rewrite !andb_true_iff, !Z.leb_le, !Z.ltb_lt; lia).
  rewrite Htr. cbn [mbind option_bind]. rewrite Hsl. cbn [mbind option_bind].
  set (s1 := Session.send_message _ _).
  assert (H1 : exists l,
    Session.out s1
    = Session.out s
      ++ Session.StopAllClips (Session.h_offset s + t)
      :: Session.OscSend (Session.osc_send_port s) "/track_stopped"
           [OInt (Session.display_order s); OInt t;
            OInt (Session.int_of_bool (Session.any_slot_active track))]
      :: l).
  { subst s1. eexists. cbn. rewrite <- app_assoc. reflexivity. }
  destruct H1 as [l1 H1].
  destruct (SessionProofs.check_structural_validity_out song' s1)
    as [l2 H2].
  destruct (Session.check_structural_validity song' s1) as [valid s2].
  cbn [snd] in H2. destruct valid.
  - destruct (SessionProofs.prepare_and_send_clip_info_out song' s2)
      as [l3 H3].
    exists (l1 ++ l2 ++ l3). rewrite H3, H2, H1.
    by rewrite <- !app_assoc.
  - exists (l1 ++ l2). rewrite H2, H1. by rewrite <- !app_assoc.
Qed.

(** X29: a press of key [k] over an empty slot inside the session.  The
    adapter stops the track and sends [/track_stopped] with the column of
    the key and a flag that is 1 when some slot of the track holds a
    playing or triggered clip and 0 otherwise; the hardware, handling that message for a configured window, marks
    the four keys of the column of [k], among them [k] itself, and
    schedules their restores 4 s later when a clip was active and 0.5 s
    later otherwise. *)
Theorem stop_on_empty_slot_marks_the_column (k : Z)
  (song song' : Session.Song) (s : Session.ClipDeck)
  (track : Session.Track) :
  0 <= k < 32 ->
  0 <= Session.h_offset s -> 0 <= Session.v_offset s ->
  Session.h_offset s + k mod 8 < Session.len_tracks song ->
  Session.v_offset s + k / 8 < Session.len_scenes song ->
  Py.index (Session.tracks song) (Session.h_offset s + k mod 8)
  = Some track ->
  Py.index (Session.clip_slots track) (Session.v_offset s + k / 8)
  = Some None ->
  let order := Session.display_order s in
  let active := bool_decide (Session.has_active_clip track) in
  let msg := [OInt order; OInt (k mod 8); OInt (if active then 1 else 0)] in
  (exists rest,
     Session.out
       (Session.osc_trigger_clip_handler song song'
          [OInt (k mod 8); OInt (k / 8)] s)
     = Session.out s
       ++ Session.StopAllClips (Session.h_offset s + k mod 8)
       :: Session.OscSend (Session.osc_send_port s) "/track_stopped" msg
       :: rest) /\
  forall w deck now,
    Hardware.get_deck_for_cs order w = Some deck ->
    let r := dispatch now "/track_stopped" msg w in
    r.2 = Hardware.Returned /\
    k ∈ Hardware.column_keys (k mod 8) /\
    Hardware.stopped_keys (Hardware.state_of order r.1)
    = list_to_set (Hardware.column_keys (k mod 8))
      ∪ Hardware.stopped_keys (Hardware.state_of order w) /\
    exists restores,
      Hardware.timers r.1 = Hardware.timers w ++ restores /\
      List.map
        (fun e : Q * Hardware.timer =>
           match e.2 with
           | Hardware.StopRestore key _ _ _ _ _ => key
           | Hardware.FlashRestore key _ _ => key
           end) restores
      = Hardware.column_keys (k mod 8) /\
      Forall
        (fun e : Q * Hardware.timer =>
           e.1 = (now + (if active then 4 else 1 # 2))%Q) restores.
Proof.
  intros Hk Hh Hv Ht Hs Htr Hsl order active msg.
  assert (Hti : 0 <= k mod 8 < 8) by (apply Z.mod_pos_bound; lia).
  assert (Hsi : 0 <= k / 8 < 4)
    by (split; [apply Z.div_pos; lia | apply Z.div_lt_upper_bound; lia]).
  split.
  { cbn [Session.osc_trigger_clip_handler]. subst msg active.
    rewrite <- SessionProofs.any_slot_active_decide.
    apply trigger_on_empty_slot; try assumption; lia. }
  intros w deck now Hd r. subst r.
  change (dispatch now "/track_stopped" msg w)
    with (Hardware.osc_track_stopped_handler int_of_str now msg w).
  destruct (HardwareExtras.track_stopped_effect int_of_str now (OInt order)
              (OInt (k mod 8)) (OInt (if active then 1 else 0)) [] order
              (k mod 8) deck w eq_refl eq_refl Hd)
    as (_ & Hr & Hst & Htm & _).
  fold msg in Hr, Hst, Htm.
  assert (Hb : Osc.py_bool (OInt (if active then 1 else 0)) = active)
    by (by destruct active).
  rewrite Hb in Htm.
  split; [exact Hr |]. split.
  { unfold Hardware.column_keys.
    assert (Hidx : k / 8 * 8 + k mod 8 = k)
      by (pose proof (Z.div_mod k 8); lia).
    assert (Hc : k / 8 = 0 \/ k / 8 = 1 \/ k / 8 = 2 \/ k / 8 = 3) by lia.
    rewrite <- Hidx at 1. cbn [Py.range List.seq List.map].
    rewrite !elem_of_cons.
    destruct Hc as [-> | [-> | [-> | ->]]]; auto. }
  split; [by rewrite Hst |].
  eexists. split; [exact Htm |]. split.
  - rewrite List.map_map. cbn [snd]. apply List.map_id.
  - apply Forall_forall. intros e He.
    apply list_elem_of_In, List.in_map_iff in He as (key & <- & _). done.
Qed.

End EndToEnd.

(** What the session understands of a message the key handler sends. *)
Local Abbreviation understood w k :=
  (fun m : Z * string * list osc_arg =>
     (snd (fst m) = "/trigger_clip"%string /\
      snd m = [OInt (k mod 8); OInt (k / 8)]) \/
     (snd (fst m) = "/scroll"%string /\
      exists d : Session.scroll_direction,
        snd m = [OStr (Session.direction_name d)] /\
        Session.scroll_step (Session.direction_name d)
        = (Session.direction_name d, 1) /\
        (d = Session.Reset ->
         Hardware.scroll_mode w = Hardware.SCROLL_BOTH_RESET))).

(** X30: a key press sends at most one message to the adapter, plus its
    copy to the debug port in debug mode.  The message is either a clip
    trigger with the column and row of the key, or a scroll command whose
    direction is one of up, down, left, right and reset without the fast
    modifier, which the adapter reads as a step of one; reset is sent in
    the both-reset layout only. *)
Theorem key_messages_are_understood (k o : Z) (w : Hardware.World) :
  exists m dup,
    Hardware.osc_out (Hardware.on_key_change k o w)
    = Hardware.osc_out w ++ m ++ dup /\
    (length m <= 1)%nat /\
    Forall (fun x => fst (fst x) = Session.osc_recv_port o) m /\
    Forall (understood w k) m /\
    dup = (if Hardware.debug_mode w
           then (fun x : Z * string * list osc_arg =>
                   (fst (fst x) + 1000, snd (fst x), snd x)) <$> m
           else []).
Proof.
  assert (Hsend : forall a x w0,
    Hardware.osc_out w0 = Hardware.osc_out w ->
    Hardware.debug_mode w0 = Hardware.debug_mode w ->
    understood w k (Session.osc_recv_port o, a, x) ->
    exists m dup,
      Hardware.osc_out (Hardware.send_osc_message o a x w0)
      = Hardware.osc_out w ++ m ++ dup /\
      (length m <= 1)%nat /\
      Forall (fun x => fst (fst x) = Session.osc_recv_port o) m /\
      Forall (understood w k) m /\
      dup = (if Hardware.debug_mode w
             then (fun x : Z * string * list osc_arg =>
                     (fst (fst x) + 1000, snd (fst x), snd x)) <$> m
             else [])).
  { intros a x w0 Ho Hd Hu. exists [(Session.osc_recv_port o, a, x)].
    eexists. unfold Hardware.send_osc_message.
    cbn [Hardware.osc_out Hardware.set_osc_out]. rewrite Ho, Hd.
    split; [reflexivity |]. split; [cbn; lia |].
    split; [by constructor |].
    split; [constructor; [exact Hu | constructor] |].
    by destruct (Hardware.debug_mode w). }
  assert (Hnil : exists m dup,
    Hardware.osc_out (Hardware.init_cs_state o w)
    = Hardware.osc_out w ++ m ++ dup /\
    (length m <= 1)%nat /\
    Forall (fun x => fst (fst x) = Session.osc_recv_port o) m /\
    Forall (understood w k) m /\
    dup = (if Hardware.debug_mode w
           then (fun x : Z * string * list osc_arg =>
                   (fst (fst x) + 1000, snd (fst x), snd x)) <$> m
           else [])).
  { exists [], []. rewrite HardwareExtras.osc_out_init, app_nil_r.
    split; [done |]. split; [cbn; lia |]. do 2 (split; [constructor |]).
    by destruct (Hardware.debug_mode w). }
  assert (Hdir : forall d,
    (d = Session.Reset ->
     Hardware.scroll_mode w = Hardware.SCROLL_BOTH_RESET) ->
    understood w k
      (Session.osc_recv_port o, "/scroll"%string,
       [OStr (Session.direction_name d)])).
  { intros d Hr. right. split; [done |]. exists d. split; [done |].
    split; [| exact Hr].
    exact (SessionProofs.scroll_step_wire (d, false)). }
  assert (Htrig : understood w k
            (Session.osc_recv_port o, "/trigger_clip"%string,
             [OInt (k mod 8); OInt (k / 8)])) by (by left).
  pose proof (HardwareExtras.osc_out_init o w) as Hi1.
  pose proof (HardwareExtras.debug_mode_init o w) as Hi2.
  unfold Hardware.on_key_change, Hardware.get_cs_state.
  destruct (String.eqb (Hardware.scroll_mode w) Hardware.SCROLL_VERTICAL).
  - destruct (k =? 30);
      [apply Hsend; [done | done | by apply (Hdir Session.Up)] |].
    destruct (k =? 31);
      [apply Hsend; [done | done | by apply (Hdir Session.Down)] |].
    by apply Hsend.
  - destruct (String.eqb (Hardware.scroll_mode w) Hardware.SCROLL_BOTH).
    + repeat case_match; try exact Hnil;
        try (by apply Hsend);
        apply Hsend; try done;
        first [ by apply (Hdir Session.Up) | by apply (Hdir Session.Down)
              | by apply (Hdir Session.Left) | by apply (Hdir Session.Right) ].
    + destruct (String.eqb_spec (Hardware.scroll_mode w)
                  Hardware.SCROLL_BOTH_RESET) as [Hm | _];
        [| by apply Hsend].
      repeat case_match; try exact Hnil;
        try (by apply Hsend);
        apply Hsend; try done;
        first [ by apply (Hdir Session.Up) | by apply (Hdir Session.Down)
              | by apply (Hdir Session.Reset) | by apply (Hdir Session.Right) ].
Qed.

(** *** The properties on the example session *)

(** The example parsers reject text with a bar. *)
Lemma digits_rejects_bars (s : string) (acc : Z) :
  Hardware.bars s <> 0%nat -> Examples.digits s acc = None.
Proof.
  revert acc. induction s as [| a s IH]; intros acc; [done |].
  cbn [Hardware.bars Examples.digits].
  destruct (Ascii.eqb_spec a "|") as [-> | Hne]; [reflexivity |].
  intros H. destruct (_ && _); [by apply IH | reflexivity].
Qed.

Lemma float_rejects_bars (s : string) :
  Hardware.bars s <> 0%nat -> Examples.float_of_str s = None.
Proof.
  intros H. unfold Examples.float_of_str.
  assert (Hi : Examples.int_of_str s = None); [| by rewrite Hi].
  destruct s as [| a s]; [done |].
  destruct (Ascii.eqb_spec a "-") as [-> | Hne].
  - destruct s as [| c s]; [done |].
    cbn [Examples.int_of_str].
    rewrite digits_rejects_bars; [reflexivity | exact H].
  - replace (Examples.int_of_str (String a s))
      with (Examples.digits (String a s) 0);
      [by apply digits_rejects_bars |].
    destruct a as [[] [] [] [] [] [] [] []]; try reflexivity.
    by destruct Hne.
Qed.

Lemma snapshot_cell_survives_the_wire_witness :
  Hardware.parse_cell Examples.int_of_str Examples.float_of_str
    (Session.cell_wire Examples.lead_cell)
  = Some ("Lead"%string, 16711680, Float.of_Z 9).
Proof.
  destruct (snapshot_cell_survives_the_wire Examples.int_of_str
              Examples.float_of_str Examples.lead_cell eq_refl) as [_ H].
  apply H; by vm_compute.
Defined.

Lemma clip_name_with_bar_drops_the_cell_witness :
  Hardware.parse_cell Examples.int_of_str Examples.float_of_str
    (Session.cell_wire Examples.barred_cell) = None.
Proof.
  destruct (clip_name_with_bar_drops_the_cell Examples.int_of_str
              Examples.float_of_str Examples.barred_cell
              ltac:(by vm_compute) float_rejects_bars) as (_ & H & _).
  exact H.
Defined.

Lemma config_request_is_answered_and_accepted_witness :
  let s := Session.run Examples.int_of_str (Session.init 0)
             Examples.before_config in
  let s2 :=
    Session.osc_config_handler Examples.int_of_str Examples.scenario_song
      [OInt 0; OInt 0] (Session.request_config_round s) in
  Session.config_received s2 = true /\ Session.h_offset s2 = 0 /\
  Session.request_config_round s2 = s2.
Proof.
  cbv zeta.
  destruct (config_request_is_answered_and_accepted Examples.int_of_str 0
              Examples.before_config Examples.scenario_song Examples.one_deck
              (0, 0) ltac:(repeat constructor) eq_refl)
    as (_ & _ & _ & H1 & H2 & _ & _ & H3).
  split; [exact H1 |]. split; [exact H2 | exact H3].
Defined.

Lemma mismatch_round_leaves_the_notice_witness :
  let w1 := (Hardware.dispatch Examples.int_of_str Examples.float_of_str 1
               "/ablonline" [OInt 0] Examples.one_deck).1 in
  let w2 := (Hardware.dispatch Examples.int_of_str Examples.float_of_str 1
               "/structural_mismatch" [OInt 0; OInt 1] w1).1 in
  last (Hardware.images w2)
  = Some ("XL"%string,
          Hardware.notice_image "Wrong Channel Number" (255, 125, 0)).
Proof.
  cbv zeta.
  destruct (mismatch_round_leaves_the_notice Examples.int_of_str
              Examples.float_of_str Examples.mismatched Examples.one_deck 1 1
              0 Examples.xl eq_refl eq_refl eq_refl eq_refl)
    as (_ & _ & _ & _ & H & _).
  exact H.
Defined.

Lemma stop_on_empty_slot_marks_the_column_witness :
  (exists rest,
     Session.out
       (Session.osc_trigger_clip_handler Examples.queued_song
          Examples.queued_song [OInt 0; OInt 1] Examples.configured)
     = Session.StopAllClips 0
       :: Session.OscSend 9000 "/track_stopped" [OInt 0; OInt 0; OInt 1]
       :: rest) /\
  (exists rest,
     Session.out
       (Session.osc_trigger_clip_handler Examples.queued_song
          Examples.queued_song [OInt 1; OInt 1] Examples.configured)
     = Session.StopAllClips 1
       :: Session.OscSend 9000 "/track_stopped" [OInt 0; OInt 1; OInt 0]
       :: rest).
Proof.
  split.
  - destruct (stop_on_empty_slot_marks_the_column Examples.int_of_str
                Examples.float_of_str 8 Examples.queued_song
                Examples.queued_song Examples.configured
                (Session.mkTrack [Some Examples.cue; None; None; None])
                ltac:(lia) ltac:(by vm_compute) ltac:(by vm_compute)
                ltac:(by vm_compute) ltac:(by vm_compute) eq_refl eq_refl)
      as [[rest H] _].
    exists rest. exact H.
  - destruct (stop_on_empty_slot_marks_the_column Examples.int_of_str
                Examples.float_of_str 9 Examples.queued_song
                Examples.queued_song Examples.configured
                (Session.mkTrack [Some Examples.old; None; None; None])
                ltac:(lia) ltac:(by vm_compute) ltac:(by vm_compute)
                ltac:(by vm_compute) ltac:(by vm_compute) eq_refl eq_refl)
      as [[rest H] _].
    exists rest. exact H.
Defined.

End ProtocolExtras.
